(** * Temporal forecasting pipeline: example construction, collation, loss routing

    A shallow embedding of [train_fid_temporal.py]:

    - [ForecastingDataset.get_category] and [ForecastingDataset.__getitem__]
      (the example transformer),
    - [get_fid_outputs] (the per-day encoder adapter),
    - [forecaster_collate_fn] (the sequence batch collator),
    - the loss block of [train] (category routing and the guarded
      per-category losses).

    Python exceptions are results in an error monad.  Python floats and
    tensor entries are exact rationals ([Q]); equality of computed numbers
    is [Qeq], while literals that the code writes itself (the sentinels
    [-1.], [-2.], [0.]) are compared with Leibniz equality.  Rounding of
    binary floating point is outside this model. *)

From Stdlib Require Import String Ascii ZArith QArith Qabs Bool Lia Arith List Sorted.
Import ListNotations.

Local Open Scope string_scope.
Local Open Scope Z_scope.
Local Open Scope Q_scope.
Local Open Scope nat_scope.
Local Open Scope list_scope.

Set Implicit Arguments.

(* ================================================================== *)
(** * Python prelude *)

Module Py.

(** The exceptions the modelled code can raise. *)
Inductive exn : Set :=
| IndexError | KeyError | TypeError | ValueError | ZeroDivisionError
| UnboundLocalError | AssertionError | RuntimeError.

Inductive result (A : Type) : Type :=
| Ok (a : A)
| Raise (e : exn).
Arguments Ok {A} a.
Arguments Raise {A} e.

Definition bind {A B} (m : result A) (k : A -> result B) : result B :=
  match m with
  | Ok a => k a
  | Raise e => Raise e
  end.

(** [l[i]] for a non-negative index. *)
Definition getitem {A} (l : list A) (i : nat) : result A :=
  match nth_error l i with
  | Some a => Ok a
  | None => Raise IndexError
  end.

(** [l[i]] for an arbitrary integer: negative indices count from the end. *)
Definition index {A} (l : list A) (i : Z) : result A :=
  let n := Z.of_nat (length l) in
  if (i <? 0)%Z
  then (if (i + n <? 0)%Z then Raise IndexError else getitem l (Z.to_nat (i + n)))
  else getitem l (Z.to_nat i).

(** [l[start:]]: a negative start counts from the end, and is clamped. *)
Definition slice_from {A} (start : Z) (l : list A) : list A :=
  let n := Z.of_nat (length l) in
  let s := if (start <? 0)%Z then Z.max 0 (start + n) else Z.min start n in
  skipn (Z.to_nat s) l.

(** [l[:stop]] for a non-negative stop. *)
Definition slice_to {A} (stop : nat) (l : list A) : list A := firstn stop l.

(** [d[k]] on a dict with string keys, kept as an association list. *)
Fixpoint dict_get {V} (d : list (string * V)) (k : string) : result V :=
  match d with
  | [] => Raise KeyError
  | (k', v) :: d' => if String.eqb k k' then Ok v else dict_get d' k
  end.

(** [x in l] for strings. *)
Definition str_in (x : string) (l : list string) : bool :=
  existsb (String.eqb x) l.

(** [sum(l)] on floats. *)
Definition sum (l : list Q) : Q := fold_left Qplus l 0%Q.

(** [mapM] in the error monad: a list comprehension whose body may raise. *)
Fixpoint traverse {A B} (f : A -> result B) (l : list A) : result (list B) :=
  match l with
  | [] => Ok []
  | a :: l' =>
      match f a with
      | Raise e => Raise e
      | Ok b =>
          match traverse f l' with
          | Raise e => Raise e
          | Ok bs => Ok (b :: bs)
          end
      end
  end.

(** [[f(i, x) for i, x in enumerate(l)]], counting from [i0]. *)
Fixpoint mapi_from {A B} (i0 : nat) (f : nat -> A -> B) (l : list A) : list B :=
  match l with
  | [] => []
  | a :: l' => f i0 a :: mapi_from (S i0) f l'
  end.

Definition mapi {A B} (f : nat -> A -> B) (l : list A) : list B := mapi_from 0 f l.

End Py.

Import Py.

Declare Scope py_scope.
Notation "x <- m ;; k" := (Py.bind m (fun x => k))
  (at level 61, m at next level, right associativity) : py_scope.
Local Open Scope py_scope.

(* ================================================================== *)
(** * Tensors *)

Module Torch.

(** A 1-D tensor is the list of its entries, a 2-D tensor the list of its
    rows, a 3-D tensor the list of its 2-D slices. *)

Definition max_len {A} (seqs : list (list A)) : nat :=
  fold_right (fun s m => Nat.max (length s) m) 0 seqs.

(** [pad_sequence(sequences, batch_first=True, padding_value=v)]: every
    sequence is extended on the right up to the longest one.  [pad] is one
    padding element of the trailing shape (a number for sequences of
    numbers, a row filled with [v] for sequences of rows).  An empty list
    of sequences is refused.  The elements of the sequences are taken to
    have one trailing shape, which torch requires and a list of elements
    does not record. *)
Definition pad_sequence {A} (pad : A) (seqs : list (list A))
  : result (list (list A)) :=
  match seqs with
  | [] => Raise RuntimeError
  | _ :: _ => Ok (map (fun s => s ++ repeat pad (max_len seqs - length s)) seqs)
  end.

(** [torch.full((n, w), v)]. *)
Definition full (n w : nat) (v : Q) : list (list Q) := repeat (repeat v w) n.

(** [t.size()[1]] of a 2-D tensor built by [pad_sequence]. *)
Definition size1 (t : list (list Q)) : nat :=
  match t with
  | [] => 0
  | row :: _ => length row
  end.

Fixpoint zip_with {A B C} (f : A -> B -> C) (l : list A) (l' : list B) : list C :=
  match l, l' with
  | a :: l, b :: l' => f a b :: zip_with f l l'
  | _, _ => []
  end.

(** [dst[:n, :w] = src] where [src] has [n] rows of width [w] and [dst]
    has [n] rows: the first [w] columns of each row are overwritten.  The
    block must fit. *)
Definition assign_block (dst src : list (list Q)) : result (list (list Q)) :=
  if size1 src <=? size1 dst
  then Ok (zip_with (fun d s => s ++ skipn (length s) d) dst src)
  else Raise RuntimeError.

End Torch.

(* ================================================================== *)
(** * Data model *)

(** A JSON scalar that [float()] may be applied to. *)
Inductive scalar : Type :=
| Num (q : Q)
| Str (s : string).

(** [day['target']]: a scalar for binary and regression questions, a list
    of per-choice scores for multiple-choice questions. *)
Inductive target_value : Type :=
| Scalar (v : scalar)
| Vector (l : list scalar).

Record RetrievedDocument : Type := {
  doc_id : string;
  title : string;
  text : string;
  score : scalar
}.

(** One entry of [example['targets']].  [ctxs = None] is Python's [None]. *)
Record DaySnapshot : Type := {
  date : string;
  target : target_value;
  ctxs : option (list RetrievedDocument)
}.

(** [example['choices']]: a dict (bounds of a numeric question) or a list. *)
Inductive choice_set : Type :=
| Mapping (d : list (string * scalar))
| Options (l : list string).

Record QuestionRecord : Type := {
  question_id : string;
  question : string;
  answers : list scalar;
  question_expiry : string;
  choices : choice_set;
  targets : list DaySnapshot
}.

(** The true label: an [int] for binary and multiple-choice questions, a
    [float] for regression. *)
Inductive label : Type :=
| IntLabel (z : Z)
| FloatLabel (q : Q).

(** The day sub-example handed to the encoder: the day without its target,
    with the question's fields copied in. *)
Record DaySubExample : Type := {
  sub_id : nat;
  sub_date : string;
  sub_ctxs : option (list RetrievedDocument);
  sub_question : string;
  sub_answers : list scalar;
  sub_choices : choice_set
}.

(** The arguments [src.forecasting_data_multihead.FiDDataset] is built from.
    The class is an external collaborator; only its constructor call is
    part of this file. *)
Record FiDDataset : Type := {
  fid_examples : list DaySubExample;
  fid_n_context : option nat;
  fid_question_prefix : string;
  fid_title_prefix : string;
  fid_passage_prefix : string;
  fid_choices_prefix : string;
  fid_bound_prefix : string;
  fid_max_choice_len : nat;
  fid_cat : Z
}.

(** The fields of [ForecastingDataset] ([opt.adjust_targets] included). *)
Record ForecastingDataset : Type := {
  data : list QuestionRecord;
  adjust_targets : bool;
  max_seq_len : Z;
  n_context : option nat;
  question_prefix : string;
  title_prefix : string;
  passage_prefix : string;
  choices_prefix : string;
  bound_prefix : string
}.

(** What [__getitem__] returns. *)
Record Item : Type := {
  item_dataset : FiDDataset;
  item_targets : list (list Q);
  item_true_target : label;
  item_cat : Z
}.

(** The three categories of the specification. *)
Inductive Category : Set := BinaryTF | MultiChoice | Regression.

Definition category_id (c : Category) : Z :=
  match c with
  | BinaryTF => 0
  | MultiChoice => 1
  | Regression => 2
  end%Z.

(* ================================================================== *)
(** * The example transformer: [class ForecastingDataset] *)

Definition STR2BOOL : list (string * Z) :=
  [("yes", 1%Z); ("Yes", 1%Z); ("no", 0%Z); ("No", 0%Z)].

Definition max_choice_len : nat := 12.

Section ExampleTransformer.

(** Python's [float()] on a string: [None] stands for [ValueError].  The
    parser is the interpreter's, so it is a parameter here. *)
Variable str_to_float : string -> option Q.

Definition float (v : scalar) : result Q :=
  match v with
  | Num q => Ok q
  | Str s =>
      match str_to_float s with
      | Some q => Ok q
      | None => Raise ValueError
      end
  end.

(** [float(x)] where [x] may also be a list. *)
Definition float_of_target (t : target_value) : result Q :=
  match t with
  | Scalar v => float v
  | Vector _ => Raise TypeError
  end.

(** [x[:n]]: a list is cut, a string yields its leading characters, a
    number is not subscriptable. *)
Definition target_prefix (t : target_value) (n : nat) : result (list scalar) :=
  match t with
  | Vector l => Ok (Py.slice_to n l)
  | Scalar (Str s) =>
      Ok (map (fun c => Str (String c EmptyString))
              (Py.slice_to n (list_ascii_of_string s)))
  | Scalar (Num _) => Raise TypeError
  end.

(** [ord(x)]: defined on strings of exactly one character. *)
Definition ord (v : scalar) : result Z :=
  match v with
  | Str (String c EmptyString) => Ok (Z.of_nat (nat_of_ascii c))
  | _ => Raise TypeError
  end.

(** [x / y] on floats. *)
Definition div (x y : Q) : result Q :=
  if Qeq_bool y 0 then Raise ZeroDivisionError else Ok (x / y)%Q.

Definition label_value (l : label) : Q :=
  match l with
  | IntLabel z => inject_Z z
  | FloatLabel q => q
  end.

(** [i == true_target] for an index [i]. *)
Definition index_is_label (i : nat) (l : label) : bool :=
  match l with
  | IntLabel z => (Z.of_nat i =? z)%Z
  | FloatLabel q => Qeq_bool (inject_Z (Z.of_nat i)) q
  end.

(** [float(b)] for a [bool]. *)
Definition float_of_bool (b : bool) : Q := if b then 1%Q else 0%Q.

Definition is_list (t : target_value) : bool :=
  match t with
  | Vector _ => true
  | Scalar _ => false
  end.

Definition length_choices (c : choice_set) : nat :=
  match c with
  | Mapping d => length d
  | Options l => length l
  end.

Definition tf_choices : list string := ["yes"; "no"; "Yes"; "No"].

(** [get_category]: the [and]/[or] chain is evaluated left to right and
    stops as soon as its value is known, so an index is only taken when
    the chain reaches it. *)
Definition get_category (example : QuestionRecord) : result Z :=
  match choices example with
  | Mapping _ => Ok 2%Z
  | Options l =>
      c0 <- Py.getitem l 0 ;;
      first_two_foreign <-
        (if negb (Py.str_in c0 tf_choices)
         then c1 <- Py.getitem l 1 ;; Ok (negb (Py.str_in c1 tf_choices))
         else Ok false) ;;
      if first_two_foreign then Ok 1%Z
      else if 2 <? length l then Ok 1%Z
      else
        d0 <- Py.getitem (targets example) 0 ;;
        if is_list (target d0) then Ok 1%Z else Ok 0%Z
  end.

(** The three branches that set [true_target]. *)
Definition get_true_target (cat : Z) (example : QuestionRecord) : result label :=
  if (cat =? 0)%Z then
    a <- Py.getitem (answers example) 0 ;;
    match a with
    | Str s => b <- Py.dict_get STR2BOOL s ;; Ok (IntLabel b)
    | Num _ => Raise KeyError
    end
  else if (cat =? 2)%Z then
    a <- Py.getitem (answers example) 0 ;;
    q <- float a ;; Ok (FloatLabel q)
  else if (cat =? 1)%Z then
    a <- Py.getitem (answers example) 0 ;;
    c <- ord a ;; Ok (IntLabel (c - 65))
  else Raise UnboundLocalError.

(** [not day['ctxs']]. *)
Definition no_ctxs (day : DaySnapshot) : bool :=
  match ctxs day with
  | None | Some [] => true
  | Some (_ :: _) => false
  end.

(** [day['ctxs'] = []], an update of the record itself. *)
Definition clear_ctxs (day : DaySnapshot) : DaySnapshot :=
  {| date := date day; target := target day; ctxs := Some [] |}.

(** [copy.deepcopy(day)] with [id], [question], [answers] and [choices]
    set and [target] deleted. *)
Definition day_copy (id : nat) (example : QuestionRecord) (day : DaySnapshot)
  : DaySubExample :=
  {| sub_id := id;
     sub_date := date day;
     sub_ctxs := ctxs day;
     sub_question := question example;
     sub_answers := answers example;
     sub_choices := choices example |}.

(** The blend of a normalised multiple-choice row toward the true choice. *)
Definition adjust_row (true_target : label) (t : list Q) : list Q :=
  Py.mapi (fun i ti => if index_is_label i true_target
                       then ((ti + 1) / 2)%Q else (ti / 2)%Q) t.

(** The target part of the loop body: what is appended to [targets] for a
    day with documents.  For a category other than 0, 1, 2 nothing is
    appended. *)
Definition append_day_target (adjust : bool) (cat : Z) (true_target : label)
    (length : nat) (day : DaySnapshot) (tgts : list (list Q))
  : result (list (list Q)) :=
  if ((cat =? 0) || (cat =? 2))%Z then
    t <- float_of_target (target day) ;;
    let t := if adjust then ((t + label_value true_target) / 2)%Q else t in
    Ok (tgts ++ [[t]])
  else if (cat =? 1)%Z then
    raw <- target_prefix (target day) length ;;
    targets_mc <- Py.traverse float raw ;;
    let total := Py.sum targets_mc in
    t <- Py.traverse (fun x => div x total) targets_mc ;;
    let t := if adjust then adjust_row true_target t else t in
    Ok (tgts ++ [t])
  else Ok tgts.

(** The local variables the loop updates. *)
Record locals : Type := {
  l_fid_examples : list DaySubExample;
  l_targets : list (list Q);
  l_has_ctxs : bool
}.

(** [for i, day in enumerate(example['targets'])], from index [i].  The
    second component is the list of days as the loop leaves it: days
    without documents have been updated in place, up to the day at which
    an exception stopped the loop. *)
Fixpoint for_days (adjust : bool) (cat : Z) (true_target : label) (length : nat)
    (example : QuestionRecord) (i : nat) (days : list DaySnapshot) (st : locals)
  : result locals * list DaySnapshot :=
  match days with
  | [] => (Ok st, [])
  | day :: rest =>
      if no_ctxs day then
        let (r, rest') :=
          for_days adjust cat true_target length example (S i) rest st in
        (r, clear_ctxs day :: rest')
      else
        match append_day_target adjust cat true_target length day (l_targets st) with
        | Raise e => (Raise e, day :: rest)
        | Ok tgts =>
            let st' := {| l_fid_examples := l_fid_examples st ++ [day_copy i example day];
                          l_targets := tgts;
                          l_has_ctxs := true |} in
            let (r, rest') :=
              for_days adjust cat true_target length example (S i) rest st' in
            (r, day :: rest')
        end
  end.

(** [if not has_ctxs: ...]: the fallback copies the loop variable [day],
    which is the last day the loop visited. *)
Definition fallback (cat : Z) (true_target : label) (length : nat)
    (example : QuestionRecord) (days : list DaySnapshot) (st : locals)
  : result locals :=
  if negb (l_has_ctxs st) then
    match last (map Some days) None with
    | None => Raise UnboundLocalError
    | Some day =>
        let copy := day_copy 0 example day in
        let tgts :=
          if ((cat =? 0) || (cat =? 2))%Z
          then l_targets st ++ [[label_value true_target]]
          else if (cat =? 1)%Z
          then l_targets st ++
               [map (fun i => float_of_bool (index_is_label i true_target))
                    (seq 0 length)]
          else l_targets st in
        Ok {| l_fid_examples := l_fid_examples st ++ [copy];
              l_targets := tgts;
              l_has_ctxs := l_has_ctxs st |}
    end
  else Ok st.

(** [assert len(targets) == len(fid_examples)]. *)
Definition assert_same_length (st : locals) : result locals :=
  if length (l_targets st) =? length (l_fid_examples st)
  then Ok st else Raise AssertionError.

Definition with_targets (example : QuestionRecord) (days : list DaySnapshot)
  : QuestionRecord :=
  {| question_id := question_id example;
     question := question example;
     answers := answers example;
     question_expiry := question_expiry example;
     choices := choices example;
     targets := days |}.

(** The locals as the loop finds them. *)
Definition empty_locals : locals :=
  {| l_fid_examples := []; l_targets := []; l_has_ctxs := false |}.

(** [__getitem__] up to and including the assertion: the category, the
    true label and the two sequences before truncation, together with
    the record as the call leaves it. *)
Definition build_sequences (adjust : bool) (example : QuestionRecord)
  : result (Z * label * locals) * QuestionRecord :=
  match get_category example with
  | Raise e => (Raise e, example)
  | Ok cat =>
      let length := Nat.min (length_choices (choices example)) max_choice_len in
      match get_true_target cat example with
      | Raise e => (Raise e, example)
      | Ok true_target =>
          let st0 := {| l_fid_examples := []; l_targets := []; l_has_ctxs := false |} in
          let (r, days') :=
            for_days adjust cat true_target length example 0 (targets example) st0 in
          (st <- r ;;
           st <- fallback cat true_target length example days' st ;;
           st <- assert_same_length st ;;
           Ok (cat, true_target, st),
           with_targets example days')
      end
  end.

(** The truncation to the last [max_seq_len] entries and the two padding
    steps. *)
Definition pad_targets (tgts : list (list Q)) : result (list (list Q)) :=
  padded <- Torch.pad_sequence (-1)%Q tgts ;;
  Torch.assign_block (Torch.full (length padded) max_choice_len (-1)%Q) padded.

Definition getitem_example (self : ForecastingDataset) (example : QuestionRecord)
  : result Item * QuestionRecord :=
  let (r, example') := build_sequences (adjust_targets self) example in
  (x <- r ;;
   let '(cat, true_target, st) := x in
   let fids := Py.slice_from (- max_seq_len self) (l_fid_examples st) in
   let tgts := Py.slice_from (- max_seq_len self) (l_targets st) in
   targets_pad <- pad_targets tgts ;;
   Ok {| item_dataset :=
           {| fid_examples := fids;
              fid_n_context := n_context self;
              fid_question_prefix := question_prefix self;
              fid_title_prefix := title_prefix self;
              fid_passage_prefix := passage_prefix self;
              fid_choices_prefix := choices_prefix self;
              fid_bound_prefix := bound_prefix self;
              fid_max_choice_len := max_choice_len;
              fid_cat := cat |};
         item_targets := targets_pad;
         item_true_target := true_target;
         item_cat := cat |},
   example').

Fixpoint list_set {A} (l : list A) (i : nat) (a : A) : list A :=
  match l, i with
  | [], _ => []
  | _ :: l', O => a :: l'
  | b :: l', S i' => b :: list_set l' i' a
  end.

Definition with_data (self : ForecastingDataset) (d : list QuestionRecord)
  : ForecastingDataset :=
  {| data := d;
     adjust_targets := adjust_targets self;
     max_seq_len := max_seq_len self;
     n_context := n_context self;
     question_prefix := question_prefix self;
     title_prefix := title_prefix self;
     passage_prefix := passage_prefix self;
     choices_prefix := choices_prefix self;
     bound_prefix := bound_prefix self |}.

(** [self.__getitem__(index)]: the item, and the dataset as the call
    leaves it ([example] is [self.data[index]] itself, not a copy). *)
Definition __getitem__ (self : ForecastingDataset) (index : Z)
  : result Item * ForecastingDataset :=
  match Py.index (data self) index with
  | Raise e => (Raise e, self)
  | Ok example =>
      let (r, example') := getitem_example self example in
      let pos := if (index <? 0)%Z
                 then Z.to_nat (index + Z.of_nat (length (data self)))
                 else Z.to_nat index in
      (r, with_data self (list_set (data self) pos example'))
  end.

End ExampleTransformer.

(* ================================================================== *)
(** * The per-day encoder adapter: [get_fid_outputs] *)

(** A tensor with the flag that says whether it is attached to the gradient
    graph. *)
Record GradTensor : Type := {
  t_data : list (list Q);
  t_requires_grad : bool
}.

Section EncoderAdapter.

(** The encoder on one micro-batch, after the tokenizing collator: one
    hidden vector per sub-example ([model_output[3][-1]], seen through the
    final [view]).  It depends on the encoder's train/eval switch. *)
Variable encoder_forward : bool -> list DaySubExample -> list (list Q).

(** Whether some parameter of the encoder requires a gradient. *)
Variable encoder_trainable : bool.

(** Whether gradients are enabled around the call ([evaluate] calls under
    [torch.no_grad()]). *)
Variable ambient_grad : bool.

(** The exception [torch.cat] raises on an empty list of tensors.  Its
    class depends on the version of torch ([RuntimeError] or
    [ValueError]), and the repository pins none. *)
Variable cat_empty_error : exn.

(** [DataLoader(dataset, sampler=SequentialSampler, batch_size=n,
    drop_last=False)]. *)
Fixpoint batches_fuel {A} (fuel n : nat) (l : list A) : list (list A) :=
  match fuel, l with
  | _, [] => []
  | O, _ :: _ => [l]
  | S fuel', _ :: _ => firstn n l :: batches_fuel fuel' n (skipn n l)
  end.

Definition batches {A} (n : nat) (l : list A) : list (list A) :=
  batches_fuel (length l) n l.

(** The mode after [if not opt.finetune_encoder: mode = 'eval']. *)
Definition effective_mode (finetune_encoder : bool) (mode : string) : string :=
  if negb finetune_encoder then "eval" else mode.

(** One call of the model inside [torch.set_grad_enabled(grad)]. *)
Definition forward_batch (training grad : bool) (batch : list DaySubExample)
  : GradTensor :=
  {| t_data := encoder_forward training batch;
     t_requires_grad := grad && encoder_trainable |}.

(** [torch.cat(outputs, dim=0)], outside the [with] block. *)
Definition cat (outputs : list GradTensor) : result GradTensor :=
  match outputs with
  | [] => Raise cat_empty_error
  | _ :: _ =>
      Ok {| t_data := concat (map t_data outputs);
            t_requires_grad := ambient_grad && existsb t_requires_grad outputs |}
  end.

Definition detach (t : GradTensor) : GradTensor :=
  {| t_data := t_data t; t_requires_grad := false |}.

(** [get_fid_outputs]: the outputs, and the train/eval switch of the
    encoder as the call leaves it ([model.train(mode == 'train')]). *)
Definition get_fid_outputs (dataset : FiDDataset) (finetune_encoder : bool)
    (mode : string) : result GradTensor * bool :=
  let mode := effective_mode finetune_encoder mode in
  let training := String.eqb mode "train" in
  let outputs :=
    map (forward_batch training (String.eqb mode "train"))
        (batches 16 (fid_examples dataset)) in
  (outputs <- cat outputs ;;
   Ok (if String.eqb mode "eval" then detach outputs else outputs),
   training).

End EncoderAdapter.

(* ================================================================== *)
(** * The sequence batch collator: [forecaster_collate_fn] *)

Record Batch : Type := {
  b_examples : list (list (list Q));
  b_mask : list (list bool);
  b_labels : list (list (list Q));
  b_true_labels : list Q;
  b_cats : list Z;
  b_seq_ends : list Z
}.

Section Collator.

(** The trailing dimension [pad_sequence] reads off its first sequence.
    A sequence is the list of its rows, so the width of a tensor without
    rows is not represented: the collator is modelled on sequences of at
    least one day whose rows have one width ([rectangular] below), which
    are the tensors [__getitem__] and [get_fid_outputs] produce. *)
Definition trailing (seqs : list (list (list Q))) : nat :=
  match seqs with
  | (row :: _) :: _ => length row
  | _ => 0
  end.

(** The list of sequences stands for tensors that can be padded
    together: each has at least one row, and all rows have one width. *)
Definition rectangular (seqs : list (list (list Q))) : Prop :=
  Forall (fun s => s <> [] /\
                   Forall (fun row => length row = trailing seqs) s) seqs.

(** [mask[i][seq_len:] = 0]. *)
Definition clear_from (seq_len : nat) (row : list bool) : list bool :=
  firstn seq_len row ++ repeat false (length row - seq_len).

Definition forecaster_collate_fn (examples labels : list (list (list Q)))
    (true_labels : list label) (cats : list Z) : result Batch :=
  let seq_lengths := map (@length (list Q)) labels in
  examples_p <- Torch.pad_sequence (repeat 0%Q (trailing examples)) examples ;;
  labels_p <- Torch.pad_sequence (repeat (-2)%Q (trailing labels)) labels ;;
  ones <- (if trailing labels =? 0 then Raise IndexError
           else Ok (map (map (fun _ : list Q => true)) labels_p)) ;;
  let mask := Torch.zip_with (fun row seq_len => clear_from seq_len row)
                             ones seq_lengths in
  let seq_ends := map (fun n => (Z.of_nat n - 1)%Z) seq_lengths in
  if (length examples_p =? length mask)
     && (Torch.max_len examples =? Torch.max_len labels)
  then Ok {| b_examples := examples_p;
             b_mask := mask;
             b_labels := labels_p;
             b_true_labels := map label_value true_labels;
             b_cats := cats;
             b_seq_ends := seq_ends |}
  else Raise AssertionError.

End Collator.

(* ================================================================== *)
(** * The loss block of [train] *)

Section Loss.

(** The forecaster's hidden state for one day, and the three heads read
    from it ([regressor] is seen through its [squeeze(-1)]).  The heads
    and [nn.LogSoftmax(dim=-1)] are parameters: their values play no part
    in the routing. *)
Variable Hidden : Type.
Variable tf_classifier mc_classifier : Hidden -> list Q.
Variable regressor : Hidden -> Q.
Variable log_softmax : list Q -> list Q.

(** [t[categories == c, ...]]: the rows of [t] whose category is [c]. *)
Definition select {A} (c : Z) (categories : list Z) (t : list A) : list A :=
  map snd (filter (fun p => (fst p =? c)%Z) (combine categories t)).

(** [row.sum()] of a row of booleans. *)
Definition count_true (row : list bool) : Q :=
  inject_Z (Z.of_nat (length (filter (fun b => b) row))).

(** [t.mean()] of a 1-D tensor. *)
Definition mean (l : list Q) : Q :=
  (Py.sum l / inject_Z (Z.of_nat (length l)))%Q.

(** [x * m] for a boolean [m]. *)
Definition masked (x : Q) (m : bool) : Q := (x * float_of_bool m)%Q.

Definition mul_rows (a b : list Q) : list Q := Torch.zip_with Qmult a b.

Variable hidden_state : list (list Hidden).
Variable mask : list (list bool).
Variable labels : list (list (list Q)).
Variable categories : list Z.

Definition tf_logits : list (list (list Q)) :=
  select 0 categories (map (map tf_classifier) hidden_state).
Definition mc_logits : list (list (list Q)) :=
  select 1 categories (map (map mc_classifier) hidden_state).
Definition re_results : list (list Q) :=
  select 2 categories (map (map regressor) hidden_state).

Definition tf_labels : list (list (list Q)) :=
  map (map (firstn 1)) (select 0 categories labels).
Definition mc_labels : list (list (list Q)) := select 1 categories labels.
Definition re_labels : list (list Q) :=
  map (map (fun row => nth 0 row 0%Q)) (select 2 categories labels).

Definition tf_mask : list (list bool) := select 0 categories mask.
Definition mc_mask : list (list bool) := select 1 categories mask.
Definition mc_mask_indi : list (list (list bool)) :=
  map (map (map (fun x => Qle_bool 0 x))) mc_labels.
Definition re_mask : list (list bool) := select 2 categories mask.

Definition size_tf_seq : list Q := map count_true tf_mask.
Definition size_mc_seq : list Q := map count_true mc_mask.
Definition size_re_seq : list Q := map count_true re_mask.

(** [(loss_tf.sum(dim=2) * tf_mask).sum(dim=1) / size_tf_seq], one entry
    per example, with
    [loss_tf = -loss_tf_logprobs * torch.cat((tf_labels, 1-tf_labels), dim=-1)]. *)
Definition tf_example_losses : list Q :=
  Torch.zip_with (fun per_day size => (Py.sum per_day / size)%Q)
    (Torch.zip_with
       (fun days m => Torch.zip_with masked (map Py.sum days) m)
       (Torch.zip_with
          (Torch.zip_with
             (fun logits lab =>
                mul_rows (map Qopp (log_softmax logits))
                         (lab ++ map (fun t => (1 - t)%Q) lab)))
          tf_logits tf_labels)
       tf_mask)
    size_tf_seq.

(** [(loss_mc * mc_mask_indi).sum(dim=(1,2)) / size_mc_seq] with
    [loss_mc = -loss_mc_logprobs * mc_labels]. *)
Definition mc_example_losses : list Q :=
  Torch.zip_with (fun per_day size => (Py.sum per_day / size)%Q)
    (Torch.zip_with
       (fun days indi =>
          Torch.zip_with (fun row ind => Py.sum (Torch.zip_with masked row ind))
                         days indi)
       (Torch.zip_with
          (Torch.zip_with
             (fun logits lab => mul_rows (map Qopp (log_softmax logits)) lab))
          mc_logits mc_labels)
       mc_mask_indi)
    size_mc_seq.

(** [(loss_re * re_mask).sum(dim=1) / size_re_seq] with
    [loss_re = nn.MSELoss(reduction='none')(re_results, re_labels)]. *)
Definition re_example_losses : list Q :=
  Torch.zip_with (fun per_day size => (Py.sum per_day / size)%Q)
    (Torch.zip_with
       (fun days m => Torch.zip_with masked days m)
       (Torch.zip_with
          (Torch.zip_with (fun x y => ((x - y) * (x - y))%Q))
          re_results re_labels)
       re_mask)
    size_re_seq.

(** Each loss starts as [torch.tensor(0.0)] and is only overwritten when
    its category has a row in the batch. *)
Definition loss_tf : Q :=
  if 0 <? length tf_labels then mean tf_example_losses else 0%Q.

Definition loss_mc : Q :=
  if 0 <? length mc_labels then (mean mc_example_losses / 1.74)%Q else 0%Q.

Definition loss_re : Q :=
  if 0 <? length re_labels then (mean re_example_losses / 0.18)%Q else 0%Q.

Definition train_loss : Q := (loss_tf + loss_mc + loss_re)%Q.

End Loss.

(* ================================================================== *)
(** * Specification-side definitions

    The vocabulary of the specification, written from its words; the
    theorems below relate it to the embedding of the code. *)

Section Specification.

Variable str_to_float : string -> option Q.

Definition is_mapping (r : QuestionRecord) : bool :=
  match choices r with
  | Mapping _ => true
  | Options _ => false
  end.

Definition option_values (r : QuestionRecord) : list string :=
  match choices r with
  | Mapping _ => []
  | Options l => l
  end.

Definition yes_no (c : string) : bool :=
  String.eqb c "yes" || String.eqb c "Yes" || String.eqb c "no" || String.eqb c "No".

Definition more_than_two_options (r : QuestionRecord) : bool :=
  2 <? length (option_values r).

(** No listed option is a yes/no word.  On a set of two options this is
    the test of [get_category],
    [choices[0] not in tf_choices and choices[1] not in tf_choices]. *)
Definition no_yes_no_option (r : QuestionRecord) : bool :=
  forallb (fun c => negb (yes_no c)) (option_values r).

(** "With non-yes/no values", as the specification words it: some listed
    option is a value other than a yes/no word. *)
Definition non_yes_no_values (r : QuestionRecord) : bool :=
  existsb (fun c => negb (yes_no c)) (option_values r).

Definition list_valued_first_target (r : QuestionRecord) : bool :=
  match targets r with
  | day :: _ => is_list (target day)
  | [] => false
  end.

(** Category determination as [get_category] decides it where it returns:
    listed options are MultiChoice when there are more than two of them,
    when none of them is a yes/no word, or when the first day's target is
    a list. *)
Definition classify (r : QuestionRecord) : Category :=
  if is_mapping r then Regression
  else if more_than_two_options r || no_yes_no_option r
          || list_valued_first_target r
  then MultiChoice
  else BinaryTF.

(** Category determination as the specification words it: a choice set
    "with more than two options, with non-yes/no values, or a list-valued
    first-day target" is MultiChoice. *)
Definition classify_as_worded (r : QuestionRecord) : Category :=
  if is_mapping r then Regression
  else if more_than_two_options r || non_yes_no_values r
          || list_valued_first_target r
  then MultiChoice
  else BinaryTF.

(** The shape of a record the code indexes without a guard: at least one
    day, and at least two options when the choices are listed. *)
Definition well_formed (r : QuestionRecord) : Prop :=
  targets r <> [] /\ (is_mapping r = false -> 2 <= length (option_values r)).

(** The answer of a record, read per category: a yes/no word, a choice
    letter, a number. *)
Inductive answer_decodes : Category -> list scalar -> label -> Prop :=
| decode_tf (s : string) (b : Z) (rest : list scalar) :
    Py.dict_get STR2BOOL s = Ok b ->
    answer_decodes BinaryTF (Str s :: rest) (IntLabel b)
| decode_mc (c : ascii) (rest : list scalar) :
    answer_decodes MultiChoice (Str (String c EmptyString) :: rest)
                   (IntLabel (Z.of_nat (nat_of_ascii c) - 65))
| decode_re (a : scalar) (q : Q) (rest : list scalar) :
    float str_to_float a = Ok q ->
    answer_decodes Regression (a :: rest) (FloatLabel q).

(** A day's crowd target has the shape of its category: a number for
    binary and regression questions; for multiple choice, scores that are
    numbers and, over the choices kept, do not sum to zero. *)
Inductive target_readable (width : nat) : Category -> target_value -> Prop :=
| readable_tf (v : scalar) (q : Q) :
    float str_to_float v = Ok q -> target_readable width BinaryTF (Scalar v)
| readable_re (v : scalar) (q : Q) :
    float str_to_float v = Ok q -> target_readable width Regression (Scalar v)
| readable_mc (l : list scalar) (scores : list Q) :
    Py.traverse (float str_to_float) (firstn width l) = Ok scores ->
    ~ Py.sum scores == 0 ->
    target_readable width MultiChoice (Vector l).

Definition has_documents (day : DaySnapshot) : Prop := no_ctxs day = false.

(** The days with documents, in order. *)
Definition documented (days : list DaySnapshot) : list DaySnapshot :=
  filter (fun day => negb (no_ctxs day)) days.

(** Every day with documents carries a readable target. *)
Definition days_readable (r : QuestionRecord) : Prop :=
  Forall (fun day =>
            has_documents day ->
            target_readable (Nat.min (length_choices (choices r)) max_choice_len)
                            (classify r) (target day))
         (targets r).

(** The per-day target of the specification, entry by entry. *)
Definition normalized (scores : list Q) : list Q :=
  map (fun s => (s / Py.sum scores)%Q) scores.

Definition blended (true_choice : Z) (row : list Q) (i : nat) : Q :=
  if (Z.of_nat i =? true_choice)%Z
  then ((nth i row 0%Q + 1) / 2)%Q
  else (nth i row 0%Q / 2)%Q.

(** The indicator vector of the true label over [width] choice slots. *)
Definition one_hot (width : nat) (true_choice : Z) : list Q :=
  map (fun i => if (Z.of_nat i =? true_choice)%Z then 1%Q else 0%Q) (seq 0 width).

(** The fallback target of a record without documents. *)
Definition fallback_target (r : QuestionRecord) (l : label) : list Q :=
  match classify r, l with
  | MultiChoice, IntLabel z => one_hot (Nat.min (length_choices (choices r)) max_choice_len) z
  | _, _ => [label_value l]
  end.

(** A target row padded to [max_choice_len] entries. *)
Definition padded_row (row : list Q) : list Q :=
  row ++ repeat (-1)%Q (max_choice_len - length row).

(** The mask row of an example of [n] days in a batch of [M] days. *)
Definition mask_row (n M : nat) : list bool := repeat true n ++ repeat false (M - n).

(** Entrywise equality of tensors of computed numbers. *)
Definition rows_eq (a b : list (list Q)) : Prop := Forall2 (Forall2 Qeq) a b.

End Specification.

(* ================================================================== *)
(** * The other methods of [class ForecastingDataset] *)

Section DatasetMethods.

(** The state of numpy's generator, and [np.random.choice(a, size,
    replace=True)] on it for the cases numpy accepts. *)
Variable Rng : Type.
Variable random_choice :
  Rng -> list QuestionRecord -> nat -> list QuestionRecord * Rng.


(** The inner loop of [pre_filter]: whether it reaches
    [valid_data.append(example)] (and [break]) on some day. *)
Fixpoint usable (days : list DaySnapshot) : bool :=
  match days with
  | [] => false
  | day :: rest => if no_ctxs day then usable rest else true
  end.

(** The outer loop of [pre_filter], with [valid_data] as it grows. *)
Fixpoint pre_filter_loop (examples valid_data : list QuestionRecord)
  : list QuestionRecord :=
  match examples with
  | [] => valid_data
  | example :: rest =>
      pre_filter_loop rest
        (if usable (targets example) then valid_data ++ [example] else valid_data)
  end.

(** [np.random.choice(a, size, replace=True)]: an empty [a] is refused
    unless no sample is asked for. *)
Definition np_random_choice (g : Rng) (a : list QuestionRecord) (size : nat)
  : result (list QuestionRecord) * Rng :=
  match a, size with
  | [], S _ => (Raise ValueError, g)
  | _, _ => let (samples, g') := random_choice g a size in (Ok samples, g')
  end.

(** The first loop of [over_sample]. *)
Definition max_count_of (data_by_class : list (string * list QuestionRecord)) : nat :=
  fold_left (fun max_count kv => Nat.max max_count (length (snd kv))) data_by_class 0.

(** The second loop of [over_sample], with [data] as it grows. *)
Fixpoint over_sample_loop (g : Rng) (max_count : nat)
    (classes : list (string * list QuestionRecord)) (data : list QuestionRecord)
  : result (list QuestionRecord) * Rng :=
  match classes with
  | [] => (Ok data, g)
  | (_, class_data) :: rest =>
      let data := data ++ class_data in
      let class_count := length class_data in
      match np_random_choice g class_data (max_count - class_count) with
      | (Raise e, g') => (Raise e, g')
      | (Ok over_samples, g') =>
          over_sample_loop g' max_count rest (data ++ over_samples)
      end
  end.

(** [over_sample]: the new value of [self.data]. *)
Definition over_sample (g : Rng) (data_by_class : list (string * list QuestionRecord))
  : result (list QuestionRecord) * Rng :=
  over_sample_loop g (max_count_of data_by_class) data_by_class [].

(** [pre_filter(over_sample)]: the outcome, [self.data] as the call leaves
    it, and the generator.  [self.data] is assigned before [over_sample]
    runs, so it holds the filtered list when [over_sample] raises. *)
Definition pre_filter (g : Rng) (data : list QuestionRecord)
    (data_by_class : list (string * list QuestionRecord)) (over_sample_flag : bool)
  : result unit * list QuestionRecord * Rng :=
  let valid_data := pre_filter_loop data [] in
  if over_sample_flag then
    match over_sample g data_by_class with
    | (Raise e, g') => (Raise e, valid_data, g')
    | (Ok data', g') => (Ok tt, data', g')
    end
  else (Ok tt, valid_data, g).

(** What numpy guarantees of [np.random.choice(a, size, replace=True)]:
    [size] samples, each an element of [a]. *)
Definition draws_from_population : Prop :=
  forall g a size,
    a <> [] \/ size = 0 ->
    length (fst (random_choice g a size)) = size /\
    Forall (fun x => In x a) (fst (random_choice g a size)).

End DatasetMethods.


(* ================================================================== *)
(** * Vocabulary for the effects of [__getitem__] *)

(** How the loop may change a day: not at all, or by replacing an empty or
    missing [ctxs] with [[]]. *)
Definition day_cleared (day day' : DaySnapshot) : Prop :=
  day' = day \/ (no_ctxs day = true /\ day' = clear_ctxs day).



(** The days with documents together with their positions in the record,
    counted from [i]. *)
Fixpoint documented_from (i : nat) (days : list DaySnapshot)
  : list (nat * DaySnapshot) :=
  match days with
  | [] => []
  | day :: rest =>
      if no_ctxs day then documented_from (S i) rest
      else (i, day) :: documented_from (S i) rest
  end.


(* ================================================================== *)
(** * The metric block of [train] and [evaluate] *)

(** [torch.gather(t, dim, index)] along the day axis with one position per
    row, as the metric block calls it: row [i] yields its entry at
    [index[i]].  More positions than rows, or a position outside its row,
    a negative one included, are refused. *)
Definition gather {A} (t : list (list A)) (index : list Z) : result (list A) :=
  if length t <? length index then Raise RuntimeError
  else
    Py.traverse
      (fun p : list A * Z =>
         if (snd p <? 0)%Z then Raise RuntimeError
         else match nth_error (fst p) (Z.to_nat (snd p)) with
              | Some x => Ok x
              | None => Raise RuntimeError
              end)
      (combine t index).

(** [torch.argmax(row)]: the position of the first maximal entry. *)
Fixpoint argmax_from (best_i : nat) (best : Q) (i : nat) (row : list Q) : nat :=
  match row with
  | [] => best_i
  | x :: row' =>
      if Qle_bool x best
      then argmax_from best_i best (S i) row'
      else argmax_from i x (S i) row'
  end.

Definition argmax (row : list Q) : result nat :=
  match row with
  | [] => Raise IndexError
  | x :: row' => Ok (argmax_from 0 x 1 row')
  end.

(** [x > 0.5]. *)
Definition above_half (x : Q) : bool := negb (Qle_bool x 0.5).

(** [a == b] for a tensor of labels and a tensor of booleans, and for a
    tensor of labels and a tensor of positions. *)
Definition eq_bools (a : list Q) (b : list bool) : list bool :=
  Torch.zip_with (fun x y => Qeq_bool x (float_of_bool y)) a b.

Definition eq_positions (a : list Q) (b : list nat) : list bool :=
  Torch.zip_with (fun x y => Qeq_bool x (inject_Z (Z.of_nat y))) a b.

(** [-torch.abs(a - b)]. *)
Definition neg_abs_diff (a b : list Q) : list Q :=
  Torch.zip_with (fun x y => (- Qabs (x - y))%Q) a b.

(** What one batch adds to the metric lists. *)
Record Metrics : Type := {
  m_crowd_em_tf : list bool;
  m_em_tf : list bool;
  m_crowd_em_mc : list bool;
  m_em_mc : list bool;
  m_crowd_em_re : list Q;
  m_em_re : list Q;
  m_preds_tf : list bool;
  m_preds_mc : list nat;
  m_preds_re : list Q
}.

Section Metrics.

Variable Hidden : Type.
Variable tf_classifier mc_classifier : Hidden -> list Q.
Variable regressor : Hidden -> Q.

(** [F.softmax(_, dim=-1)], a parameter like [nn.LogSoftmax]. *)
Variable softmax : list Q -> list Q.

Variable hidden_state : list (list Hidden).
Variable labels : list (list (list Q)).
Variable true_labels : list Q.
Variable categories : list Z.
Variable seq_ends : list Z.

Definition tf_probs : list (list Q) :=
  map (map (fun logits => nth 0 (softmax logits) 0%Q))
      (tf_logits tf_classifier hidden_state categories).

Definition seq_ends_indices_tf : list Z := select 0 categories seq_ends.
Definition seq_ends_indices_mc : list Z := select 1 categories seq_ends.
Definition seq_ends_indices_re : list Z := select 2 categories seq_ends.

Definition true_labels_tf : list Q := select 0 categories true_labels.
Definition true_labels_mc : list Q := select 1 categories true_labels.
Definition true_labels_re : list Q := select 2 categories true_labels.

(** [tf_labels.squeeze(-1)]. *)
Definition tf_labels_squeezed : list (list Q) :=
  map (map (fun row => nth 0 row 0%Q)) (tf_labels labels categories).

Definition crowd_preds_tf : result (list bool) :=
  if 0 <? length true_labels_tf
  then xs <- gather tf_labels_squeezed seq_ends_indices_tf ;; Ok (map above_half xs)
  else Ok [].

Definition preds_tf : result (list bool) :=
  if 0 <? length true_labels_tf
  then xs <- gather tf_probs seq_ends_indices_tf ;; Ok (map above_half xs)
  else Ok [].

Definition crowd_preds_mc : result (list nat) :=
  if 0 <? length true_labels_mc
  then rows <- gather (mc_labels labels categories) seq_ends_indices_mc ;;
       Py.traverse argmax rows
  else Ok [].

(** [seq_ends_expand] has one column per column of [mc_labels]: the
    gathered row of logits is read over these columns, which it must
    have. *)
Definition preds_mc : result (list nat) :=
  if 0 <? length true_labels_mc
  then rows <- gather (mc_logits mc_classifier hidden_state categories)
                      seq_ends_indices_mc ;;
       let width := trailing (mc_labels labels categories) in
       rows <- Py.traverse
                 (fun row : list Q =>
                    if length row <? width then Raise RuntimeError
                    else Ok (firstn width row))
                 rows ;;
       Py.traverse argmax rows
  else Ok [].

Definition crowd_preds_re : result (list Q) :=
  if 0 <? length true_labels_re
  then gather (re_labels labels categories) seq_ends_indices_re
  else Ok [].

Definition preds_re : result (list Q) :=
  if 0 <? length true_labels_re
  then gather (re_results regressor hidden_state categories) seq_ends_indices_re
  else Ok [].

(** The metric block, from [seq_ends_indices_tf] to the last [extend]. *)
Definition batch_metrics : result Metrics :=
  c_tf <- crowd_preds_tf ;;
  p_tf <- preds_tf ;;
  c_mc <- crowd_preds_mc ;;
  p_mc <- preds_mc ;;
  c_re <- crowd_preds_re ;;
  p_re <- preds_re ;;
  Ok {| m_crowd_em_tf := eq_bools true_labels_tf c_tf;
        m_em_tf := eq_bools true_labels_tf p_tf;
        m_crowd_em_mc := eq_positions true_labels_mc c_mc;
        m_em_mc := eq_positions true_labels_mc p_mc;
        m_crowd_em_re := neg_abs_diff true_labels_re c_re;
        m_em_re := neg_abs_diff true_labels_re p_re;
        m_preds_tf := p_tf;
        m_preds_mc := p_mc;
        m_preds_re := p_re |}.

(** One entry of [raw_logits]: the rows of the binary or multiple-choice
    head, or the values of the regressor. *)
Inductive raw_entry : Type :=
| RawRows (rows : list (list Q))
| RawValues (values : list Q).

(** [l[:stop]] for an arbitrary integer. *)
Definition slice_until {A} (stop : Z) (l : list A) : list A :=
  let n := Z.of_nat (length l) in
  firstn (Z.to_nat (if (stop <? 0)%Z then Z.max 0 (stop + n) else Z.min stop n)) l.

(** The loop of [evaluate] that fills [raw_logits], from position [i] with
    the three counters; [seq_lens] is [seq_ends + 1]. *)
Fixpoint raw_logits_loop (seq_lens : list Z) (cats : list Z)
    (i tf_count mc_count re_count : nat) (raw_logits : list raw_entry)
  : result (list raw_entry) :=
  match cats with
  | [] => Ok raw_logits
  | c :: cats' =>
      if (c =? 0)%Z then
        rows <- Py.getitem (tf_logits tf_classifier hidden_state categories) tf_count ;;
        n <- Py.getitem seq_lens i ;;
        raw_logits_loop seq_lens cats' (S i) (S tf_count) mc_count re_count
          (raw_logits ++ [RawRows (slice_until n rows)])
      else if (c =? 1)%Z then
        rows <- Py.getitem (mc_logits mc_classifier hidden_state categories) mc_count ;;
        n <- Py.getitem seq_lens i ;;
        raw_logits_loop seq_lens cats' (S i) tf_count (S mc_count) re_count
          (raw_logits ++ [RawRows (slice_until n rows)])
      else if (c =? 2)%Z then
        values <- Py.getitem (re_results regressor hidden_state categories) re_count ;;
        n <- Py.getitem seq_lens i ;;
        raw_logits_loop seq_lens cats' (S i) tf_count mc_count (S re_count)
          (raw_logits ++ [RawValues (slice_until n values)])
      else
        raw_logits_loop seq_lens cats' (S i) tf_count mc_count re_count raw_logits
  end.

(** What one batch of [evaluate] appends to [raw_logits]. *)
Definition batch_raw_logits : result (list raw_entry) :=
  raw_logits_loop (map (fun e => (e + 1)%Z) seq_ends) categories 0 0 0 0 [].

End Metrics.


(** The entries of [raw_logits] written example by example: the head of
    the example's category applied to the example's own hidden states,
    cut after [seq_ends + 1] days.  The reference against which the
    counter-driven loop of [evaluate] is compared. *)
Fixpoint entries_by_example {Hidden : Type}
    (tf_classifier mc_classifier : Hidden -> list Q) (regressor : Hidden -> Q)
    (hidden_state : list (list Hidden)) (categories seq_ends : list Z)
  : list raw_entry :=
  match hidden_state, categories, seq_ends with
  | h :: hs, c :: cs, e :: es =>
      (if (c =? 0)%Z then [RawRows (slice_until (e + 1) (map tf_classifier h))]
       else if (c =? 1)%Z then [RawRows (slice_until (e + 1) (map mc_classifier h))]
       else if (c =? 2)%Z then [RawValues (slice_until (e + 1) (map regressor h))]
       else [])
      ++ entries_by_example tf_classifier mc_classifier regressor hs cs es
  | _, _, _ => []
  end.


(* ================================================================== *)
(** * From the items of a batch to the collator's arguments *)

(** The lists [train] and [evaluate] fill from the items of a batch before
    they call the collator. *)
Definition targets_batch (batch : list Item) : list (list (list Q)) :=
  map item_targets batch.
Definition true_labels_batch (batch : list Item) : list label :=
  map item_true_target batch.
Definition cats_batch (batch : list Item) : list Z :=
  map item_cat batch.

(** The true answer of a multiple-choice record names one of the choices
    its target rows keep. *)
Definition answer_in_row (r : QuestionRecord) (tt : label) : Prop :=
  classify r = MultiChoice ->
  exists z, tt = IntLabel z /\
            (0 <= z < Z.of_nat (Nat.min (length_choices (choices r))
                                        max_choice_len))%Z.

(** An item [__getitem__] returned for a well-formed record none of whose
    days has documents. *)
Definition undocumented_item (str_to_float : string -> option Q) (item : Item)
  : Prop :=
  exists (self : ForecastingDataset) (example : QuestionRecord),
    well_formed example /\
    Forall (fun day => no_ctxs day = true) (targets example) /\
    answer_decodes str_to_float (classify example) (answers example)
                   (item_true_target item) /\
    answer_in_row example (item_true_target item) /\
    (0 <= max_seq_len self)%Z /\
    fst (getitem_example str_to_float self example) = Ok item.


(** Two outputs of the forecaster on a padded batch, one hidden state per
    day of the padded length, that agree on the days each example has. *)
Definition same_on_real_days {Hidden : Type} (labels : list (list (list Q)))
    (hidden_state hidden_state' : list (list Hidden)) : Prop :=
  length hidden_state = length labels /\
  length hidden_state' = length labels /\
  forall i lab h h',
    nth_error labels i = Some lab ->
    nth_error hidden_state i = Some h ->
    nth_error hidden_state' i = Some h' ->
    length h = Torch.max_len labels /\
    length h' = Torch.max_len labels /\
    firstn (length lab) h = firstn (length lab) h'.


(* ================================================================== *)
(** * Scenarios

    Concrete records and datasets the statements below are evaluated on. *)

(** A [float()] that refuses every string: the scenarios hold numbers. *)
Definition numbers_only : string -> option Q := fun _ => None.

Definition a_document : RetrievedDocument :=
  {| doc_id := "17"; title := "Forecast"; text := "An article."; score := Str "0.83" |}.

Definition day_with (t : target_value) (docs : option (list RetrievedDocument))
  : DaySnapshot :=
  {| date := "2021-06-01"; target := t; ctxs := docs |}.

Definition record_with (ans : list scalar) (c : choice_set) (days : list DaySnapshot)
  : QuestionRecord :=
  {| question_id := "Q1"; question := "Will it happen?"; answers := ans;
     question_expiry := "2021-12-31"; choices := c; targets := days |}.

(** A dataset with the constructor's default prefixes. *)
Definition dataset_with (records : list QuestionRecord) (adjust : bool) (m : Z)
  : ForecastingDataset :=
  {| data := records; adjust_targets := adjust; max_seq_len := m; n_context := None;
     question_prefix := "question:"; title_prefix := "title:";
     passage_prefix := "context:"; choices_prefix := "choices:";
     bound_prefix := "bounds:" |}.

(** A yes/no question answered "yes": three days, one document each, crowd
    targets 0.6, 0.7, 0.9. *)
Definition binary_record : QuestionRecord :=
  record_with [Str "yes"] (Options ["yes"; "no"])
    [day_with (Scalar (Num 0.6)) (Some [a_document]);
     day_with (Scalar (Num 0.7)) (Some [a_document]);
     day_with (Scalar (Num 0.9)) (Some [a_document])].

(** A three-choice question answered "B": one day with raw scores 1, 2, 1. *)
Definition choice_record : QuestionRecord :=
  record_with [Str "B"] (Options ["Alpha"; "Beta"; "Gamma"])
    [day_with (Vector [Num 1; Num 2; Num 1]) (Some [a_document])].

(** The same question on a day without documents. *)
Definition silent_record : QuestionRecord :=
  record_with [Str "B"] (Options ["Alpha"; "Beta"; "Gamma"])
    [day_with (Vector [Num 1; Num 2; Num 1]) None].

(** A two-option question one of whose options is a yes/no word. *)
Definition mixed_record : QuestionRecord :=
  record_with [Str "yes"] (Options ["yes"; "maybe"])
    [day_with (Scalar (Num 0.5)) (Some [a_document])].

(** A numeric question: the choices are a dict of bounds. *)
Definition numeric_record : QuestionRecord :=
  record_with [Num 0.25] (Mapping [("min", Num 0); ("max", Num 1)])
    [day_with (Scalar (Num 0.5)) (Some [a_document])].

(** A numeric question without any day. *)
Definition dayless_record : QuestionRecord :=
  record_with [Num 0.25] (Mapping [("min", Num 0); ("max", Num 1)]) [].

(** Thirteen choices, the thirteenth ("M") being the answer: one day scoring
    every choice 1. *)
Definition thirteen_record : QuestionRecord :=
  record_with [Str "M"]
    (Options ["a"; "b"; "c"; "d"; "e"; "f"; "g"; "h"; "i"; "j"; "k"; "l"; "m"])
    [day_with (Vector (repeat (Num 1) 13)) (Some [a_document])].


(** A question with a single listed option, which is not a yes/no word. *)
Definition lone_record : QuestionRecord :=
  record_with [Str "A"] (Options ["maybe"])
    [day_with (Scalar (Num 0.5)) (Some [a_document])].

(** A dataset of seventeen sub-examples, numbered from 0: one micro-batch
    of sixteen and one of one. *)
Definition seventeen_days : FiDDataset :=
  {| fid_examples :=
       map (fun i => day_copy i binary_record
                       (day_with (Scalar (Num 0.6)) (Some [a_document])))
           (seq 0 17);
     fid_n_context := None; fid_question_prefix := "question:";
     fid_title_prefix := "title:"; fid_passage_prefix := "context:";
     fid_choices_prefix := "choices:"; fid_bound_prefix := "bounds:";
     fid_max_choice_len := 12; fid_cat := 0 |}.

(** An encoder that returns, for each sub-example on its own, its [id]. *)
Definition id_encoder (training : bool) (batch : list DaySubExample)
  : list (list Q) :=
  map (fun sub => [inject_Z (Z.of_nat (sub_id sub))]) batch.

(** Entrywise comparison of tensors, as a test. *)
Definition row_eqb (a b : list Q) : bool :=
  (length a =? length b) && forallb (fun p => Qeq_bool (fst p) (snd p)) (combine a b).

Definition rows_eqb (a b : list (list Q)) : bool :=
  (length a =? length b) && forallb (fun p => row_eqb (fst p) (snd p)) (combine a b).

(** Hidden vectors and padded targets of two examples, of 2 and of 4 days
    (hidden size 8). *)
Definition hidden_two_days : list (list Q) := repeat (repeat (1 # 2) 8) 2.
Definition hidden_four_days : list (list Q) := repeat (repeat (1 # 3) 8) 4.
Definition labels_two_days : list (list Q) :=
  repeat (0.6 :: repeat (-1) 11)%Q 2.
Definition labels_four_days : list (list Q) :=
  repeat (0.25 :: 0.5 :: 0.25 :: repeat (-1) 9)%Q 4.

(** A generator that always draws the first element, for evaluating
    [over_sample]. *)
Definition first_choice (g : unit) (a : list QuestionRecord) (size : nat)
  : list QuestionRecord * unit :=
  (repeat (hd binary_record a) size, g).


(** A multiple-choice record whose first day has no documents and whose
    second day scores every choice 0. *)
Definition zero_scores_record : QuestionRecord :=
  record_with [Str "A"] (Options ["Alpha"; "Beta"; "Gamma"])
    [day_with (Vector [Num 1; Num 2; Num 1]) None;
     day_with (Vector [Num 0; Num 0; Num 0]) (Some [a_document]);
     day_with (Vector [Num 1; Num 1; Num 1]) None].


(* ================================================================== *)
(** * Properties of the prelude *)

Unset Implicit Arguments.

Lemma slice_from_length {A} (start : Z) (l : list A) :
  length (Py.slice_from start l) =
  length l - Z.to_nat (if (start <? 0)%Z
                       then Z.max 0 (start + Z.of_nat (length l))
                       else Z.min start (Z.of_nat (length l))).
Proof.
  unfold Py.slice_from. now rewrite length_skipn.
Qed.

(** Two lists of one length are cut alike. *)
Lemma slice_from_same_length {A B} (start : Z) (l : list A) (l' : list B) :
  length l = length l' ->
  length (Py.slice_from start l) = length (Py.slice_from start l').
Proof.
  intros H. rewrite !slice_from_length. now rewrite H.
Qed.

(** [l[-m:]] keeps the last [m] entries when there are more than [m > 0],
    and everything otherwise ([m = 0] included). *)
Lemma slice_last_length {A} (m : Z) (l : list A) :
  (0 <= m)%Z ->
  length (Py.slice_from (- m) l) =
  if (m =? 0)%Z then length l else Nat.min (length l) (Z.to_nat m).
Proof.
  intros Hm. rewrite slice_from_length.
  destruct (Z.ltb_spec (- m) 0); destruct (Z.eqb_spec m 0); lia.
Qed.

Lemma slice_last_nonempty {A} (m : Z) (l : list A) :
  (0 <= m)%Z -> l <> [] -> Py.slice_from (- m) l <> [].
Proof.
  intros Hm Hl Hs.
  apply (f_equal (@length A)) in Hs. rewrite slice_last_length in Hs by assumption.
  destruct l as [|a l]; [congruence|]. cbn [length] in Hs.
  destruct (Z.eqb_spec m 0); lia.
Qed.

Lemma slice_from_incl {A} (start : Z) (l : list A) (P : A -> Prop) :
  Forall P l -> Forall P (Py.slice_from start l).
Proof.
  intros H. unfold Py.slice_from.
  rewrite <- (firstn_skipn (Z.to_nat
     (if (start <? 0)%Z then Z.max 0 (start + Z.of_nat (length l))
      else Z.min start (Z.of_nat (length l)))) l) in H.
  now apply Forall_app in H.
Qed.

(** [l[start:]] is what is left of [l] once its first entries are dropped. *)
Lemma slice_from_suffix {A} (start : Z) (l : list A) :
  l = firstn (length l - length (Py.slice_from start l)) l ++ Py.slice_from start l.
Proof.
  rewrite slice_from_length. unfold Py.slice_from.
  set (k := Z.to_nat _).
  assert (Hk : k <= length l).
  { unfold k. destruct (Z.ltb_spec start 0); lia. }
  replace (length l - (length l - k)) with k by lia.
  symmetry. apply firstn_skipn.
Qed.

Lemma traverse_length {A B} (f : A -> result B) (l : list A) (bs : list B) :
  Py.traverse f l = Ok bs -> length bs = length l.
Proof.
  revert bs. induction l as [|a l IH]; simpl; intros bs H.
  - now inversion H.
  - destruct (f a); [|discriminate].
    destruct (Py.traverse f l); [|discriminate].
    inversion H; subst. simpl. now rewrite (IH _ eq_refl).
Qed.

Lemma mapi_from_length {A B} (f : nat -> A -> B) (l : list A) (i0 : nat) :
  length (Py.mapi_from i0 f l) = length l.
Proof.
  revert i0. induction l; simpl; intros; [reflexivity|now rewrite IHl].
Qed.

Lemma mapi_from_nth {A B} (f : nat -> A -> B) (l : list A) (i0 i : nat) (da : A) (db : B) :
  i < length l ->
  nth i (Py.mapi_from i0 f l) db = f (i0 + i) (nth i l da).
Proof.
  revert i0 i. induction l as [|a l IH]; simpl; intros i0 i Hi; [lia|].
  destruct i as [|i].
  - now rewrite Nat.add_0_r.
  - rewrite IH by lia. f_equal. lia.
Qed.

Lemma zip_with_length {A B C} (f : A -> B -> C) (l : list A) (l' : list B) :
  length (Torch.zip_with f l l') = Nat.min (length l) (length l').
Proof.
  revert l'. induction l; destruct l'; simpl; auto.
Qed.

Lemma zip_with_repeat_l {A B C} (f : A -> B -> C) (a : A) (l' : list B) :
  Torch.zip_with f (repeat a (length l')) l' = map (f a) l'.
Proof.
  induction l'; simpl; [reflexivity|now rewrite IHl'].
Qed.

Lemma length_le_max_len {A} (seqs : list (list A)) (s : list A) :
  In s seqs -> length s <= Torch.max_len seqs.
Proof.
  induction seqs as [|t seqs IH]; simpl; intros H; [contradiction|].
  destruct H as [->|H]; [lia|]. specialize (IH H). lia.
Qed.

Lemma max_len_bound {A} (seqs : list (list A)) (n : nat) :
  Forall (fun s => length s <= n) seqs -> Torch.max_len seqs <= n.
Proof.
  induction 1; simpl; lia.
Qed.

(* ================================================================== *)
(** * Category classification *)

Lemma str_in_tf_choices (c : string) : Py.str_in c tf_choices = yes_no c.
Proof.
  unfold Py.str_in, tf_choices, yes_no. simpl.
  destruct (String.eqb c "yes"), (String.eqb c "no"),
           (String.eqb c "Yes"), (String.eqb c "No"); reflexivity.
Qed.

(** Case analysis on the scrutinee of the innermost [match] or [if]. *)
Ltac case_scrutinee :=
  match goal with
  | |- context [match ?x with _ => _ end] =>
      lazymatch x with
      | context [match _ with _ => _ end] => fail
      | _ => destruct x eqn:?
      end
  end.

Lemma get_category_range (r : QuestionRecord) (cat : Z) :
  get_category r = Ok cat -> cat = 0%Z \/ cat = 1%Z \/ cat = 2%Z.
Proof.
  unfold get_category, Py.bind.
  repeat case_scrutinee; intros H; inversion H; auto.
Qed.

(** On a well-formed record the code computes the category of the
    specification. *)
Lemma get_category_classify (r : QuestionRecord) :
  well_formed r -> get_category r = Ok (category_id (classify r)).
Proof.
  intros [Hdays Hopts].
  unfold get_category, classify, is_mapping, more_than_two_options,
    no_yes_no_option, list_valued_first_target, option_values in *.
  destruct (choices r) as [d|l]; [reflexivity|].
  specialize (Hopts eq_refl).
  destruct l as [|c0 [|c1 rest]]; simpl in Hopts; try lia.
  destruct (targets r) as [|d0 days]; [congruence|].
  cbn [Py.getitem nth_error Py.bind forallb].
  rewrite !str_in_tf_choices.
  destruct (yes_no c0), (yes_no c1); cbn [negb andb orb Py.bind];
    destruct rest as [|c2 rest]; cbn [length Nat.ltb Nat.leb orb forallb andb];
    try reflexivity;
    try (destruct (is_list (target d0)); reflexivity);
    try (rewrite ?andb_false_r, ?orb_true_r; reflexivity).
Qed.

(** Wherever [get_category] returns, it returns the category of the
    specification; otherwise an index was out of range. *)
Lemma get_category_sound (r : QuestionRecord) :
  get_category r = Ok (category_id (classify r)) \/
  get_category r = Raise IndexError.
Proof.
  unfold get_category, classify, is_mapping, more_than_two_options,
    no_yes_no_option, list_valued_first_target, option_values.
  destruct (choices r) as [d|l]; [now left|].
  destruct l as [|c0 [|c1 rest]].
  - now right.
  - cbn [Py.getitem nth_error Py.bind forallb length].
    rewrite str_in_tf_choices.
    destruct (yes_no c0); cbn [negb Py.bind]; [|now right].
    destruct (targets r) as [|d0 days]; [now right|].
    cbn [Py.getitem nth_error Py.bind andb orb Nat.ltb Nat.leb].
    destruct (is_list (target d0)); now left.
  - cbn [Py.getitem nth_error Py.bind forallb].
    rewrite !str_in_tf_choices.
    destruct (yes_no c0), (yes_no c1); cbn [negb andb orb Py.bind];
      destruct rest as [|c2 rest]; cbn [length Nat.ltb Nat.leb orb forallb andb];
      try (now left);
      try (rewrite ?andb_false_r, ?orb_true_r; now left);
      destruct (targets r) as [|d0 days]; try (now right);
      cbn [Py.getitem nth_error Py.bind];
      destruct (is_list (target d0)); now left.
Qed.

(** Classification reads the choices and the first day's target only. *)
Lemma get_category_ext (a b : QuestionRecord) :
  choices a = choices b ->
  map target (targets a) = map target (targets b) ->
  get_category a = get_category b.
Proof.
  intros Hc Ht. unfold get_category. rewrite Hc.
  destruct (choices b); [reflexivity|].
  assert (Hd : Py.bind (Py.getitem (targets a) 0)
                 (fun d0 => if is_list (target d0) then Ok 1%Z else Ok 0%Z) =
               Py.bind (Py.getitem (targets b) 0)
                 (fun d0 => if is_list (target d0) then Ok 1%Z else Ok 0%Z)).
  { destruct (targets a) as [|x xs], (targets b) as [|y ys];
      simpl in Ht; try discriminate; [reflexivity|].
    inversion Ht as [[Hx Hxs]]. unfold Py.getitem; simpl. now rewrite Hx. }
  now rewrite Hd.
Qed.

Section TransformerFacts.

Variable str_to_float : string -> option Q.

(** The loop updates documents only: targets stay as they were. *)
Lemma for_days_keeps_targets adjust cat tt width example days :
  forall i st,
    map target (snd (for_days str_to_float adjust cat tt width example i days st))
    = map target days.
Proof.
  induction days as [|day rest IH]; intros i st; simpl; [reflexivity|].
  destruct (no_ctxs day).
  - specialize (IH (S i) st).
    destruct (for_days str_to_float adjust cat tt width example (S i) rest st).
    simpl in *. now rewrite IH.
  - destruct (append_day_target str_to_float adjust cat tt width day (l_targets st));
      [|reflexivity].
    match goal with
    | |- context [for_days _ _ _ _ _ _ (S i) rest ?s] => specialize (IH (S i) s);
        destruct (for_days str_to_float adjust cat tt width example (S i) rest s)
    end.
    simpl in *. now rewrite IH.
Qed.

Lemma build_sequences_record adjust example :
  let example' := snd (build_sequences str_to_float adjust example) in
  choices example' = choices example /\
  map target (targets example') = map target (targets example).
Proof.
  unfold build_sequences.
  destruct (get_category example) as [cat|]; [|now split].
  destruct (get_true_target str_to_float cat example) as [tt|]; [|now split].
  pose proof (for_days_keeps_targets adjust cat tt
                (Nat.min (length_choices (choices example)) max_choice_len)
                example (targets example) 0
                {| l_fid_examples := []; l_targets := []; l_has_ctxs := false |}) as H.
  destruct (for_days _ _ _ _ _ _ _ _ _) as [r days']. simpl in *.
  now split.
Qed.

Lemma getitem_example_record self example :
  snd (getitem_example str_to_float self example)
  = snd (build_sequences str_to_float (adjust_targets self) example).
Proof.
  unfold getitem_example.
  now destruct (build_sequences str_to_float (adjust_targets self) example).
Qed.

(** One call of the transformer leaves the category of the record as it
    was. *)
Lemma getitem_example_keeps_category self example :
  get_category (snd (getitem_example str_to_float self example))
  = get_category example.
Proof.
  rewrite getitem_example_record.
  destruct (build_sequences_record (adjust_targets self) example) as [Hc Ht].
  now apply get_category_ext.
Qed.

Lemma map_list_set {A B} (f : A -> B) (l : list A) (pos : nat) (x y : A) :
  nth_error l pos = Some y -> f x = f y ->
  map f (list_set l pos x) = map f l.
Proof.
  revert pos. induction l as [|b l IH]; intros [|pos]; simpl; try discriminate.
  - intros H Hf; inversion H; subst. now rewrite Hf.
  - intros H Hf. now rewrite (IH _ H Hf).
Qed.

Lemma index_position {A} (l : list A) (i : Z) (a : A) :
  Py.index l i = Ok a ->
  nth_error l (if (i <? 0)%Z then Z.to_nat (i + Z.of_nat (length l))
               else Z.to_nat i) = Some a.
Proof.
  unfold Py.index, Py.getitem.
  destruct (i <? 0)%Z.
  - destruct (i + Z.of_nat (length l) <? 0)%Z; [discriminate|].
    destruct (nth_error l _); [intros H; now inversion H|discriminate].
  - destruct (nth_error l _); [intros H; now inversion H|discriminate].
Qed.

Lemma getitem_keeps_categories self index :
  map get_category (data (snd (__getitem__ str_to_float self index)))
  = map get_category (data self).
Proof.
  unfold __getitem__.
  destruct (Py.index (data self) index) as [example|] eqn:Hidx; [|reflexivity].
  pose proof (getitem_example_keeps_category self example) as Hk.
  destruct (getitem_example str_to_float self example) as [r example'].
  simpl in *. apply map_list_set with (y := example).
  - now apply index_position.
  - exact Hk.
Qed.

End TransformerFacts.

(* ================================================================== *)
(** * Sums of rows *)

Section RowSums.

Local Open Scope Q_scope.

Lemma fold_left_Qplus_acc (l : list Q) (a : Q) :
fold_left Qplus l a == a + fold_left Qplus l 0.
Proof.
revert a. induction l as [|x l IH]; intros a; simpl.
- ring.
- rewrite (IH (a + x)%Q), (IH (0 + x)%Q). ring.
Qed.

Lemma sum_nil : Py.sum [] = 0%Q.
Proof. reflexivity. Qed.

Lemma sum_cons (x : Q) (l : list Q) : Py.sum (x :: l) == x + Py.sum l.
Proof.
unfold Py.sum. simpl. rewrite fold_left_Qplus_acc. ring.
Qed.

Lemma sum_app (l l' : list Q) : Py.sum (l ++ l') == Py.sum l + Py.sum l'.
Proof.
induction l as [|x l IH]; simpl.
- rewrite sum_nil. ring.
- rewrite !sum_cons, IH. ring.
Qed.

Lemma sum_map_div (l : list Q) (t : Q) :
Py.sum (map (fun s => s / t) l) == Py.sum l / t.
Proof.
induction l as [|x l IH]; simpl.
- rewrite sum_nil. unfold Qdiv. ring.
- rewrite !sum_cons, IH. unfold Qdiv. ring.
Qed.

(** Normalised scores sum to one. *)
Lemma sum_normalized (scores : list Q) :
~ Py.sum scores == 0 -> Py.sum (normalized scores) == 1.
Proof.
intros H. unfold normalized. rewrite sum_map_div. now field.
Qed.

Lemma sum_pos (l : list Q) :
l <> [] -> Forall (fun x => 0 < x) l -> 0 < Py.sum l.
Proof.
induction l as [|x l IH]; intros Hne Hall; [congruence|].
inversion Hall as [|? ? Hx Hl]; subst.
rewrite sum_cons.
destruct l as [|y l].
- rewrite sum_nil. now rewrite Qplus_0_r.
- assert (0 < Py.sum (y :: l)) by (apply IH; [discriminate|assumption]).
  rewrite <- (Qplus_0_r 0). apply Qplus_lt_le_compat; [assumption|].
  now apply Qlt_le_weak.
Qed.

(** The blend halves a row and adds one half at the true choice, when the
  true choice is one of the row's positions. *)
Lemma sum_blend_from (z : Z) (row : list Q) (i0 : nat) :
Py.sum (Py.mapi_from i0
          (fun i ti => if index_is_label i (IntLabel z)
                       then (ti + 1) / 2 else ti / 2) row)
== Py.sum row / 2 +
   (if ((Z.of_nat i0 <=? z) && (z <? Z.of_nat (i0 + length row)))%Z
    then 1 / 2 else 0).
Proof.
revert i0. induction row as [|x row IH]; intros i0.
- simpl. rewrite sum_nil.
  destruct (Z.leb_spec (Z.of_nat i0) z), (Z.ltb_spec z (Z.of_nat (i0 + 0)));
    simpl; try lia; unfold Qdiv; ring.
- cbn [Py.mapi_from length]. rewrite !sum_cons, IH. unfold index_is_label.
  destruct (Z.eqb_spec (Z.of_nat i0) z) as [He|He];
    destruct (Z.leb_spec (Z.of_nat (S i0)) z),
             (Z.ltb_spec z (Z.of_nat (S i0 + length row))),
             (Z.leb_spec (Z.of_nat i0) z),
             (Z.ltb_spec z (Z.of_nat (i0 + S (length row))));
    simpl; try lia; unfold Qdiv; ring.
Qed.

Lemma sum_adjust_row (z : Z) (row : list Q) :
Py.sum (adjust_row (IntLabel z) row)
== Py.sum row / 2 +
   (if ((0 <=? z) && (z <? Z.of_nat (length row)))%Z then 1 / 2 else 0).
Proof.
unfold adjust_row, Py.mapi. now rewrite sum_blend_from.
Qed.

End RowSums.

(* ================================================================== *)
(** * The loop of the example transformer *)

Section LoopFacts.

Variable str_to_float : string -> option Q.

#[local] Abbreviation float' := (float str_to_float).
#[local] Abbreviation append_day_target' := (append_day_target str_to_float).
#[local] Abbreviation for_days' := (for_days str_to_float).

Lemma traverse_div (t : Q) (l : list Q) :
  ~ t == 0 -> Py.traverse (fun x => div x t) l = Ok (map (fun x => (x / t)%Q) l).
Proof.
  intros Ht. induction l as [|x l IH]; simpl; [reflexivity|].
  unfold div at 1.
  destruct (Qeq_bool t 0) eqn:E.
  - apply Qeq_bool_iff in E. contradiction.
  - now rewrite IH.
Qed.

Lemma adjust_row_length (tt : label) (row : list Q) :
  length (adjust_row tt row) = length row.
Proof. unfold adjust_row, Py.mapi. apply mapi_from_length. Qed.

(** Binary and regression days: the one-entry row. *)
Lemma append_day_target_scalar adjust cat tt width day tgts v t :
  cat = 0%Z \/ cat = 2%Z ->
  target day = Scalar v -> float' v = Ok t ->
  append_day_target' adjust cat tt width day tgts
  = Ok (tgts ++ [[if adjust then ((t + label_value tt) / 2)%Q else t]]).
Proof.
  intros Hcat Hv Ht. unfold append_day_target.
  replace ((cat =? 0) || (cat =? 2))%Z with true by (destruct Hcat; subst; reflexivity).
  rewrite Hv. simpl. rewrite Ht. reflexivity.
Qed.

(** Multiple-choice days: the normalised row, blended when asked. *)
Lemma append_day_target_vector adjust tt width day tgts l scores :
  target day = Vector l ->
  Py.traverse float' (firstn width l) = Ok scores ->
  ~ Py.sum scores == 0 ->
  append_day_target' adjust 1 tt width day tgts
  = Ok (tgts ++ [if adjust then adjust_row tt (normalized scores)
                 else normalized scores]).
Proof.
  intros Hv Hs Hsum. unfold append_day_target. simpl.
  rewrite Hv. unfold target_prefix, Py.slice_to. simpl. rewrite Hs. simpl.
  rewrite (traverse_div _ scores Hsum). reflexivity.
Qed.

Lemma target_prefix_length (t : target_value) (n : nat) (raw : list scalar) :
  target_prefix t n = Ok raw -> length raw <= n.
Proof.
  unfold target_prefix, Py.slice_to.
  destruct t as [[q|s]|l]; intros H; inversion H; subst.
  - rewrite length_map, length_firstn. lia.
  - rewrite length_firstn. lia.
Qed.

(** Whatever is appended is one row, of at most [max_choice_len] entries. *)
Lemma append_day_target_shape adjust cat tt width day tgts tgts' :
  cat = 0%Z \/ cat = 1%Z \/ cat = 2%Z ->
  width <= max_choice_len ->
  append_day_target' adjust cat tt width day tgts = Ok tgts' ->
  exists row, tgts' = tgts ++ [row] /\ length row <= max_choice_len.
Proof.
  intros Hcat Hw. unfold append_day_target.
  destruct Hcat as [->|[->| ->]]; simpl.
  - destruct (float_of_target str_to_float (target day)); simpl; [|discriminate].
    intros H; inversion H. eexists; split; [reflexivity|]. simpl. unfold max_choice_len. lia.
  - destruct (target_prefix (target day) width) as [raw|] eqn:Hraw; simpl; [|discriminate].
    destruct (Py.traverse float' raw) as [mc|] eqn:Hmc; simpl; [|discriminate].
    destruct (Py.traverse (fun x => div x (Py.sum mc)) mc) as [t|] eqn:Ht; simpl;
      [|discriminate].
    intros H; inversion H. eexists; split; [reflexivity|].
    apply traverse_length in Hmc, Ht. apply target_prefix_length in Hraw.
    destruct adjust; rewrite ?adjust_row_length; lia.
  - destruct (float_of_target str_to_float (target day)); simpl; [|discriminate].
    intros H; inversion H. eexists; split; [reflexivity|]. simpl. unfold max_choice_len. lia.
Qed.

Lemma float_no_assert (v : scalar) : float' v <> Raise AssertionError.
Proof.
  unfold float. destruct v; [discriminate|].
  destruct (str_to_float s); discriminate.
Qed.

Lemma traverse_no_assert {A B} (f : A -> result B) (l : list A) :
  (forall a, f a <> Raise AssertionError) ->
  Py.traverse f l <> Raise AssertionError.
Proof.
  intros Hf. induction l as [|a l IH]; simpl; [discriminate|].
  specialize (Hf a). destruct (f a) as [b|e]; [|congruence].
  destruct (Py.traverse f l); [discriminate|congruence].
Qed.

Lemma bind_no_assert {A B} (m : result A) (k : A -> result B) :
  m <> Raise AssertionError ->
  (forall a, k a <> Raise AssertionError) ->
  Py.bind m k <> Raise AssertionError.
Proof.
  intros Hm Hk. destruct m as [a|e]; simpl; [apply Hk|].
  intros H. apply Hm. now inversion H.
Qed.

Lemma div_no_assert (x y : Q) : div x y <> Raise AssertionError.
Proof. unfold div. destruct (Qeq_bool y 0); discriminate. Qed.

Lemma append_day_target_no_assert adjust cat tt width day tgts :
  append_day_target' adjust cat tt width day tgts <> Raise AssertionError.
Proof.
  unfold append_day_target.
  destruct ((cat =? 0) || (cat =? 2))%Z.
  - apply bind_no_assert; [|discriminate].
    unfold float_of_target. destruct (target day); [apply float_no_assert|discriminate].
  - destruct (cat =? 1)%Z; [|discriminate].
    apply bind_no_assert.
    + unfold target_prefix. destruct (target day) as [[q|s]|l]; discriminate.
    + intros raw. apply bind_no_assert.
      * apply traverse_no_assert, float_no_assert.
      * intros mc. apply bind_no_assert; [|discriminate].
        apply traverse_no_assert. intros a. apply div_no_assert.
Qed.

(** The loop appends one sub-example and one target row per day with
    documents, and nothing else. *)
Lemma for_days_lengths adjust cat tt width example days :
  cat = 0%Z \/ cat = 1%Z \/ cat = 2%Z ->
  width <= max_choice_len ->
  forall i st st' days',
    for_days' adjust cat tt width example i days st = (Ok st', days') ->
    length (l_fid_examples st') = length (l_fid_examples st) + length (documented days) /\
    length (l_targets st') = length (l_targets st) + length (documented days) /\
    l_has_ctxs st' = l_has_ctxs st || negb (length (documented days) =? 0) /\
    (Forall (fun row => length row <= max_choice_len) (l_targets st) ->
     Forall (fun row => length row <= max_choice_len) (l_targets st')).
Proof.
  intros Hcat Hw. unfold documented.
  induction days as [|day rest IH]; intros i st st' days'; simpl.
  - intros H; inversion H; subst. rewrite orb_false_r. repeat split; auto.
  - destruct (no_ctxs day) eqn:Hno; simpl.
    + destruct (for_days' adjust cat tt width example (S i) rest st) as [r rest'] eqn:Hrec.
      intros H; inversion H; subst. now apply (IH _ _ _ _ Hrec).
    + destruct (append_day_target' adjust cat tt width day (l_targets st))
        as [tgts|] eqn:Happ; [|discriminate].
      destruct (append_day_target_shape _ _ _ _ _ _ _ Hcat Hw Happ) as (row & -> & Hrow).
      match goal with
      | |- context [for_days' _ _ _ _ _ (S i) rest ?s] =>
          destruct (for_days' adjust cat tt width example (S i) rest s)
            as [r rest'] eqn:Hrec
      end.
      intros H; inversion H; subst.
      destruct (IH _ _ _ _ Hrec) as (H1 & H2 & H3 & H4). simpl in *.
      rewrite length_app in H1, H2. simpl in *.
      repeat split; try lia.
      * rewrite H3. now rewrite orb_true_r.
      * intros Hall. apply H4. apply Forall_app. split; [assumption|].
        now constructor.
Qed.

Lemma for_days_no_assert adjust cat tt width example days :
  forall i st, fst (for_days' adjust cat tt width example i days st) <> Raise AssertionError.
Proof.
  induction days as [|day rest IH]; intros i st; simpl; [discriminate|].
  destruct (no_ctxs day).
  - specialize (IH (S i) st).
    now destruct (for_days' adjust cat tt width example (S i) rest st).
  - pose proof (append_day_target_no_assert adjust cat tt width day (l_targets st)) as Hn.
    destruct (append_day_target' adjust cat tt width day (l_targets st)); simpl;
      [|intros H; apply Hn; now inversion H].
    match goal with
    | |- context [for_days' _ _ _ _ _ (S i) rest ?s] =>
        specialize (IH (S i) s);
        now destruct (for_days' adjust cat tt width example (S i) rest s)
    end.
Qed.

(** A record without documents: the loop only clears the [ctxs] fields. *)
Lemma for_days_no_documents adjust cat tt width example days :
  Forall (fun day => no_ctxs day = true) days ->
  forall i st,
    for_days' adjust cat tt width example i days st = (Ok st, map clear_ctxs days).
Proof.
  induction 1 as [|day rest Hday Hrest IH]; intros i st; simpl; [reflexivity|].
  rewrite Hday, IH. reflexivity.
Qed.

End LoopFacts.

(* ================================================================== *)
(** * The two sequences before truncation, and their padding *)

Section SequenceFacts.

Variable str_to_float : string -> option Q.

#[local] Abbreviation float' := (float str_to_float).
#[local] Abbreviation for_days' := (for_days str_to_float).
#[local] Abbreviation build_sequences' := (build_sequences str_to_float).
#[local] Abbreviation getitem_example' := (getitem_example str_to_float).

Lemma get_category_no_assert example : get_category example <> Raise AssertionError.
Proof.
  unfold get_category, Py.bind, Py.getitem.
  repeat case_scrutinee; discriminate.
Qed.

Lemma get_true_target_no_assert cat example :
  get_true_target str_to_float cat example <> Raise AssertionError.
Proof.
  unfold get_true_target, Py.getitem.
  destruct (cat =? 0)%Z; [|destruct (cat =? 2)%Z; [|destruct (cat =? 1)%Z]];
    try discriminate.
  - destruct (nth_error (answers example) 0) as [[q|s]|]; simpl; try discriminate.
    repeat case_scrutinee; discriminate.
  - destruct (nth_error (answers example) 0) as [a|]; simpl; [|discriminate].
    apply bind_no_assert; [apply float_no_assert|discriminate].
  - destruct (nth_error (answers example) 0) as [a|]; simpl; [|discriminate].
    apply bind_no_assert; [|discriminate].
    unfold ord. repeat case_scrutinee; discriminate.
Qed.

Lemma fallback_no_assert cat tt width example days st :
  fallback cat tt width example days st <> Raise AssertionError.
Proof.
  unfold fallback. repeat case_scrutinee; discriminate.
Qed.

(** A readable day is converted. *)
Lemma append_day_target_readable adjust c tt width day tgts :
  target_readable str_to_float width c (target day) ->
  exists row,
    append_day_target str_to_float adjust (category_id c) tt width day tgts
    = Ok (tgts ++ [row]).
Proof.
  intros H. inversion H as [v q Hv Hc Ht|v q Hv Hc Ht|l scores Hs Hsum Hc Ht]; subst.
  - eexists. eapply append_day_target_scalar; eauto.
  - eexists. eapply append_day_target_scalar; eauto.
  - eexists. eapply append_day_target_vector; eauto.
Qed.

(** The loop runs to its end when every day with documents is readable. *)
Lemma for_days_total adjust c tt width example days :
  Forall (fun day => has_documents day ->
                     target_readable str_to_float width c (target day)) days ->
  forall i st, exists st' days',
    for_days' adjust (category_id c) tt width example i days st = (Ok st', days').
Proof.
  induction 1 as [|day rest Hday Hrest IH]; intros i st; simpl.
  - eauto.
  - destruct (no_ctxs day) eqn:Hno.
    + destruct (IH (S i) st) as (st' & days' & ->). eauto.
    + destruct (append_day_target_readable adjust c tt width day (l_targets st) (Hday Hno))
        as (row & ->).
      match goal with
      | |- context [for_days' _ _ _ _ _ (S i) rest ?s] =>
          destruct (IH (S i) s) as (st' & days' & ->)
      end.
      eauto.
Qed.

(** What the fallback adds. *)
Lemma fallback_spec cat tt width example days st st' :
  fallback cat tt width example days st = Ok st' ->
  (l_has_ctxs st = true /\ st' = st) \/
  (l_has_ctxs st = false /\
   exists day, last (map Some days) None = Some day /\
     l_fid_examples st' = l_fid_examples st ++ [day_copy 0 example day] /\
     l_targets st' =
       if ((cat =? 0) || (cat =? 2))%Z
       then l_targets st ++ [[label_value tt]]
       else if (cat =? 1)%Z
       then l_targets st ++
            [map (fun i => float_of_bool (index_is_label i tt)) (seq 0 width)]
       else l_targets st).
Proof.
  unfold fallback. destruct (l_has_ctxs st); simpl.
  - intros H; inversion H; auto.
  - destruct (last (map Some days) None) as [day|]; [|discriminate].
    intros H; inversion H; subst; simpl. right. split; [reflexivity|].
    exists day. repeat split.
Qed.

Lemma build_sequences_unfold adjust example cat tt :
  get_category example = Ok cat ->
  get_true_target str_to_float cat example = Ok tt ->
  build_sequences' adjust example =
  (let width := Nat.min (length_choices (choices example)) max_choice_len in
   let rd := for_days' adjust cat tt width example 0 (targets example) empty_locals in
   (st <- fst rd ;;
    st <- fallback cat tt width example (snd rd) st ;;
    st <- assert_same_length st ;;
    Ok (cat, tt, st),
    with_targets example (snd rd))).
Proof.
  intros Hc Ht. unfold build_sequences. rewrite Hc, Ht.
  now destruct (for_days' _ _ _ _ _ _ _ _).
Qed.

(** The sequences the loop and the fallback build have one length, so the
    assertion holds; their rows fit in [max_choice_len] entries. *)
Lemma build_sequences_spec adjust example :
  fst (build_sequences' adjust example) <> Raise AssertionError /\
  forall cat tt st,
    fst (build_sequences' adjust example) = Ok (cat, tt, st) ->
    get_category example = Ok cat /\
    get_true_target str_to_float cat example = Ok tt /\
    length (l_fid_examples st) = length (l_targets st) /\
    length (l_targets st) =
      (if length (documented (targets example)) =? 0 then 1
       else length (documented (targets example))) /\
    Forall (fun row => length row <= max_choice_len) (l_targets st).
Proof.
  destruct (get_category example) as [cat|e] eqn:Hcat.
  2:{ unfold build_sequences. rewrite Hcat. simpl. split.
      - intros H. apply (get_category_no_assert example). congruence.
      - discriminate. }
  destruct (get_true_target str_to_float cat example) as [tt|e] eqn:Htt.
  2:{ unfold build_sequences. rewrite Hcat, Htt. simpl. split.
      - intros H. apply (get_true_target_no_assert cat example). congruence.
      - discriminate. }
  rewrite (build_sequences_unfold adjust example cat tt Hcat Htt). cbv zeta.
  set (width := Nat.min (length_choices (choices example)) max_choice_len).
  assert (Hw : width <= max_choice_len) by (unfold width; lia).
  pose proof (get_category_range example cat Hcat) as Hrange.
  pose proof (for_days_no_assert str_to_float adjust cat tt width example
                (targets example) 0 empty_locals) as Hna.
  pose proof (for_days_lengths str_to_float adjust cat tt width example
                (targets example) Hrange Hw 0 empty_locals) as Hlen.
  destruct (for_days' adjust cat tt width example 0 (targets example) empty_locals)
    as [[st1|e] days'] eqn:Hloop; simpl in *.
  2:{ split; [intros H; apply Hna; congruence|discriminate]. }
  destruct (Hlen st1 days' eq_refl) as (H1 & H2 & H3 & H4). clear Hlen.
  specialize (H4 (Forall_nil _)).
  pose proof (fallback_no_assert cat tt width example days' st1) as Hfb.
  destruct (fallback cat tt width example days' st1) as [st2|e] eqn:Hfall; simpl.
  2:{ split; [intros H; apply Hfb; congruence|discriminate]. }
  assert (Hst2 :
    length (l_fid_examples st2) = length (l_targets st2) /\
    length (l_targets st2) =
      (if length (documented (targets example)) =? 0 then 1
       else length (documented (targets example))) /\
    Forall (fun row => length row <= max_choice_len) (l_targets st2)).
  { destruct (fallback_spec _ _ _ _ _ _ _ Hfall) as [[Hh ->]|[Hh (day & _ & Hf & Ht)]].
    - rewrite Hh in H3.
      destruct (length (documented (targets example))); [discriminate|].
      simpl. repeat split; [lia|lia|assumption].
    - rewrite Hh in H3.
      destruct (length (documented (targets example))) eqn:Hn; [|discriminate].
      simpl. rewrite Hf, Ht.
      destruct Hrange as [->|[->| ->]]; simpl; rewrite !length_app; simpl.
      + repeat split; try lia. apply Forall_app. split; [assumption|].
        constructor; [simpl; unfold max_choice_len; lia|constructor].
      + repeat split; try lia. apply Forall_app. split; [assumption|].
        constructor; [rewrite length_map, length_seq; assumption|constructor].
      + repeat split; try lia. apply Forall_app. split; [assumption|].
        constructor; [simpl; unfold max_choice_len; lia|constructor]. }
  destruct Hst2 as (Ha & Hb & Hc).
  unfold assert_same_length. rewrite <- Ha, Nat.eqb_refl. simpl.
  split; [discriminate|].
  intros cat' tt' st' H. inversion H; subst. repeat split; auto.
Qed.

Lemma skipn_repeat {A} (a : A) (n m : nat) :
  skipn n (repeat a m) = repeat a (m - n).
Proof.
  revert n. induction m as [|m IH]; intros [|n]; simpl; auto.
Qed.

(** The two padding steps together extend every row with [-1.] up to
    [max_choice_len] entries. *)
Lemma pad_targets_spec (tgts : list (list Q)) :
  tgts <> [] ->
  Forall (fun row => length row <= max_choice_len) tgts ->
  pad_targets tgts = Ok (map padded_row tgts).
Proof.
  intros Hne Hall. unfold pad_targets, Torch.pad_sequence.
  destruct tgts as [|row0 rest] eqn:Htg; [congruence|]. rewrite <- Htg in *.
  cbn [Py.bind].
  set (M := Torch.max_len tgts).
  assert (HM : M <= max_choice_len) by (apply max_len_bound; assumption).
  unfold Torch.assign_block.
  assert (Hs1 : Torch.size1 (map (fun s => s ++ repeat (-1)%Q (M - length s)) tgts) = M).
  { rewrite Htg. simpl. rewrite length_app, repeat_length.
    assert (length row0 <= M) by (apply length_le_max_len; rewrite Htg; now left).
    lia. }
  rewrite Hs1.
  assert (Hs2 : Torch.size1 (Torch.full (length (map (fun s => s ++ repeat (-1)%Q (M - length s)) tgts)) max_choice_len (-1)%Q) = max_choice_len).
  { rewrite length_map, Htg. reflexivity. }
  rewrite Hs2.
  destruct (Nat.leb_spec M max_choice_len); [|lia].
  unfold Torch.full. rewrite zip_with_repeat_l, map_map. f_equal.
  apply map_ext_in. intros s Hs.
  assert (length s <= M) by now apply length_le_max_len.
  rewrite length_app, repeat_length, skipn_repeat, <- app_assoc, <- repeat_app.
  unfold padded_row. do 2 f_equal. lia.
Qed.

Lemma pad_targets_nonempty (tgts padded : list (list Q)) :
  pad_targets tgts = Ok padded -> tgts <> [].
Proof.
  intros H ->. discriminate.
Qed.

Lemma pad_targets_no_assert (tgts : list (list Q)) :
  pad_targets tgts <> Raise AssertionError.
Proof.
  unfold pad_targets, Torch.pad_sequence, Torch.assign_block.
  destruct tgts; simpl; [discriminate|].
  case_scrutinee; discriminate.
Qed.

End SequenceFacts.

(* ================================================================== *)
(** * The example transformer as a whole *)

Section GetItemFacts.

Variable str_to_float : string -> option Q.

#[local] Abbreviation build_sequences' := (build_sequences str_to_float).
#[local] Abbreviation getitem_example' := (getitem_example str_to_float).

Lemma get_true_target_decodes_gen c example tt :
  answer_decodes str_to_float c (answers example) tt ->
  get_true_target str_to_float (category_id c) example = Ok tt.
Proof.
  intros H. unfold get_true_target.
  remember (answers example) as ans eqn:Ha.
  destruct H as [s b rest Hb|ch rest|a q rest Hq]; simpl in *.
  - now rewrite Hb.
  - reflexivity.
  - now rewrite Hq.
Qed.

Lemma get_true_target_decodes example tt :
  answer_decodes str_to_float (classify example) (answers example) tt ->
  get_true_target str_to_float (category_id (classify example)) example = Ok tt.
Proof. apply get_true_target_decodes_gen. Qed.

Lemma last_map_some {A} (l : list A) :
  l <> [] -> exists a, last (map Some l) None = Some a /\ In a l.
Proof.
  induction l as [|a l IH]; intros Hne; [congruence|].
  destruct l as [|b l].
  - exists a. simpl. auto.
  - destruct IH as (x & Hx & Hin); [discriminate|].
    exists x. split; [exact Hx|now right].
Qed.

(** On a well-formed record whose answer decodes and whose documented days
    are readable, the two sequences are built. *)
Lemma build_sequences_total adjust example tt :
  well_formed example ->
  answer_decodes str_to_float (classify example) (answers example) tt ->
  days_readable str_to_float example ->
  exists st,
    fst (build_sequences' adjust example) = Ok (category_id (classify example), tt, st).
Proof.
  intros Hwf Hans Hdays.
  pose proof (get_category_classify example Hwf) as Hcat.
  pose proof (get_true_target_decodes example tt Hans) as Htt.
  rewrite (build_sequences_unfold str_to_float adjust example _ tt Hcat Htt). cbv zeta.
  set (width := Nat.min (length_choices (choices example)) max_choice_len).
  destruct (for_days_total str_to_float adjust (classify example) tt width example
              (targets example) Hdays 0 empty_locals) as (st1 & days' & Hloop).
  pose proof (for_days_keeps_targets str_to_float adjust (category_id (classify example))
                tt width example (targets example) 0 empty_locals) as Hkeep.
  pose proof (build_sequences_spec str_to_float adjust example) as [Hna _].
  rewrite (build_sequences_unfold str_to_float adjust example _ tt Hcat Htt) in Hna.
  cbv zeta in Hna. fold width in Hna.
  rewrite Hloop in *. simpl in *.
  assert (Hne : days' <> []).
  { intros ->. destruct Hwf as [Hd _]. destruct (targets example); [congruence|discriminate]. }
  destruct (last_map_some days' Hne) as (day & Hlast & _).
  unfold fallback in *. rewrite Hlast in *.
  destruct (l_has_ctxs st1); simpl in *.
  - destruct (assert_same_length st1) as [st|e] eqn:Ha; simpl in *.
    + unfold assert_same_length in Ha.
      destruct (length (l_targets st1) =? length (l_fid_examples st1)); inversion Ha; subst.
      eauto.
    + unfold assert_same_length in Ha.
      destruct (length (l_targets st1) =? length (l_fid_examples st1)); inversion Ha; subst.
      congruence.
  - match goal with
    | |- context [assert_same_length ?s] =>
        unfold assert_same_length in *;
        destruct (length (l_targets s) =? length (l_fid_examples s)); simpl in *;
        [eauto|congruence]
    end.
Qed.

(** What [__getitem__] returns, in terms of the two sequences. *)
Lemma getitem_example_spec self example :
  fst (getitem_example' self example) <> Raise AssertionError /\
  forall item,
    fst (getitem_example' self example) = Ok item ->
    exists cat tt st,
      fst (build_sequences' (adjust_targets self) example) = Ok (cat, tt, st) /\
      fid_examples (item_dataset item)
        = Py.slice_from (- max_seq_len self) (l_fid_examples st) /\
      item_targets item
        = map padded_row (Py.slice_from (- max_seq_len self) (l_targets st)) /\
      item_true_target item = tt /\ item_cat item = cat /\
      fid_cat (item_dataset item) = cat.
Proof.
  pose proof (build_sequences_spec str_to_float (adjust_targets self) example)
    as [Hna Hok].
  unfold getitem_example.
  destruct (build_sequences' (adjust_targets self) example) as [[[[cat tt] st]|e] example'];
    simpl in *.
  2:{ split; [intros H; apply Hna; congruence|discriminate]. }
  destruct (Hok cat tt st eq_refl) as (_ & _ & _ & _ & Hrows).
  pose proof (pad_targets_no_assert
                (Py.slice_from (- max_seq_len self) (l_targets st))) as Hpn.
  destruct (pad_targets (Py.slice_from (- max_seq_len self) (l_targets st)))
    as [padded|e] eqn:Hpad; simpl.
  2:{ split; [intros H; apply Hpn; congruence|discriminate]. }
  split; [discriminate|].
  intros item H. inversion H; subst; simpl. exists cat, tt, st.
  repeat split; try reflexivity.
  pose proof (pad_targets_nonempty _ _ Hpad) as Hne.
  rewrite pad_targets_spec in Hpad.
  - now inversion Hpad.
  - exact Hne.
  - now apply slice_from_incl.
Qed.

(** With a non-negative [max_seq_len] the truncation keeps at least one
    row, and an item is returned. *)
Lemma getitem_example_total self example cat tt st :
  fst (build_sequences' (adjust_targets self) example) = Ok (cat, tt, st) ->
  (0 <= max_seq_len self)%Z ->
  exists item, fst (getitem_example' self example) = Ok item.
Proof.
  intros Hb Hm.
  pose proof (build_sequences_spec str_to_float (adjust_targets self) example)
    as [_ Hok].
  destruct (Hok cat tt st Hb) as (_ & _ & _ & Hlen & Hrows).
  unfold getitem_example.
  destruct (build_sequences' (adjust_targets self) example) as [r example'].
  simpl in Hb. subst r. simpl.
  rewrite pad_targets_spec.
  - simpl. eauto.
  - apply slice_last_nonempty; [assumption|].
    intros Hnil. rewrite Hnil in Hlen. simpl in Hlen.
    destruct (length (documented (targets example))); simpl in Hlen; discriminate.
  - now apply slice_from_incl.
Qed.

(** [self.__getitem__(index)] is the transformer run on [self.data[index]]. *)
Lemma getitem_of_example self index example :
  Py.index (data self) index = Ok example ->
  fst (__getitem__ str_to_float self index)
  = fst (getitem_example' self example).
Proof.
  intros H. unfold __getitem__. rewrite H.
  now destruct (getitem_example' self example).
Qed.

End GetItemFacts.

(* ================================================================== *)
(** * Category classification is a function of the record *)

(** Where the wording of the specification and the code part: on a
    well-formed record the two classifications agree, except on a set of
    two options that mixes a yes/no word with another value, which the
    wording makes MultiChoice and the code BinaryTF. *)
Lemma worded_or_mixed (r : QuestionRecord) :
  well_formed r ->
  classify_as_worded r = classify r \/
  (classify_as_worded r = MultiChoice /\ classify r = BinaryTF /\
   length (option_values r) = 2 /\
   existsb yes_no (option_values r) = true /\
   non_yes_no_values r = true).
Proof.
  intros [_ Hopts].
  unfold classify_as_worded, classify, is_mapping, more_than_two_options,
    no_yes_no_option, non_yes_no_values, list_valued_first_target,
    option_values in *.
  destruct (choices r) as [d|l]; [now left|].
  specialize (Hopts eq_refl).
  destruct l as [|c0 [|c1 [|c2 rest]]]; simpl in Hopts; try lia; [|now left].
  cbn [length Nat.ltb Nat.leb forallb existsb orb].
  destruct (yes_no c0), (yes_no c1); cbn [negb andb orb]; try (now left);
    (destruct (match targets r with
               | [] => false
               | day :: _ => is_list (target day)
               end); [now left|right; repeat split; reflexivity]).
Qed.

(** With fewer than two listed options, none of them a yes/no word, the
    chain of [get_category] indexes past the end. *)
Lemma get_category_short (r : QuestionRecord) :
  is_mapping r = false ->
  length (option_values r) < 2 ->
  no_yes_no_option r = true ->
  get_category r = Raise IndexError.
Proof.
  unfold get_category, is_mapping, no_yes_no_option, option_values.
  destruct (choices r) as [d|l]; [discriminate|]. intros _ Hlen Hno.
  destruct l as [|c0 [|c1 rest]]; simpl in Hlen; try lia; [reflexivity|].
  cbn [forallb andb] in Hno. rewrite andb_true_r in Hno.
  cbn [Py.getitem nth_error Py.bind]. rewrite str_in_tf_choices, Hno.
  reflexivity.
Qed.

(** C1. [get_category] is a function of the record's choices and targets:
    a dict-typed choice set yields category 2 (Regression) on every record;
    on a well-formed record (at least one day, at least two listed
    options), and wherever else it returns, listed options are MultiChoice
    for more than two options, for options none of which is a yes/no
    word, or for a list-valued first-day target, and BinaryTF otherwise;
    two records with the same choices and the same day targets are
    classified alike; and classifying again after [__getitem__] has run
    on the record (which updates it in place) gives the same result, for
    the record and for the whole dataset.  This is the wording of the
    specification except on a two-option set that mixes a yes/no word
    with another value, which is BinaryTF and not MultiChoice; and with
    fewer than two listed options, none a yes/no word, [get_category]
    raises [IndexError]. *)
Theorem category_classification (str_to_float : string -> option Q)
    (self : ForecastingDataset) (index : Z) (r : QuestionRecord) :
  (is_mapping r = true -> get_category r = Ok (category_id Regression)) /\
  (well_formed r -> get_category r = Ok (category_id (classify r))) /\
  (forall c, get_category r = Ok c -> c = category_id (classify r)) /\
  (forall r', choices r' = choices r ->
              map target (targets r') = map target (targets r) ->
              get_category r' = get_category r) /\
  get_category (snd (getitem_example str_to_float self r)) = get_category r /\
  map get_category (data (snd (__getitem__ str_to_float self index)))
  = map get_category (data self) /\
  (well_formed r ->
   classify_as_worded r = classify r \/
   (classify_as_worded r = MultiChoice /\
    get_category r = Ok (category_id BinaryTF) /\
    length (option_values r) = 2 /\
    existsb yes_no (option_values r) = true /\
    non_yes_no_values r = true)) /\
  (is_mapping r = false -> length (option_values r) < 2 ->
   no_yes_no_option r = true -> get_category r = Raise IndexError).
Proof.
  split; [|split; [|split; [|split; [|split; [|split; [|split]]]]]].
  - unfold is_mapping, get_category. destruct (choices r); [reflexivity|discriminate].
  - apply get_category_classify.
  - intros c Hc. destruct (get_category_sound r) as [H|H]; congruence.
  - intros r' Hc Ht. now apply get_category_ext.
  - apply getitem_example_keeps_category.
  - apply getitem_keeps_categories.
  - intros Hwf. destruct (worded_or_mixed r Hwf) as [H|(H1 & H2 & H3)];
      [now left|right].
    split; [exact H1|]. split; [|exact H3].
    rewrite (get_category_classify r Hwf). now rewrite H2.
  - apply get_category_short.
Qed.

Lemma category_classification_witness :
  get_category numeric_record = Ok 2%Z /\
  get_category choice_record = Ok 1%Z /\
  get_category binary_record = Ok 0%Z /\
  get_category (snd (getitem_example numbers_only
                       (dataset_with [silent_record] true 128) silent_record))
  = Ok 1%Z.
Proof.
  split; [|split; [|split]].
  - exact (proj1 (category_classification numbers_only
                    (dataset_with [numeric_record] false 128) 0 numeric_record)
                 eq_refl).
  - refine (proj1 (proj2 (category_classification numbers_only
                    (dataset_with [choice_record] false 128) 0 choice_record)) _).
    split; [discriminate|intros _; simpl; lia].
  - refine (proj1 (proj2 (category_classification numbers_only
                    (dataset_with [binary_record] false 128) 0 binary_record)) _).
    split; [discriminate|intros _; simpl; lia].
  - destruct (category_classification numbers_only
                (dataset_with [silent_record] true 128) 0 silent_record)
      as (_ & _ & _ & _ & H & _).
    rewrite H. reflexivity.
Defined.

(** A two-option set that mixes a yes/no word with another value is still
    BinaryTF: the code asks that neither of the first two options be a
    yes/no word. *)
Lemma mixed_options_are_binary : get_category mixed_record = Ok 0%Z.
Proof. reflexivity. Qed.

(** The wording of the specification against the code: a two-option set
    with one yes/no word and one other value has "non-yes/no values", so
    the wording makes it MultiChoice, and [get_category] returns 0; a
    single option that is not a yes/no word is MultiChoice by the
    wording, and [get_category] raises [IndexError]. *)
Lemma worded_classification_differs :
  (non_yes_no_values mixed_record = true /\
   classify_as_worded mixed_record = MultiChoice /\
   get_category mixed_record = Ok (category_id BinaryTF)) /\
  (non_yes_no_values lone_record = true /\
   classify_as_worded lone_record = MultiChoice /\
   get_category lone_record = Raise IndexError).
Proof. repeat split; reflexivity. Qed.

(* ================================================================== *)
(** * Sub-examples and target rows have one length *)

(** C2. For a record with at least one day containing documents, the
    assertion [len(targets) == len(fid_examples)] never fails; whenever the
    two sequences are built they have one length, the number of days with
    documents; the truncation drops equally many of the oldest entries of
    both and, for a positive [max_seq_len], keeps the last [max_seq_len]
    of them; whenever an item is returned its sub-examples and its target
    rows have one length; and on a well-formed record with a decodable
    answer and readable day targets an item is returned. *)
Theorem getitem_lengths_agree (str_to_float : string -> option Q)
    (self : ForecastingDataset) (example : QuestionRecord) :
  documented (targets example) <> [] ->
  fst (build_sequences str_to_float (adjust_targets self) example)
    <> Raise AssertionError /\
  fst (getitem_example str_to_float self example) <> Raise AssertionError /\
  (forall cat tt st,
      fst (build_sequences str_to_float (adjust_targets self) example)
        = Ok (cat, tt, st) ->
      length (l_fid_examples st) = length (l_targets st) /\
      length (l_targets st) = length (documented (targets example)) /\
      length (Py.slice_from (- max_seq_len self) (l_fid_examples st))
      = length (Py.slice_from (- max_seq_len self) (l_targets st)) /\
      ((0 < max_seq_len self)%Z ->
       length (Py.slice_from (- max_seq_len self) (l_targets st))
       = Nat.min (length (l_targets st)) (Z.to_nat (max_seq_len self))) /\
      (exists older_fids older_targets,
          length older_fids = length older_targets /\
          l_fid_examples st
          = older_fids ++ Py.slice_from (- max_seq_len self) (l_fid_examples st) /\
          l_targets st
          = older_targets ++ Py.slice_from (- max_seq_len self) (l_targets st))) /\
  (forall item,
      fst (getitem_example str_to_float self example) = Ok item ->
      length (fid_examples (item_dataset item)) = length (item_targets item)) /\
  (forall tt,
      well_formed example ->
      answer_decodes str_to_float (classify example) (answers example) tt ->
      days_readable str_to_float example ->
      (0 <= max_seq_len self)%Z ->
      exists item,
        fst (getitem_example str_to_float self example) = Ok item /\
        length (fid_examples (item_dataset item)) = length (item_targets item) /\
        1 <= length (item_targets item)).
Proof.
  intros Hdoc.
  pose proof (build_sequences_spec str_to_float (adjust_targets self) example)
    as [Hna Hok].
  pose proof (getitem_example_spec str_to_float self example) as [Hga Hgok].
  assert (Hlen : forall item,
             fst (getitem_example str_to_float self example) = Ok item ->
             length (fid_examples (item_dataset item)) = length (item_targets item)).
  { intros item Hitem.
    destruct (Hgok item Hitem) as (cat & tt & st & Hb & Hf & Ht & _).
    destruct (Hok cat tt st Hb) as (_ & _ & Heq & _).
    rewrite Hf, Ht, length_map. now apply slice_from_same_length. }
  repeat split; try assumption.
  - now destruct (Hok _ _ _ H) as (_ & _ & Heq & _).
  - destruct (Hok _ _ _ H) as (_ & _ & _ & Hn & _). rewrite Hn.
    destruct (documented (targets example)); [congruence|reflexivity].
  - destruct (Hok _ _ _ H) as (_ & _ & Heq & _).
    now apply slice_from_same_length.
  - intros Hm. rewrite slice_last_length by lia.
    destruct (Z.eqb_spec (max_seq_len self) 0); [lia|reflexivity].
  - destruct (Hok _ _ _ H) as (_ & _ & Heq & _).
    eexists. eexists. split; [|split; apply slice_from_suffix].
    rewrite !length_firstn.
    rewrite (slice_from_same_length (- max_seq_len self) _ _ Heq). lia.
  - intros tt Hwf Hans Hrd Hm.
    destruct (build_sequences_total str_to_float (adjust_targets self) example tt
                Hwf Hans Hrd) as (st & Hb).
    destruct (getitem_example_total str_to_float self example _ tt st Hb Hm)
      as (item & Hitem).
    exists item. split; [assumption|]. split; [now apply Hlen|].
    destruct (Hgok item Hitem) as (cat' & tt' & st' & Hb' & _ & Ht & _).
    rewrite Hb in Hb'. inversion Hb'; subst.
    rewrite Ht, length_map.
    destruct (Hok _ _ _ Hb) as (_ & _ & _ & Hn & _).
    assert (Hne : l_targets st' <> []).
    { intros Hnil. rewrite Hnil in Hn. simpl in Hn.
      destruct (length (documented (targets example))); discriminate. }
    pose proof (slice_last_nonempty (max_seq_len self) (l_targets st') Hm Hne) as Hs.
    destruct (Py.slice_from (- max_seq_len self) (l_targets st')); [congruence|].
    simpl. lia.
Qed.

Lemma getitem_lengths_agree_witness :
  exists item,
    fst (getitem_example numbers_only (dataset_with [binary_record] false 2)
           binary_record) = Ok item /\
    length (fid_examples (item_dataset item)) = length (item_targets item) /\
    1 <= length (item_targets item).
Proof.
  destruct (getitem_lengths_agree numbers_only
              (dataset_with [binary_record] false 2) binary_record)
    as (_ & _ & _ & _ & H).
  - discriminate.
  - apply (H (IntLabel 1)).
    + split; [discriminate|intros _; simpl; lia].
    + apply decode_tf. reflexivity.
    + unfold days_readable. simpl.
      apply Forall_cons; [intros _; now apply readable_tf with (q := 0.6%Q)|].
      apply Forall_cons; [intros _; now apply readable_tf with (q := 0.7%Q)|].
      apply Forall_cons; [intros _; now apply readable_tf with (q := 0.9%Q)|].
      apply Forall_nil.
    + simpl. lia.
Defined.

(* ================================================================== *)
(** * The fallback snapshot *)

Lemma slice_last_singleton {A} (m : Z) (a : A) :
  (0 <= m)%Z -> Py.slice_from (- m) [a] = [a].
Proof.
  intros Hm. unfold Py.slice_from. simpl length.
  replace (Z.to_nat _) with 0; [reflexivity|].
  destruct (Z.ltb_spec (- m) 0); lia.
Qed.

Lemma map_const_repeat {A B} (b : B) (f : A -> B) (l : list A) :
  (forall x, In x l -> f x = b) -> map f l = repeat b (length l).
Proof.
  induction l as [|x l IH]; intros H; simpl; [reflexivity|].
  rewrite (H x (or_introl eq_refl)), IH; [reflexivity|].
  intros y Hy. apply H. now right.
Qed.

Lemma one_hot_length (width : nat) (z : Z) : length (one_hot width z) = width.
Proof. unfold one_hot. now rewrite length_map, length_seq. Qed.

Lemma one_hot_nth (width : nat) (z : Z) (i : nat) (d : Q) :
  i < width ->
  nth i (one_hot width z) d = if (Z.of_nat i =? z)%Z then 1%Q else 0%Q.
Proof.
  intros Hi. unfold one_hot.
  set (f := fun i : nat => if (Z.of_nat i =? z)%Z then 1%Q else 0%Q).
  rewrite nth_indep with (d' := f 0) by (now rewrite length_map, length_seq).
  rewrite map_nth, seq_nth by assumption. reflexivity.
Qed.

Lemma fallback_target_bounded (example : QuestionRecord) (tt : label) :
  length (fallback_target example tt) <= max_choice_len.
Proof.
  unfold fallback_target.
  destruct (classify example), tt; simpl; try (unfold max_choice_len; lia).
  rewrite one_hot_length. lia.
Qed.

(** The sequences of a record none of whose days has documents. *)
Lemma build_sequences_no_documents (str_to_float : string -> option Q)
    (adjust : bool) (example : QuestionRecord) (tt : label) :
  well_formed example ->
  Forall (fun day => no_ctxs day = true) (targets example) ->
  answer_decodes str_to_float (classify example) (answers example) tt ->
  exists day,
    fst (build_sequences str_to_float adjust example)
    = Ok (category_id (classify example), tt,
          {| l_fid_examples := [day_copy 0 example day];
             l_targets := [fallback_target example tt];
             l_has_ctxs := false |}).
Proof.
  intros Hwf Hno Hans.
  pose proof (get_category_classify example Hwf) as Hcat.
  pose proof (get_true_target_decodes str_to_float example tt Hans) as Htt.
  rewrite (build_sequences_unfold str_to_float adjust example _ tt Hcat Htt). cbv zeta.
  rewrite (for_days_no_documents str_to_float adjust _ tt _ example _ Hno). simpl.
  assert (Hne : map clear_ctxs (targets example) <> []).
  { destruct Hwf as [Hd _]. destruct (targets example); [congruence|discriminate]. }
  destruct (last_map_some _ Hne) as (day & Hlast & _).
  exists day. unfold fallback. simpl. rewrite Hlast. simpl.
  unfold fallback_target.
  destruct Hans as [s b rest Hb|ch rest|a q rest Hq]; reflexivity.
Qed.




(** A record without any day is outside the transformer's domain: there is
    no day for the fallback to copy. *)
Lemma dayless_record_is_refused :
  fst (getitem_example numbers_only (dataset_with [dayless_record] false 128)
         dayless_record) = Raise UnboundLocalError.
Proof. reflexivity. Qed.



(* ================================================================== *)
(** * Per-day targets *)

Lemma normalized_nth (scores : list Q) (i : nat) :
  nth i (normalized scores) 0%Q = (nth i scores 0 / Py.sum scores)%Q
  \/ length scores <= i.
Proof.
  destruct (Nat.lt_ge_cases i (length scores)) as [Hi|Hi]; [left|now right].
  unfold normalized.
  set (f := fun s : Q => (s / Py.sum scores)%Q).
  rewrite nth_indep with (d' := f 0%Q) by (now rewrite length_map).
  now rewrite map_nth.
Qed.

Lemma normalized_length (scores : list Q) :
  length (normalized scores) = length scores.
Proof. unfold normalized. apply length_map. Qed.

Lemma adjust_row_nth (z : Z) (row : list Q) (i : nat) :
  i < length row ->
  nth i (adjust_row (IntLabel z) row) 0%Q = blended z row i.
Proof.
  intros Hi. unfold adjust_row, Py.mapi, blended.
  rewrite mapi_from_nth with (da := 0%Q) by assumption. reflexivity.
Qed.

(** A record of one day, with documents: the loop body runs once, with the
    width [min(len(choices), max_choice_len)]. *)
Lemma build_sequences_single_day (str_to_float : string -> option Q)
    (adjust : bool) (example : QuestionRecord) (c : Z) (tt : label)
    (day : DaySnapshot) (row : list Q) :
  get_category example = Ok c ->
  get_true_target str_to_float c example = Ok tt ->
  targets example = [day] ->
  no_ctxs day = false ->
  append_day_target str_to_float adjust c tt
    (Nat.min (length_choices (choices example)) max_choice_len) day [] = Ok [row] ->
  fst (build_sequences str_to_float adjust example)
  = Ok (c, tt, {| l_fid_examples := [day_copy 0 example day];
                  l_targets := [row];
                  l_has_ctxs := true |}).
Proof.
  intros Hc Htt Hd Hno Happ.
  rewrite (build_sequences_unfold str_to_float adjust example c tt Hc Htt). cbv zeta.
  rewrite Hd. simpl. rewrite Hno. simpl in Happ. rewrite Happ. reflexivity.
Qed.

(** C7. The per-day target of a day with documents follows the formulas.
    BinaryTF and Regression (categories 0 and 2): the row [[t]], or
    [[(t + true_label) / 2]] when [adjust_targets] is set.  MultiChoice: the
    scores of the first [width] choices divided by their sum, so that they
    sum to 1; when [adjust_targets] is set every entry is halved, except
    the entry of the true choice, which becomes [(entry + 1) / 2].  The
    loop calls the body with [width = min(len(choices), max_choice_len)].
    The record with 3 choices, answer "B" and one day scoring [1, 2, 1]
    yields the day target [0.25, 0.5, 0.25], category 1, true label 1. *)
Theorem day_target_formulas (str_to_float : string -> option Q)
    (adjust : bool) (tt : label) (width : nat) (day : DaySnapshot)
    (tgts : list (list Q)) :
  (forall c v t,
      c = 0%Z \/ c = 2%Z ->
      target day = Scalar v -> float str_to_float v = Ok t ->
      append_day_target str_to_float adjust c tt width day tgts
      = Ok (tgts ++ [[if adjust then ((t + label_value tt) / 2)%Q else t]])) /\
  (forall l scores z,
      tt = IntLabel z ->
      target day = Vector l ->
      Py.traverse (float str_to_float) (firstn width l) = Ok scores ->
      ~ Py.sum scores == 0 ->
      exists row,
        append_day_target str_to_float adjust 1 tt width day tgts
          = Ok (tgts ++ [row]) /\
        length row = length scores /\
        Py.sum (normalized scores) == 1 /\
        forall i, i < length scores ->
          nth i (normalized scores) 0%Q = (nth i scores 0 / Py.sum scores)%Q /\
          nth i row 0%Q = if adjust then blended z (normalized scores) i
                          else nth i (normalized scores) 0%Q) /\
  (forall example c row,
      get_category example = Ok c ->
      get_true_target str_to_float c example = Ok tt ->
      targets example = [day] ->
      no_ctxs day = false ->
      append_day_target str_to_float adjust c tt
        (Nat.min (length_choices (choices example)) max_choice_len) day []
        = Ok [row] ->
      fst (build_sequences str_to_float adjust example)
      = Ok (c, tt, {| l_fid_examples := [day_copy 0 example day];
                      l_targets := [row];
                      l_has_ctxs := true |})) /\
  (exists st,
      fst (build_sequences str_to_float false choice_record)
        = Ok (1%Z, IntLabel 1, st) /\
      rows_eq (l_targets st) [[0.25; 0.5; 0.25]%Q]).
Proof.
  split; [|split; [|split]].
  - intros c v t Hc Hv Ht. now apply append_day_target_scalar with (v := v).
  - intros l scores z -> Hv Hs Hsum.
    exists (if adjust then adjust_row (IntLabel z) (normalized scores)
            else normalized scores).
    split; [now apply append_day_target_vector with (l := l)|].
    split; [|split].
    + destruct adjust; rewrite ?adjust_row_length; apply normalized_length.
    + now apply sum_normalized.
    + intros i Hi. split.
      * destruct (normalized_nth scores i) as [H|H]; [exact H|lia].
      * destruct adjust; [|reflexivity].
        apply adjust_row_nth. now rewrite normalized_length.
  - intros example c row. apply build_sequences_single_day.
  - eexists. split; [vm_compute; reflexivity|].
    repeat constructor.
Qed.

Lemma day_target_formulas_witness :
  append_day_target numbers_only true 0 (IntLabel 1) 2
    (day_with (Scalar (Num 0.6)) (Some [a_document])) []
  = Ok [[((0.6 + 1) / 2)%Q]] /\
  exists row,
    append_day_target numbers_only true 1 (IntLabel 1) 3
      (day_with (Vector [Num 1; Num 2; Num 1]) (Some [a_document])) []
    = Ok [row] /\
    length row = 3 /\
    nth 1 row 0%Q = blended 1 (normalized [1; 2; 1]%Q) 1.
Proof.
  split.
  - refine (proj1 (day_target_formulas numbers_only true (IntLabel 1) 2
                     (day_with (Scalar (Num 0.6)) (Some [a_document])) [])
                  0%Z (Num 0.6) 0.6%Q _ eq_refl eq_refl).
    now left.
  - destruct (proj1 (proj2 (day_target_formulas numbers_only true (IntLabel 1) 3
                     (day_with (Vector [Num 1; Num 2; Num 1]) (Some [a_document])) []))
                [Num 1; Num 2; Num 1] [1; 2; 1]%Q 1%Z eq_refl eq_refl eq_refl)
      as (row & Hrow & Hlen & _ & Hnth).
    + vm_compute. discriminate.
    + exists row. split; [exact Hrow|]. split; [exact Hlen|].
      apply (Hnth 1). simpl. lia.
Defined.

(* ================================================================== *)
(** * The binary scenario *)

(** C8, as stated, fails: the tensor [__getitem__] returns for the binary
    scenario has twelve columns; it is not the 3 x 1 tensor of the day
    targets. *)
Lemma binary_scenario_tensor_is_padded :
  exists item,
    fst (__getitem__ numbers_only (dataset_with [binary_record] false 128) 0)
      = Ok item /\
    rows_eqb (item_targets item) [[0.6]; [0.7]; [0.9]]%Q = false /\
    map (@length Q) (item_targets item) = [12; 12; 12].
Proof.
  eexists. split; [vm_compute; reflexivity|]. split; reflexivity.
Qed.

(** C8 (amended). For the BinaryTF record with answer "yes", three days of
    one document each and crowd targets 0.6, 0.7, 0.9, with
    [adjust_targets] unset, the day targets before padding are
    [[0.6], [0.7], [0.9]]; [__getitem__] returns them padded with [-1.] to
    [max_choice_len] columns, with category 0 and true label 1. *)
Theorem binary_scenario (str_to_float : string -> option Q) :
  exists item st,
    fst (__getitem__ str_to_float (dataset_with [binary_record] false 128) 0)
      = Ok item /\
    fst (build_sequences str_to_float false binary_record)
      = Ok (0%Z, IntLabel 1, st) /\
    l_targets st = [[0.6]; [0.7]; [0.9]]%Q /\
    item_targets item = [0.6 :: repeat (-1) 11;
                         0.7 :: repeat (-1) 11;
                         0.9 :: repeat (-1) 11]%Q /\
    length (fid_examples (item_dataset item)) = 3 /\
    item_cat item = 0%Z /\
    item_true_target item = IntLabel 1.
Proof.
  eexists. eexists. split; [vm_compute; reflexivity|].
  split; [vm_compute; reflexivity|].
  repeat split.
Qed.

(* ================================================================== *)
(** * The sum of a multiple-choice row *)

(** C10, as stated, fails: with thirteen choices and the thirteenth as the
    answer, the true choice has no position in the twelve-entry row, and
    the blended row of positive scores sums to 1/2. *)
Lemma blend_loses_unit_sum :
  exists st row,
    targets thirteen_record
      = [day_with (Vector (repeat (Num 1) 13)) (Some [a_document])] /\
    fst (build_sequences numbers_only true thirteen_record)
      = Ok (1%Z, IntLabel 12, st) /\
    l_targets st = [row] /\
    length row = 12 /\
    Qeq_bool (Py.sum row) 1 = false /\
    Qeq_bool (Py.sum row) (1 # 2) = true.
Proof.
  eexists. eexists. split; [reflexivity|]. split; [vm_compute; reflexivity|].
  split; [reflexivity|]. repeat split.
Qed.

(** C10 (amended). For a MultiChoice day with at least one kept score, all
    kept scores positive, the per-day target row sums to 1 when
    [adjust_targets] is unset, and when it is set provided the true choice
    is one of the row's positions; when the true choice lies outside the
    row the blended row sums to 1/2. *)
Theorem multichoice_row_sum (str_to_float : string -> option Q)
    (adjust : bool) (z : Z) (width : nat) (day : DaySnapshot)
    (tgts : list (list Q)) (l : list scalar) (scores : list Q) :
  target day = Vector l ->
  Py.traverse (float str_to_float) (firstn width l) = Ok scores ->
  scores <> [] ->
  Forall (fun s => (0 < s)%Q) scores ->
  exists row,
    append_day_target str_to_float adjust 1 (IntLabel z) width day tgts
      = Ok (tgts ++ [row]) /\
    length row = length scores /\
    (adjust = false -> Py.sum row == 1) /\
    (adjust = true -> (0 <= z < Z.of_nat (length row))%Z -> Py.sum row == 1) /\
    (adjust = true -> ~ (0 <= z < Z.of_nat (length row))%Z -> Py.sum row == 1 # 2).
Proof.
  intros Hv Hs Hne Hpos.
  assert (Hsum : ~ Py.sum scores == 0).
  { pose proof (sum_pos scores Hne Hpos) as H. intros E. rewrite E in H.
    now apply Qlt_irrefl in H. }
  exists (if adjust then adjust_row (IntLabel z) (normalized scores)
          else normalized scores).
  split; [now apply append_day_target_vector with (l := l)|].
  pose proof (sum_normalized scores Hsum) as Hone.
  split; [destruct adjust; rewrite ?adjust_row_length; apply normalized_length|].
  split; [|split].
  - intros ->. exact Hone.
  - intros -> Hz. rewrite adjust_row_length in Hz.
    rewrite sum_adjust_row, Hone.
    destruct (Z.leb_spec 0 z), (Z.ltb_spec z (Z.of_nat (length (normalized scores))));
      simpl; try lia. reflexivity.
  - intros -> Hz. rewrite adjust_row_length in Hz.
    rewrite sum_adjust_row, Hone.
    destruct (Z.leb_spec 0 z), (Z.ltb_spec z (Z.of_nat (length (normalized scores))));
      simpl; try lia; reflexivity.
Qed.

Lemma multichoice_row_sum_witness :
  exists row,
    append_day_target numbers_only true 1 (IntLabel 1) 3
      (day_with (Vector [Num 1; Num 2; Num 1]) (Some [a_document])) []
    = Ok [row] /\
    Py.sum row == 1.
Proof.
  destruct (multichoice_row_sum numbers_only true 1 3
              (day_with (Vector [Num 1; Num 2; Num 1]) (Some [a_document])) []
              [Num 1; Num 2; Num 1] [1; 2; 1]%Q eq_refl eq_refl)
    as (row & Hrow & Hlen & _ & Hin & _).
  - discriminate.
  - repeat constructor.
  - exists row. split; [exact Hrow|]. apply Hin; [reflexivity|].
    rewrite Hlen. simpl. lia.
Defined.

(* ================================================================== *)
(** * The collator *)

Lemma zip_with_map {A B C D} (f : B -> C -> D) (g : A -> B) (h : A -> C) (l : list A) :
  Torch.zip_with f (map g l) (map h l) = map (fun x => f (g x) (h x)) l.
Proof.
  induction l; simpl; [reflexivity|now rewrite IHl].
Qed.

Lemma firstn_repeat_app {A} (a b : A) (n k : nat) :
  firstn n (repeat a n ++ repeat b k) = repeat a n.
Proof.
  rewrite firstn_app, repeat_length, Nat.sub_diag. simpl.
  rewrite app_nil_r. apply firstn_all2. now rewrite repeat_length.
Qed.

Lemma nth_error_padding {A} (l : list A) (pad : A) (k d : nat) :
  length l <= d < length l + k ->
  nth_error (l ++ repeat pad k) d = Some pad.
Proof.
  intros [Hlo Hhi]. rewrite nth_error_app2 by assumption.
  apply nth_error_repeat. lia.
Qed.

Lemma nth_true_prefix (n k d : nat) :
  nth d (repeat true n ++ repeat false k) false = true <-> d < n.
Proof.
  destruct (Nat.lt_ge_cases d n) as [H|H].
  - rewrite app_nth1 by (now rewrite repeat_length).
    rewrite nth_indep with (d' := true) by (now rewrite repeat_length).
    rewrite nth_repeat. tauto.
  - rewrite app_nth2 by (now rewrite repeat_length).
    rewrite repeat_length.
    assert (nth (d - n) (repeat false k) false = false).
    { destruct (Nat.lt_ge_cases (d - n) k).
      - apply nth_repeat_lt. assumption.
      - apply nth_overflow. now rewrite repeat_length. }
    split; [congruence|lia].
Qed.

Lemma pad_sequence_ok {A} (pad : A) (seqs : list (list A)) :
  seqs <> [] ->
  Torch.pad_sequence pad seqs
  = Ok (map (fun s => s ++ repeat pad (Torch.max_len seqs - length s)) seqs).
Proof.
  destruct seqs; [congruence|reflexivity].
Qed.

Lemma pad_sequence_inv {A} (pad : A) (seqs padded : list (list A)) :
  Torch.pad_sequence pad seqs = Ok padded ->
  seqs <> [] /\
  padded = map (fun s => s ++ repeat pad (Torch.max_len seqs - length s)) seqs.
Proof.
  destruct seqs; [discriminate|]. intros H. inversion H. split; [discriminate|reflexivity].
Qed.

(** What the collator returns, field by field. *)
Lemma forecaster_collate_fn_spec examples labels true_labels cats batch :
  forecaster_collate_fn examples labels true_labels cats = Ok batch ->
  b_examples batch
    = map (fun s => s ++ repeat (repeat 0%Q (trailing examples))
                             (Torch.max_len examples - length s)) examples /\
  b_labels batch
    = map (fun s => s ++ repeat (repeat (-2)%Q (trailing labels))
                             (Torch.max_len labels - length s)) labels /\
  b_mask batch = map (fun s => mask_row (length s) (Torch.max_len labels)) labels /\
  b_seq_ends batch = map (fun s => (Z.of_nat (length s) - 1)%Z) labels /\
  b_true_labels batch = map label_value true_labels /\
  b_cats batch = cats /\
  length examples = length labels /\
  Torch.max_len examples = Torch.max_len labels.
Proof.
  unfold forecaster_collate_fn.
  destruct (Torch.pad_sequence (repeat 0%Q (trailing examples)) examples)
    as [examples_p|] eqn:He; simpl; [|discriminate].
  destruct (Torch.pad_sequence (repeat (-2)%Q (trailing labels)) labels)
    as [labels_p|] eqn:Hl; simpl; [|discriminate].
  destruct (trailing labels =? 0); simpl; [discriminate|].
  apply pad_sequence_inv in He, Hl. destruct He as [_ ->], Hl as [_ ->].
  assert (Hmask :
    Torch.zip_with (fun row seq_len => clear_from seq_len row)
      (map (map (fun _ : list Q => true))
         (map (fun s => s ++ repeat (repeat (-2)%Q (trailing labels))
                                    (Torch.max_len labels - length s)) labels))
      (map (@length (list Q)) labels)
    = map (fun s => mask_row (length s) (Torch.max_len labels)) labels).
  { rewrite map_map, zip_with_map. apply map_ext_in. intros s Hs.
    assert (length s <= Torch.max_len labels) by now apply length_le_max_len.
    unfold clear_from, mask_row.
    rewrite map_app, !map_const, repeat_length.
    rewrite firstn_repeat_app, length_app, !repeat_length.
    do 2 f_equal. lia. }
  rewrite Hmask, !length_map.
  destruct (Nat.eqb_spec (length examples) (length labels)); simpl; [|discriminate].
  destruct (Nat.eqb_spec (Torch.max_len examples) (Torch.max_len labels));
    [|discriminate].
  intros H. inversion H; subst; simpl. repeat split; try reflexivity; try assumption.
  now rewrite map_map.
Qed.

(** The collator accepts parallel lists of sequences of matching lengths. *)
Lemma forecaster_collate_fn_total examples labels true_labels cats :
  labels <> [] ->
  trailing labels <> 0 ->
  map (@length (list Q)) examples = map (@length (list Q)) labels ->
  exists batch, forecaster_collate_fn examples labels true_labels cats = Ok batch.
Proof.
  intros Hne Htr Hlen.
  assert (He : examples <> []).
  { intros ->. destruct labels; [congruence|discriminate]. }
  assert (Hmax : Torch.max_len examples = Torch.max_len labels).
  { clear -Hlen. revert labels Hlen.
    induction examples as [|e es IH]; intros [|l ls] H; simpl in *;
      try discriminate; [reflexivity|].
    inversion H as [[H1 H2]]. now rewrite H1, (IH ls H2). }
  unfold forecaster_collate_fn.
  rewrite (pad_sequence_ok _ examples He), (pad_sequence_ok _ labels Hne). simpl.
  destruct (Nat.eqb_spec (trailing labels) 0); [contradiction|]. simpl.
  rewrite zip_with_length, !length_map, Hmax, Nat.eqb_refl.
  apply (f_equal (@length nat)) in Hlen. rewrite !length_map in Hlen.
  rewrite Hlen, Nat.min_id, Nat.eqb_refl. simpl. eauto.
Qed.

Lemma firstn_exact {A} (l l' : list A) : firstn (length l) (l ++ l') = l.
Proof.
  rewrite firstn_app, Nat.sub_diag, firstn_all. simpl. apply app_nil_r.
Qed.

Lemma padded_row_length (row : list Q) :
  length row <= max_choice_len -> length (padded_row row) = max_choice_len.
Proof.
  intros H. unfold padded_row. rewrite length_app, repeat_length. lia.
Qed.

(** C5. The collator returns a batch on parallel lists of sequences of
    matching lengths; in every batch it returns, [seq_ends[i]] is the i-th
    example's number of days minus 1 and, for every day index [d] of the
    batch, [mask[i][d]] is [True] exactly when [d <= seq_ends[i]]; two
    examples of 2 and of 4 days (hidden size 8) give the mask
    [[T,T,F,F],[T,T,T,T]] and [seq_ends = [1, 3]]. *)
Theorem collate_mask (examples labels : list (list (list Q)))
    (true_labels : list label) (cats : list Z) :
  (labels <> [] -> trailing labels <> 0 ->
   map (@length (list Q)) examples = map (@length (list Q)) labels ->
   exists batch, forecaster_collate_fn examples labels true_labels cats = Ok batch) /\
  (forall batch,
      forecaster_collate_fn examples labels true_labels cats = Ok batch ->
      length (b_mask batch) = length labels /\
      length (b_seq_ends batch) = length labels /\
      forall i lab,
        nth_error labels i = Some lab ->
        exists row e,
          nth_error (b_mask batch) i = Some row /\
          nth_error (b_seq_ends batch) i = Some e /\
          e = (Z.of_nat (length lab) - 1)%Z /\
          length row = Torch.max_len labels /\
          forall d, d < Torch.max_len labels ->
                    (nth d row false = true <-> (Z.of_nat d <= e)%Z)) /\
  (exists batch,
      forecaster_collate_fn [hidden_two_days; hidden_four_days]
        [labels_two_days; labels_four_days] true_labels cats = Ok batch /\
      b_mask batch = [[true; true; false; false]; [true; true; true; true]] /\
      b_seq_ends batch = [1%Z; 3%Z]).
Proof.
  split; [|split].
  - apply forecaster_collate_fn_total.
  - intros batch Hb.
    destruct (forecaster_collate_fn_spec _ _ _ _ _ Hb)
      as (_ & _ & Hmask & Hends & _).
    rewrite Hmask, Hends, !length_map. split; [reflexivity|]. split; [reflexivity|].
    intros i lab Hi.
    exists (mask_row (length lab) (Torch.max_len labels)), (Z.of_nat (length lab) - 1)%Z.
    assert (Hle : length lab <= Torch.max_len labels).
    { apply length_le_max_len. eapply nth_error_In; eauto. }
    split; [now rewrite (map_nth_error _ _ _ Hi)|].
    split; [now rewrite (map_nth_error _ _ _ Hi)|].
    split; [reflexivity|].
    unfold mask_row. split.
    + rewrite length_app, !repeat_length. lia.
    + intros d Hd. rewrite nth_true_prefix. lia.
  - eexists. split; [vm_compute; reflexivity|]. split; reflexivity.
Qed.

Lemma collate_mask_witness :
  exists row e,
    nth_error [[true; true; false; false]; [true; true; true; true]] 0 = Some row /\
    e = 1%Z /\
    (nth 1 row false = true <-> (1 <= e)%Z) /\
    (nth 2 row false = true <-> (2 <= e)%Z).
Proof.
  destruct (collate_mask [hidden_two_days; hidden_four_days]
              [labels_two_days; labels_four_days] [IntLabel 1; IntLabel 1]
              [0%Z; 1%Z]) as (_ & H & _).
  destruct (H _ eq_refl) as (_ & _ & Hrow).
  destruct (Hrow 0 labels_two_days eq_refl) as (row & e & Hm & _ & He & _ & Hd).
  exists row, e. split; [exact Hm|]. split; [exact He|].
  split; apply Hd; vm_compute; lia.
Defined.

(** C4. Two sentinels, at two levels.  Every tensor [__getitem__] returns
    has one row per sub-example and [max_choice_len] columns; each row
    starts with the day's target row and continues with [-1.] in every
    later column.  In every batch the collator returns, the i-th target
    sequence starts with the example's rows and every later day-row, that
    is every day index [d > seq_ends[i]] of the batch, is filled with
    [-2.]; the i-th hidden sequence starts with the example's vectors and
    continues with rows of zeros. *)
Theorem padding_sentinels (str_to_float : string -> option Q)
    (self : ForecastingDataset) (example : QuestionRecord)
    (examples labels : list (list (list Q)))
    (true_labels : list label) (cats : list Z) :
  (forall item,
      fst (getitem_example str_to_float self example) = Ok item ->
      exists c tt st,
        fst (build_sequences str_to_float (adjust_targets self) example)
          = Ok (c, tt, st) /\
        length (item_targets item) = length (fid_examples (item_dataset item)) /\
        length (item_targets item)
          = length (Py.slice_from (- max_seq_len self) (l_targets st)) /\
        Forall (fun p => length p = max_choice_len) (item_targets item) /\
        forall i row,
          nth_error (Py.slice_from (- max_seq_len self) (l_targets st)) i = Some row ->
          exists p,
            nth_error (item_targets item) i = Some p /\
            firstn (length row) p = row /\
            forall j, length row <= j < max_choice_len ->
                      nth_error p j = Some (-1)%Q) /\
  (forall batch,
      forecaster_collate_fn examples labels true_labels cats = Ok batch ->
      forall i lab ex,
        nth_error labels i = Some lab ->
        nth_error examples i = Some ex ->
        exists plab pex,
          nth_error (b_labels batch) i = Some plab /\
          nth_error (b_examples batch) i = Some pex /\
          nth_error (b_seq_ends batch) i = Some (Z.of_nat (length lab) - 1)%Z /\
          firstn (length lab) plab = lab /\
          firstn (length ex) pex = ex /\
          length plab = Torch.max_len labels /\
          length pex = Torch.max_len labels /\
          (forall d, (Z.of_nat (length lab) - 1 < Z.of_nat d)%Z ->
                     d < Torch.max_len labels ->
                     nth_error plab d = Some (repeat (-2)%Q (trailing labels))) /\
          (forall d, length ex <= d < Torch.max_len labels ->
                     nth_error pex d = Some (repeat 0%Q (trailing examples)))).
Proof.
  split.
  - intros item Hitem.
    destruct (getitem_example_spec str_to_float self example) as [_ Hspec].
    destruct (Hspec item Hitem) as (c & tt & st & Hb & Hf & Ht & _).
    destruct (build_sequences_spec str_to_float (adjust_targets self) example)
      as [_ Hok].
    destruct (Hok c tt st Hb) as (_ & _ & Heq & _ & Hrows).
    pose proof (slice_from_incl (- max_seq_len self) (l_targets st) _ Hrows) as Hsl.
    exists c, tt, st. split; [exact Hb|].
    rewrite Ht, Hf, length_map.
    split; [symmetry; now apply slice_from_same_length|].
    split; [reflexivity|]. split.
    + apply Forall_map. eapply Forall_impl; [|exact Hsl].
      intros row Hrow. now apply padded_row_length.
    + intros i row Hi. exists (padded_row row).
      split; [now apply map_nth_error|].
      split; [apply firstn_exact|].
      intros j Hj. unfold padded_row. apply nth_error_padding.
      assert (length row <= max_choice_len).
      { rewrite Forall_forall in Hsl. apply Hsl. eapply nth_error_In; eauto. }
      lia.
  - intros batch Hb i lab ex Hlab Hex.
    destruct (forecaster_collate_fn_spec _ _ _ _ _ Hb)
      as (He & Hl & _ & Hends & _ & _ & _ & Hmax).
    assert (Hle : length lab <= Torch.max_len labels).
    { apply length_le_max_len. eapply nth_error_In; eauto. }
    assert (Hle' : length ex <= Torch.max_len labels).
    { rewrite <- Hmax. apply length_le_max_len. eapply nth_error_In; eauto. }
    exists (lab ++ repeat (repeat (-2)%Q (trailing labels))
                        (Torch.max_len labels - length lab)),
           (ex ++ repeat (repeat 0%Q (trailing examples))
                       (Torch.max_len examples - length ex)).
    split; [rewrite Hl; now rewrite (map_nth_error _ _ _ Hlab)|].
    split; [rewrite He; now rewrite (map_nth_error _ _ _ Hex)|].
    split; [rewrite Hends; now rewrite (map_nth_error _ _ _ Hlab)|].
    split; [apply firstn_exact|]. split; [apply firstn_exact|].
    split; [rewrite length_app, repeat_length; lia|].
    split; [rewrite length_app, repeat_length; lia|].
    split.
    + intros d Hd Hd'. apply nth_error_padding. lia.
    + intros d Hd. apply nth_error_padding. lia.
Qed.

Lemma padding_sentinels_witness :
  (exists item p,
      fst (getitem_example numbers_only (dataset_with [binary_record] false 2)
             binary_record) = Ok item /\
      nth_error (item_targets item) 0 = Some p /\
      nth_error p 1 = Some (-1)%Q /\ nth_error p 11 = Some (-1)%Q) /\
  (exists batch plab,
      forecaster_collate_fn [hidden_two_days; hidden_four_days]
        [labels_two_days; labels_four_days] [IntLabel 1; IntLabel 1] [0%Z; 1%Z]
      = Ok batch /\
      nth_error (b_labels batch) 0 = Some plab /\
      nth_error plab 2 = Some (repeat (-2)%Q 12) /\
      nth_error plab 3 = Some (repeat (-2)%Q 12)).
Proof.
  pose proof (padding_sentinels numbers_only (dataset_with [binary_record] false 2)
                binary_record [hidden_two_days; hidden_four_days]
                [labels_two_days; labels_four_days] [IntLabel 1; IntLabel 1]
                [0%Z; 1%Z]) as [HA HB].
  split.
  - destruct (HA _ eq_refl) as (c & tt & st & Hb & _ & _ & _ & Hrows).
    injection Hb as _ _ <-.
    destruct (Hrows 0 [0.7%Q] eq_refl) as (p & Hp & _ & Hj).
    eexists. exists p. split; [reflexivity|]. split; [exact Hp|].
    split; apply Hj; vm_compute; lia.
  - destruct (HB _ eq_refl 0 labels_two_days hidden_two_days eq_refl eq_refl)
      as (plab & pex & Hl & _ & _ & _ & _ & _ & _ & Hd & _).
    eexists. exists plab. split; [reflexivity|]. split; [exact Hl|].
    split; apply Hd; vm_compute; try lia; reflexivity.
Defined.

(* ================================================================== *)
(** * Losses of categories absent from the batch *)

Lemma select_absent {A} (c : Z) (categories : list Z) (t : list A) :
  Forall (fun c' => c' <> c) categories -> select c categories t = [].
Proof.
  unfold select. intros H. revert t.
  induction H as [|c' cs Hc Hcs IH]; intros [|x t]; simpl; try reflexivity.
  destruct (Z.eqb_spec c' c); [contradiction|]. apply IH.
Qed.

Lemma select_present {A} (c : Z) (categories : list Z) (t : list A) :
  length categories = length t ->
  In c categories -> select c categories t <> [].
Proof.
  unfold select. revert t.
  induction categories as [|c' cs IH]; intros [|x t] Hlen Hin; simpl in *;
    try contradiction; try discriminate.
  destruct (Z.eqb_spec c' c) as [->|Hne]; simpl; [discriminate|].
  destruct Hin as [->|Hin]; [congruence|]. apply IH; [lia|assumption].
Qed.

Section LossFacts.

Variable Hidden : Type.
Variable tf_classifier mc_classifier : Hidden -> list Q.
Variable regressor : Hidden -> Q.
Variable log_softmax : list Q -> list Q.
Variable hidden_state : list (list Hidden).
Variable mask : list (list bool).
Variable labels : list (list (list Q)).
Variable categories : list Z.

#[local] Abbreviation the_loss_tf :=
  (loss_tf tf_classifier log_softmax hidden_state mask labels categories).
#[local] Abbreviation the_loss_mc :=
  (loss_mc mc_classifier log_softmax hidden_state mask labels categories).
#[local] Abbreviation the_loss_re :=
  (loss_re regressor hidden_state mask labels categories).
#[local] Abbreviation the_train_loss :=
  (train_loss tf_classifier mc_classifier regressor log_softmax
              hidden_state mask labels categories).

(** C6. A category without an example in the batch contributes the loss
    [0.0] it was initialised with, whatever the rest of the batch holds;
    the training loss is the sum of the three per-category losses; a
    category that is present contributes the mean over its examples of the
    masked, length-normalised loss, divided by 1.74 for MultiChoice and by
    0.18 for Regression and by nothing for BinaryTF; so a batch of one
    category only has that category's loss as its training loss, and an
    empty batch has loss 0. *)
Theorem absent_category_loss :
  (Forall (fun c => c <> 0%Z) categories -> the_loss_tf = 0%Q) /\
  (Forall (fun c => c <> 1%Z) categories -> the_loss_mc = 0%Q) /\
  (Forall (fun c => c <> 2%Z) categories -> the_loss_re = 0%Q) /\
  the_train_loss = (the_loss_tf + the_loss_mc + the_loss_re)%Q /\
  (length categories = length labels -> In 0%Z categories ->
   the_loss_tf
   = mean (tf_example_losses tf_classifier log_softmax hidden_state mask
                             labels categories)) /\
  (length categories = length labels -> In 1%Z categories ->
   the_loss_mc
   = (mean (mc_example_losses mc_classifier log_softmax hidden_state mask
                              labels categories) / 1.74)%Q) /\
  (length categories = length labels -> In 2%Z categories ->
   the_loss_re
   = (mean (re_example_losses regressor hidden_state mask labels categories)
      / 0.18)%Q) /\
  (Forall (fun c => c = 0%Z) categories -> the_train_loss == the_loss_tf) /\
  (Forall (fun c => c = 1%Z) categories -> the_train_loss == the_loss_mc) /\
  (Forall (fun c => c = 2%Z) categories -> the_train_loss == the_loss_re) /\
  (categories = [] -> the_train_loss == 0).
Proof.
  assert (Htf : Forall (fun c => c <> 0%Z) categories -> the_loss_tf = 0%Q).
  { intros H. unfold loss_tf, tf_labels. now rewrite (select_absent _ _ _ H). }
  assert (Hmc : Forall (fun c => c <> 1%Z) categories -> the_loss_mc = 0%Q).
  { intros H. unfold loss_mc, mc_labels. now rewrite (select_absent _ _ _ H). }
  assert (Hre : Forall (fun c => c <> 2%Z) categories -> the_loss_re = 0%Q).
  { intros H. unfold loss_re, re_labels. now rewrite (select_absent _ _ _ H). }
  assert (Hlen : forall {A} (l : list A), l <> [] -> (0 <? length l) = true).
  { intros A [|a l] H; [congruence|reflexivity]. }
  repeat split; try assumption.
  - intros Hl Hin. unfold loss_tf, tf_labels. rewrite length_map, Hlen; [reflexivity|].
    now apply select_present.
  - intros Hl Hin. unfold loss_mc, mc_labels. rewrite Hlen; [reflexivity|].
    now apply select_present.
  - intros Hl Hin. unfold loss_re, re_labels. rewrite length_map, Hlen; [reflexivity|].
    now apply select_present.
  - intros H. unfold train_loss. rewrite Hmc, Hre.
    + ring.
    + eapply Forall_impl; [|exact H]. simpl. intros; lia.
    + eapply Forall_impl; [|exact H]. simpl. intros; lia.
  - intros H. unfold train_loss. rewrite Htf, Hre.
    + ring.
    + eapply Forall_impl; [|exact H]. simpl. intros; lia.
    + eapply Forall_impl; [|exact H]. simpl. intros; lia.
  - intros H. unfold train_loss. rewrite Htf, Hmc.
    + ring.
    + eapply Forall_impl; [|exact H]. simpl. intros; lia.
    + eapply Forall_impl; [|exact H]. simpl. intros; lia.
  - intros H. unfold train_loss.
    rewrite Htf, Hmc, Hre by (rewrite H; constructor). ring.
Qed.

End LossFacts.

Lemma absent_category_loss_witness :
  loss_mc (fun h : Q => [h; h]) (fun l => l) [[1 # 2]] [[true]]
          [[0.6 :: repeat (-1) 11]]%Q [0%Z] = 0%Q /\
  loss_re (fun h : Q => h) [[1 # 2]] [[true]]
          [[0.6 :: repeat (-1) 11]]%Q [0%Z] = 0%Q.
Proof.
  pose proof (absent_category_loss Q (fun h => [h; (1 - h)%Q]) (fun h => [h; h])
                (fun h => h) (fun l => l) [[1 # 2]] [[true]]
                [[0.6 :: repeat (-1) 11]]%Q [0%Z]) as (_ & H1 & H2 & _).
  split; [apply H1|apply H2]; repeat constructor; discriminate.
Defined.

(* ================================================================== *)
(** * Gradient flow through the encoder adapter *)

Section AdapterFacts.

Variable encoder_forward : bool -> list DaySubExample -> list (list Q).
Variable encoder_trainable : bool.
Variable ambient_grad : bool.
Variable cat_empty_error : exn.

#[local] Abbreviation get_fid_outputs' :=
  (get_fid_outputs encoder_forward encoder_trainable ambient_grad
                   cat_empty_error).

Lemma batches_fuel_nonempty {A} (fuel n : nat) (l : list A) :
  l <> [] -> batches_fuel fuel n l <> [].
Proof.
  destruct fuel, l; simpl; congruence.
Qed.

Lemma existsb_forward_batch (training grad : bool) (bs : list (list DaySubExample)) :
  bs <> [] ->
  existsb t_requires_grad
    (map (forward_batch encoder_forward encoder_trainable training grad) bs)
  = grad && encoder_trainable.
Proof.
  induction bs as [|b bs IH]; intros Hne; [congruence|]. simpl.
  destruct bs as [|b' bs'].
  - simpl. now rewrite orb_false_r.
  - rewrite IH by discriminate. now rewrite orb_diag.
Qed.

Lemma cat_inv (outputs : list GradTensor) (raw : GradTensor) :
  cat ambient_grad cat_empty_error outputs = Ok raw ->
  outputs <> [] /\
  raw = {| t_data := concat (map t_data outputs);
           t_requires_grad := ambient_grad && existsb t_requires_grad outputs |}.
Proof.
  unfold cat. destruct outputs; [discriminate|].
  intros H; inversion H. split; [discriminate|reflexivity].
Qed.

Lemma effective_mode_train (finetune_encoder : bool) (mode : string) :
  effective_mode finetune_encoder mode = "train" ->
  mode = "train" /\ finetune_encoder = true.
Proof.
  unfold effective_mode. destruct finetune_encoder; simpl.
  - auto.
  - discriminate.
Qed.

(** C9. The outputs of [get_fid_outputs] are attached to the gradient graph
    only when the requested mode is 'train' and [finetune_encoder] is set.
    With [finetune_encoder] unset (whatever mode is requested) or with mode
    'eval', the effective mode is 'eval', the encoder is left in eval mode
    and the returned tensor is a detached one.  With mode 'train' and
    [finetune_encoder] set the effective mode is 'train', the encoder is
    left in train mode and the outputs are attached when gradients are
    enabled around the call and the encoder has a trainable parameter.
    Outputs are returned whenever the dataset has a sub-example. *)
Theorem gradient_flow (dataset : FiDDataset) (finetune_encoder : bool) (mode : string) :
  (forall out,
      fst (get_fid_outputs' dataset finetune_encoder mode) = Ok out ->
      t_requires_grad out = true ->
      mode = "train" /\ finetune_encoder = true) /\
  (finetune_encoder = false \/ mode = "eval" ->
   effective_mode finetune_encoder mode = "eval" /\
   snd (get_fid_outputs' dataset finetune_encoder mode) = false /\
   forall out,
     fst (get_fid_outputs' dataset finetune_encoder mode) = Ok out ->
     t_requires_grad out = false /\ exists attached, out = detach attached) /\
  (mode = "train" -> finetune_encoder = true ->
   effective_mode finetune_encoder mode = "train" /\
   snd (get_fid_outputs' dataset finetune_encoder mode) = true /\
   forall out,
     fst (get_fid_outputs' dataset finetune_encoder mode) = Ok out ->
     t_requires_grad out = ambient_grad && encoder_trainable) /\
  (fid_examples dataset <> [] ->
   exists out, fst (get_fid_outputs' dataset finetune_encoder mode) = Ok out).
Proof.
  assert (Heval : finetune_encoder = false \/ mode = "eval" ->
                  effective_mode finetune_encoder mode = "eval").
  { unfold effective_mode. intros [-> | ->]; [reflexivity|].
    now destruct finetune_encoder. }
  unfold get_fid_outputs. cbv zeta.
  set (m := effective_mode finetune_encoder mode) in *.
  set (outputs := map (forward_batch encoder_forward encoder_trainable
                         (String.eqb m "train") (String.eqb m "train"))
                      (batches 16 (fid_examples dataset))).
  cbn [fst snd].
  assert (Hflag : forall raw, cat ambient_grad cat_empty_error outputs = Ok raw ->
            t_requires_grad raw
            = ambient_grad && (String.eqb m "train" && encoder_trainable)).
  { intros raw Hraw. destruct (cat_inv _ _ Hraw) as [Hne ->]. cbn [t_requires_grad].
    unfold outputs in *. rewrite existsb_forward_batch; [reflexivity|].
    intros E. apply Hne. now rewrite E. }
  split; [|split; [|split]].
  - intros out Hout Hgrad.
    destruct (cat ambient_grad cat_empty_error outputs) as [raw|] eqn:Hraw; [|discriminate].
    cbn [Py.bind] in Hout. specialize (Hflag raw eq_refl).
    destruct (String.eqb m "eval"); inversion Hout; subst out;
      [discriminate|].
    rewrite Hflag in Hgrad.
    destruct (String.eqb_spec m "train") as [Hm|Hm].
    + now apply effective_mode_train.
    + rewrite andb_false_r in Hgrad. discriminate.
  - intros H. specialize (Heval H). split; [exact Heval|].
    rewrite Heval. split; [reflexivity|].
    intros out Hout.
    destruct (cat ambient_grad cat_empty_error outputs) as [raw|]; [|discriminate].
    inversion Hout; subst out. split; [reflexivity|]. now exists raw.
  - intros Hm Hf.
    assert (Em : m = "train") by (unfold m, effective_mode; now rewrite Hf, Hm).
    split; [exact Em|]. rewrite Em in *. split; [reflexivity|].
    intros out Hout.
    destruct (cat ambient_grad cat_empty_error outputs) as [raw|] eqn:Hraw; [|discriminate].
    inversion Hout; subst out. now rewrite (Hflag raw eq_refl).
  - intros Hne. unfold cat.
    assert (Ho : outputs <> []).
    { unfold outputs, batches. intros E. apply map_eq_nil in E.
      now apply batches_fuel_nonempty in E. }
    destruct outputs; [congruence|]. cbn [Py.bind]. eauto.
Qed.

End AdapterFacts.

Lemma gradient_flow_witness :
  effective_mode false "train" = "eval" /\
  snd (get_fid_outputs (fun _ batch => map (fun _ => [1 # 2]) batch) true true
         RuntimeError
         {| fid_examples := [day_copy 0 binary_record
                               (day_with (Scalar (Num 0.6)) (Some [a_document]))];
            fid_n_context := None; fid_question_prefix := "question:";
            fid_title_prefix := "title:"; fid_passage_prefix := "context:";
            fid_choices_prefix := "choices:"; fid_bound_prefix := "bounds:";
            fid_max_choice_len := 12; fid_cat := 0 |}
         false "train") = false.
Proof.
  pose proof (gradient_flow (fun _ batch => map (fun _ => [1 # 2]) batch) true true
         RuntimeError
         {| fid_examples := [day_copy 0 binary_record
                               (day_with (Scalar (Num 0.6)) (Some [a_document]))];
            fid_n_context := None; fid_question_prefix := "question:";
            fid_title_prefix := "title:"; fid_passage_prefix := "context:";
            fid_choices_prefix := "choices:"; fid_bound_prefix := "bounds:";
            fid_max_choice_len := 12; fid_cat := 0 |}
         false "train") as (_ & H & _).
  destruct (H (or_introl eq_refl)) as (H1 & H2 & _).
  split; assumption.
Defined.

(* ================================================================== *)
(** * Filtering and over-sampling the dataset *)

Section DatasetMethodFacts.

Variable Rng : Type.
Variable random_choice :
  Rng -> list QuestionRecord -> nat -> list QuestionRecord * Rng.

Lemma usable_existsb (days : list DaySnapshot) :
  usable days = existsb (fun day => negb (no_ctxs day)) days.
Proof.
  induction days as [|day rest IH]; simpl; [reflexivity|].
  destruct (no_ctxs day); simpl; [exact IH|reflexivity].
Qed.

Lemma usable_documented (days : list DaySnapshot) :
  usable days = true <-> documented days <> [].
Proof.
  unfold documented. induction days as [|day rest IH]; simpl.
  - split; [discriminate|congruence].
  - destruct (no_ctxs day); simpl; [exact IH|].
    split; [discriminate|reflexivity].
Qed.

Lemma pre_filter_loop_filter (examples valid_data : list QuestionRecord) :
  pre_filter_loop examples valid_data
  = valid_data ++ filter (fun r => usable (targets r)) examples.
Proof.
  revert valid_data. induction examples as [|example rest IH]; intros valid_data; simpl.
  - now rewrite app_nil_r.
  - rewrite IH. destruct (usable (targets example)); [|reflexivity].
    now rewrite <- app_assoc.
Qed.

(** X1. Without over-sampling, [pre_filter] succeeds, leaves the generator
    alone and keeps, in their order, exactly the records that have a day
    with documents; filtering again changes nothing. *)
Theorem pre_filter_keeps_documented (g : Rng) (data : list QuestionRecord)
    (data_by_class : list (string * list QuestionRecord)) :
  pre_filter random_choice g data data_by_class false
  = (Ok tt,
     filter (fun r => existsb (fun day => negb (no_ctxs day)) (targets r)) data,
     g) /\
  (forall r,
      In r (snd (fst (pre_filter random_choice g data data_by_class false)))
      <-> In r data /\ documented (targets r) <> []) /\
  pre_filter random_choice g
    (snd (fst (pre_filter random_choice g data data_by_class false)))
    data_by_class false
  = pre_filter random_choice g data data_by_class false.
Proof.
  assert (E : forall d, pre_filter_loop d []
            = filter (fun r => existsb (fun day => negb (no_ctxs day)) (targets r)) d).
  { intros d. rewrite pre_filter_loop_filter. simpl.
    apply filter_ext. intros r. apply usable_existsb. }
  unfold pre_filter. simpl. rewrite !E. split; [reflexivity|]. split.
  - intros r. rewrite filter_In, <- usable_existsb, usable_documented. tauto.
  - f_equal. f_equal.
    induction data as [|r rest IH]; simpl; [reflexivity|].
    destruct (existsb _ (targets r)) eqn:Hr; simpl; [|exact IH].
    rewrite Hr. now rewrite IH.
Qed.

Lemma max_count_of_bound (classes : list (string * list QuestionRecord)) (m0 : nat) :
  m0 <= fold_left (fun m kv => Nat.max m (length (snd kv))) classes m0 /\
  forall kv, In kv classes ->
    length (snd kv) <= fold_left (fun m kv => Nat.max m (length (snd kv))) classes m0.
Proof.
  revert m0. induction classes as [|kv0 rest IH]; intros m0; simpl.
  - split; [lia|contradiction].
  - destruct (IH (Nat.max m0 (length (snd kv0)))) as [H1 H2].
    split; [lia|]. intros kv [->|Hin]; [lia|now apply H2].
Qed.

Lemma np_random_choice_nonempty (g : Rng) (a : list QuestionRecord) (size : nat) :
  a <> [] ->
  np_random_choice random_choice g a size
  = (let (samples, g') := random_choice g a size in (Ok samples, g')).
Proof.
  intros Ha. unfold np_random_choice. destruct a; [congruence|reflexivity].
Qed.

(** The over-sampling loop, for any [max_count] no class exceeds. *)
Lemma over_sample_loop_balanced (Hdraw : draws_from_population random_choice)
    (m : nat) (classes : list (string * list QuestionRecord)) :
  Forall (fun kv => snd kv <> [] /\ length (snd kv) <= m) classes ->
  forall g data,
    exists added g',
      over_sample_loop random_choice g m classes data = (Ok (data ++ added), g') /\
      length added = length classes * m /\
      Forall (fun x => exists kv, In kv classes /\ In x (snd kv)) added /\
      forall kv, In kv classes -> incl (snd kv) added.
Proof.
  induction 1 as [|[label class_data] rest [Hne Hle] Hrest IH]; intros g data.
  - exists [], g. simpl. rewrite app_nil_r.
    repeat split; [constructor|contradiction].
  - simpl in Hne, Hle. cbn [over_sample_loop].
    rewrite (np_random_choice_nonempty g class_data _ Hne).
    destruct (Hdraw g class_data (m - length class_data)) as [Hlen Hfrom];
      [now left|].
    destruct (random_choice g class_data (m - length class_data))
      as [samples g1]. simpl in Hlen, Hfrom.
    destruct (IH g1 ((data ++ class_data) ++ samples)) as (added & g' & Hrun & Hl & Hin & Hincl).
    exists (class_data ++ samples ++ added), g'.
    split; [rewrite Hrun; f_equal; f_equal; now rewrite <- !app_assoc|].
    split; [rewrite !length_app, Hl, Hlen; simpl; lia|].
    split.
    + apply Forall_app. split.
      * apply Forall_forall. intros x Hx. exists (label, class_data).
        split; [now left|exact Hx].
      * apply Forall_app. split.
        -- eapply Forall_impl; [|exact Hfrom]. intros x Hx.
           exists (label, class_data). split; [now left|exact Hx].
        -- eapply Forall_impl; [|exact Hin]. intros x (kv & Hkv & Hx).
           exists kv. split; [now right|exact Hx].
    + intros kv [<-|Hkv] x Hx; simpl in Hx.
      * apply in_or_app. now left.
      * apply in_or_app. right. apply in_or_app. right. now apply (Hincl kv).
Qed.

(** The over-sampling loop class by class: each class contributes one
    block, the class itself followed by the samples drawn from it, of
    [m] records in all. *)
Lemma over_sample_loop_blocks (Hdraw : draws_from_population random_choice)
    (m : nat) (classes : list (string * list QuestionRecord)) :
  Forall (fun kv => snd kv <> [] /\ length (snd kv) <= m) classes ->
  forall g data,
    exists blocks g',
      over_sample_loop random_choice g m classes data
      = (Ok (data ++ concat blocks), g') /\
      Forall2 (fun kv block =>
                 exists samples,
                   block = snd kv ++ samples /\
                   length samples = m - length (snd kv) /\
                   Forall (fun x => In x (snd kv)) samples /\
                   length block = m)
              classes blocks.
Proof.
  induction 1 as [|[label class_data] rest [Hne Hle] Hrest IH]; intros g data.
  - exists [], g. simpl. rewrite app_nil_r. split; [reflexivity|constructor].
  - simpl in Hne, Hle. cbn [over_sample_loop].
    rewrite (np_random_choice_nonempty g class_data _ Hne).
    destruct (Hdraw g class_data (m - length class_data)) as [Hlen Hfrom];
      [now left|].
    destruct (random_choice g class_data (m - length class_data))
      as [samples g1]. simpl in Hlen, Hfrom.
    destruct (IH g1 ((data ++ class_data) ++ samples)) as (blocks & g' & Hrun & Hb).
    exists ((class_data ++ samples) :: blocks), g'. split.
    + rewrite Hrun. f_equal. f_equal. simpl. now rewrite <- !app_assoc.
    + constructor; [|exact Hb]. exists samples. simpl.
      repeat split; try assumption. rewrite length_app, Hlen. lia.
Qed.

Lemma over_sample_loop_refuses (Hdraw : draws_from_population random_choice)
    (m : nat) (classes : list (string * list QuestionRecord)) :
  0 < m ->
  (exists label, In (label, []) classes) ->
  forall g data,
    fst (over_sample_loop random_choice g m classes data) = Raise ValueError.
Proof.
  intros Hm. induction classes as [|[label class_data] rest IH];
    intros [l0 Hin] g data; [contradiction|].
  cbn [over_sample_loop]. unfold np_random_choice.
  destruct class_data as [|c0 cs].
  - simpl. destruct m; [lia|reflexivity].
  - destruct Hin as [Heq|Hin]; [discriminate|].
    destruct (random_choice g (c0 :: cs) (m - length (c0 :: cs))) as [samples g1].
    apply IH. now exists l0.
Qed.

(** X2. [over_sample] builds the new data from [data_by_class] alone.  When
    every class is non-empty, the new data is one block per class, in the
    order of the classes: the class itself followed by samples drawn from
    that class, [max_count] records per block, so that all classes weigh
    the same; every record of every class is kept, and nothing else is
    added.  With no class at all the new data is empty, whatever the
    dataset held.  When one class is empty and another is not, numpy's
    [choice] refuses the empty class with a [ValueError]. *)
Theorem over_sample_balances_classes (g : Rng)
    (data_by_class : list (string * list QuestionRecord)) :
  draws_from_population random_choice ->
  (Forall (fun kv => snd kv <> []) data_by_class ->
   exists data' g',
     over_sample random_choice g data_by_class = (Ok data', g') /\
     length data' = length data_by_class * max_count_of data_by_class /\
     Forall (fun x => exists kv, In kv data_by_class /\ In x (snd kv)) data' /\
     (forall kv, In kv data_by_class -> incl (snd kv) data') /\
     (forall data,
        pre_filter random_choice g data data_by_class true = (Ok tt, data', g')) /\
     exists blocks,
       data' = concat blocks /\
       Forall2 (fun kv block =>
                  exists samples,
                    block = snd kv ++ samples /\
                    length samples
                    = max_count_of data_by_class - length (snd kv) /\
                    Forall (fun x => In x (snd kv)) samples /\
                    length block = max_count_of data_by_class)
               data_by_class blocks) /\
  (data_by_class = [] ->
   forall data,
     pre_filter random_choice g data data_by_class true = (Ok tt, [], g)) /\
  ((exists label, In (label, []) data_by_class) ->
   0 < max_count_of data_by_class ->
   forall data,
     fst (fst (pre_filter random_choice g data data_by_class true))
       = Raise ValueError /\
     snd (fst (pre_filter random_choice g data data_by_class true))
       = filter (fun r => existsb (fun day => negb (no_ctxs day)) (targets r)) data).
Proof.
  intros Hdraw. split; [|split].
  - intros Hne.
    destruct (over_sample_loop_balanced Hdraw (max_count_of data_by_class)
                data_by_class) with (g := g) (data := @nil QuestionRecord)
      as (added & g' & Hrun & Hl & Hin & Hincl).
    { apply Forall_forall. intros kv Hkv. split.
      - rewrite Forall_forall in Hne. now apply Hne.
      - now apply (max_count_of_bound data_by_class 0). }
    assert (Hcl : Forall (fun kv => snd kv <> [] /\
                                   length (snd kv) <= max_count_of data_by_class)
                         data_by_class).
    { apply Forall_forall. intros kv Hkv. split.
      - rewrite Forall_forall in Hne. now apply Hne.
      - now apply (max_count_of_bound data_by_class 0). }
    destruct (over_sample_loop_blocks Hdraw (max_count_of data_by_class)
                data_by_class Hcl g []) as (blocks & g'' & Hrun' & Hb).
    rewrite Hrun in Hrun'. injection Hrun' as Ea Eg. simpl in Ea.
    exists added, g'. unfold pre_filter, over_sample. rewrite Hrun. simpl.
    repeat split; auto.
    exists blocks. split; [exact Ea|exact Hb].
  - intros -> data. reflexivity.
  - intros Hempty Hm data. unfold pre_filter, over_sample.
    pose proof (over_sample_loop_refuses Hdraw (max_count_of data_by_class)
                  data_by_class Hm Hempty g []) as Hr.
    destruct (over_sample_loop random_choice g (max_count_of data_by_class)
                data_by_class []) as [[d|e] g']; simpl in Hr; [discriminate|].
    inversion Hr; subst. simpl. split; [reflexivity|].
    rewrite pre_filter_loop_filter. simpl.
    apply filter_ext. intros r. apply usable_existsb.
Qed.

End DatasetMethodFacts.

Lemma first_choice_draws : draws_from_population first_choice.
Proof.
  intros g a size Ha. unfold first_choice. simpl. split.
  - apply repeat_length.
  - destruct a as [|a0 a].
    + destruct Ha as [Ha|Ha]; [congruence|]. subst size. constructor.
    + apply Forall_forall. intros x Hx. apply repeat_spec in Hx. subst x.
      now left.
Qed.

Lemma over_sample_balances_classes_witness :
  exists data' blocks,
    over_sample first_choice tt
      [("yes", [binary_record; mixed_record]); ("no", [numeric_record])]
    = (Ok data', tt) /\
    length data' = 4 /\
    data' = concat blocks /\
    Forall (fun block => length block = 2) blocks.
Proof.
  destruct (over_sample_balances_classes unit first_choice tt
              [("yes", [binary_record; mixed_record]); ("no", [numeric_record])]
              first_choice_draws) as (H & _ & _).
  destruct H as (data' & g' & Hrun & Hlen & _ & _ & _ & blocks & Hc & Hb).
  - repeat constructor; discriminate.
  - exists data', blocks. destruct g'.
    split; [exact Hrun|]. split; [exact Hlen|]. split; [exact Hc|].
    clear -Hb.
    induction Hb as [|kv block l l' (samples & _ & _ & _ & Hl) _ IH];
      constructor; [exact Hl|exact IH].
Defined.

(* ================================================================== *)
(** * What [__getitem__] leaves behind *)

Section GetItemEffects.

Variable str_to_float : string -> option Q.

Lemma for_days_clears adjust c tt width example days :
  forall i st,
    Forall2 day_cleared days
      (snd (for_days str_to_float adjust c tt width example i days st)).
Proof.
  induction days as [|day rest IH]; intros i st; simpl; [constructor|].
  destruct (no_ctxs day) eqn:Hno.
  - specialize (IH (S i) st).
    destruct (for_days str_to_float adjust c tt width example (S i) rest st).
    simpl in *. constructor; [right; now split|exact IH].
  - destruct (append_day_target str_to_float adjust c tt width day (l_targets st)).
    + match goal with
      | |- context [for_days _ _ _ _ _ _ (S i) rest ?s] =>
          specialize (IH (S i) s);
          destruct (for_days str_to_float adjust c tt width example (S i) rest s)
      end.
      simpl in *. constructor; [now left|exact IH].
    + simpl. constructor; [now left|].
      clear. induction rest; constructor; [now left|assumption].
Qed.

Lemma build_sequences_header adjust example :
  question (snd (build_sequences str_to_float adjust example)) = question example /\
  answers (snd (build_sequences str_to_float adjust example)) = answers example /\
  choices (snd (build_sequences str_to_float adjust example)) = choices example /\
  question_id (snd (build_sequences str_to_float adjust example))
    = question_id example /\
  question_expiry (snd (build_sequences str_to_float adjust example))
    = question_expiry example /\
  Forall2 day_cleared (targets example)
    (targets (snd (build_sequences str_to_float adjust example))).
Proof.
  assert (Hrefl : Forall2 day_cleared (targets example) (targets example)).
  { induction (targets example); constructor; [now left|assumption]. }
  unfold build_sequences.
  destruct (get_category example) as [c|]; [|now repeat split].
  destruct (get_true_target str_to_float c example) as [tt|]; [|now repeat split].
  pose proof (for_days_clears adjust c tt
                (Nat.min (length_choices (choices example)) max_choice_len)
                example (targets example) 0 empty_locals) as H.
  destruct (for_days _ _ _ _ _ _ _ _ _) as [r days']. simpl in *.
  now repeat split.
Qed.

Lemma list_set_length {A} (l : list A) (pos : nat) (a : A) :
  length (list_set l pos a) = length l.
Proof.
  revert pos. induction l as [|b l IH]; intros [|pos]; simpl; auto.
Qed.

Lemma list_set_same {A} (l : list A) (pos : nat) (a : A) :
  pos < length l -> nth_error (list_set l pos a) pos = Some a.
Proof.
  revert pos. induction l as [|b l IH]; intros [|pos] H; simpl in *; try lia.
  - reflexivity.
  - apply IH. lia.
Qed.


Lemma list_set_twice {A} (l : list A) (pos : nat) (a b : A) :
  list_set (list_set l pos a) pos b = list_set l pos b.
Proof.
  revert pos. induction l as [|c l IH]; intros [|pos]; simpl; auto.
  now rewrite IH.
Qed.




End GetItemEffects.


(* ================================================================== *)
(** * Calling [__getitem__] again, and what its sequences pair up *)

Section GetItemAgain.

Variable str_to_float : string -> option Q.

Lemma no_ctxs_clear_ctxs (day : DaySnapshot) : no_ctxs (clear_ctxs day) = true.
Proof. reflexivity. Qed.

Lemma clear_ctxs_twice (day : DaySnapshot) :
  clear_ctxs (clear_ctxs day) = clear_ctxs day.
Proof. reflexivity. Qed.

Lemma for_days_again adjust c tt width example days :
  forall i st,
    for_days str_to_float adjust c tt width example i
      (snd (for_days str_to_float adjust c tt width example i days st)) st
    = for_days str_to_float adjust c tt width example i days st.
Proof.
  induction days as [|day rest IH]; intros i st; [reflexivity|].
  cbn [for_days].
  destruct (no_ctxs day) eqn:Hno.
  - specialize (IH (S i) st).
    destruct (for_days str_to_float adjust c tt width example (S i) rest st)
      as [r rest'] eqn:Hrec.
    cbn [snd for_days]. rewrite no_ctxs_clear_ctxs.
    simpl in IH. rewrite IH. reflexivity.
  - destruct (append_day_target str_to_float adjust c tt width day (l_targets st))
      as [tgts|e] eqn:Happ.
    + match goal with
      | |- context [for_days _ _ _ _ _ _ (S i) rest ?s] =>
          specialize (IH (S i) s);
          destruct (for_days str_to_float adjust c tt width example (S i) rest s)
            as [r rest'] eqn:Hrec
      end.
      cbn [snd for_days]. rewrite Hno, Happ. simpl in IH. rewrite IH. reflexivity.
    + cbn [snd for_days]. rewrite Hno, Happ. reflexivity.
Qed.

Lemma day_copy_ext (i : nat) (a b : QuestionRecord) (day : DaySnapshot) :
  question a = question b -> answers a = answers b -> choices a = choices b ->
  day_copy i a day = day_copy i b day.
Proof.
  intros Hq Ha Hc. unfold day_copy. now rewrite Hq, Ha, Hc.
Qed.

Lemma for_days_ext adjust c tt width (a b : QuestionRecord) days :
  question a = question b -> answers a = answers b -> choices a = choices b ->
  forall i st,
    for_days str_to_float adjust c tt width a i days st
    = for_days str_to_float adjust c tt width b i days st.
Proof.
  intros Hq Ha Hc. induction days as [|day rest IH]; intros i st; [reflexivity|].
  cbn [for_days]. rewrite (day_copy_ext i a b day Hq Ha Hc).
  destruct (no_ctxs day); [now rewrite IH|].
  destruct (append_day_target str_to_float adjust c tt width day (l_targets st));
    [now rewrite IH|reflexivity].
Qed.

Lemma fallback_ext c tt width (a b : QuestionRecord) days st :
  question a = question b -> answers a = answers b -> choices a = choices b ->
  fallback c tt width a days st = fallback c tt width b days st.
Proof.
  intros Hq Ha Hc. unfold fallback.
  destruct (negb (l_has_ctxs st)); [|reflexivity].
  destruct (last (map Some days) None) as [day|]; [|reflexivity].
  now rewrite (day_copy_ext 0 a b day Hq Ha Hc).
Qed.

Lemma get_true_target_ext c (a b : QuestionRecord) :
  answers a = answers b ->
  get_true_target str_to_float c a = get_true_target str_to_float c b.
Proof.
  intros Ha. unfold get_true_target. now rewrite Ha.
Qed.

Lemma build_sequences_again adjust example :
  build_sequences str_to_float adjust
    (snd (build_sequences str_to_float adjust example))
  = build_sequences str_to_float adjust example.
Proof.
  destruct (get_category example) as [c|e] eqn:Hcat.
  2:{ unfold build_sequences at 2. rewrite Hcat. reflexivity. }
  destruct (get_true_target str_to_float c example) as [tt|e] eqn:Htt.
  2:{ unfold build_sequences at 2. rewrite Hcat, Htt. reflexivity. }
  pose proof (build_sequences_header str_to_float adjust example)
    as (Hq & Ha & Hc & _).
  pose proof (build_sequences_record str_to_float adjust example) as [_ Htg].
  cbv zeta in Htg.
  set (example' := snd (build_sequences str_to_float adjust example)) in *.
  assert (Hcat' : get_category example' = Ok c).
  { rewrite <- Hcat. now apply get_category_ext. }
  assert (Htt' : get_true_target str_to_float c example' = Ok tt).
  { rewrite <- Htt. now apply get_true_target_ext. }
  rewrite (build_sequences_unfold str_to_float adjust example' c tt Hcat' Htt').
  rewrite (build_sequences_unfold str_to_float adjust example c tt Hcat Htt).
  cbv zeta. rewrite Hc.
  set (width := Nat.min (length_choices (choices example)) max_choice_len).
  assert (Hdays : targets example'
                  = snd (for_days str_to_float adjust c tt width example 0
                           (targets example) empty_locals)).
  { unfold example'.
    rewrite (build_sequences_unfold str_to_float adjust example c tt Hcat Htt).
    reflexivity. }
  rewrite (for_days_ext adjust c tt width example' example _ Hq Ha Hc).
  rewrite Hdays, for_days_again.
  destruct (for_days str_to_float adjust c tt width example 0 (targets example)
              empty_locals) as [r days'] eqn:Hloop.
  cbn [fst snd]. f_equal.
  - destruct r as [st|e]; [|reflexivity]. cbn [Py.bind].
    now rewrite (fallback_ext c tt width example' example days' st Hq Ha Hc).
  - unfold with_targets.
    assert (Hid : question_id example' = question_id example)
      by apply (build_sequences_header str_to_float adjust example).
    assert (Hex : question_expiry example' = question_expiry example)
      by apply (build_sequences_header str_to_float adjust example).
    now rewrite Hq, Ha, Hc, Hid, Hex.
Qed.

Lemma getitem_example_again self example :
  getitem_example str_to_float self
    (snd (getitem_example str_to_float self example))
  = getitem_example str_to_float self example.
Proof.
  rewrite getitem_example_record. unfold getitem_example.
  now rewrite build_sequences_again.
Qed.

Lemma index_list_set {A} (l : list A) (i : Z) (a x : A) :
  Py.index l i = Ok a ->
  Py.index (list_set l (if (i <? 0)%Z then Z.to_nat (i + Z.of_nat (length l))
                        else Z.to_nat i) x) i = Ok x.
Proof.
  intros H. pose proof (index_position _ _ _ H) as Hpos.
  assert (Hlt : (if (i <? 0)%Z then Z.to_nat (i + Z.of_nat (length l))
                 else Z.to_nat i) < length l).
  { apply nth_error_Some. congruence. }
  unfold Py.index, Py.getitem in *. rewrite list_set_length.
  destruct (i <? 0)%Z.
  - destruct (i + Z.of_nat (length l) <? 0)%Z; [discriminate|].
    now rewrite list_set_same.
  - now rewrite list_set_same.
Qed.

(** X4. [__getitem__] can be called again: on the dataset a call left
    behind, the same index gives the same outcome (the same item or the
    same exception) and leaves the dataset as it found it. *)
Theorem getitem_again (self : ForecastingDataset) (index : Z) :
  __getitem__ str_to_float (snd (__getitem__ str_to_float self index)) index
  = __getitem__ str_to_float self index.
Proof.
  unfold __getitem__ at 2 3.
  destruct (Py.index (data self) index) as [example|e] eqn:Hidx.
  2:{ cbn [snd]. unfold __getitem__. now rewrite Hidx. }
  pose proof (getitem_example_again self example) as Hagain.
  destruct (getitem_example str_to_float self example) as [r example'] eqn:Hge.
  cbn [snd] in *. unfold __getitem__. cbn [data with_data].
  rewrite (index_list_set _ _ _ example' Hidx).
  change (getitem_example str_to_float
            (with_data self (list_set (data self)
               (if (index <? 0)%Z
                then Z.to_nat (index + Z.of_nat (length (data self)))
                else Z.to_nat index) example')) example')
    with (getitem_example str_to_float self example').
  rewrite Hagain, list_set_length, list_set_twice. reflexivity.
Qed.

Lemma append_day_target_acc adjust c tt width day tgts :
  append_day_target str_to_float adjust c tt width day tgts
  = (if ((c =? 0) || (c =? 2) || (c =? 1))%Z
     then rows <- append_day_target str_to_float adjust c tt width day [] ;;
          Ok (tgts ++ rows)
     else Ok tgts).
Proof.
  unfold append_day_target.
  destruct ((c =? 0) || (c =? 2))%Z; simpl.
  - now destruct (float_of_target str_to_float (target day)).
  - destruct (c =? 1)%Z; [|reflexivity].
    destruct (target_prefix (target day) width) as [raw|]; simpl; [|reflexivity].
    destruct (Py.traverse (float str_to_float) raw) as [mc|]; simpl; [|reflexivity].
    now destruct (Py.traverse (fun x => div x (Py.sum mc)) mc).
Qed.

(** The loop over the days, read as a whole: one sub-example and one target
    row per day with documents, both made from that day. *)
Lemma for_days_pairs adjust c tt width example days :
  c = 0%Z \/ c = 1%Z \/ c = 2%Z ->
  width <= max_choice_len ->
  forall i st st' days',
    for_days str_to_float adjust c tt width example i days st = (Ok st', days') ->
    exists rows,
      l_fid_examples st'
      = l_fid_examples st
        ++ map (fun p => day_copy (fst p) example (snd p)) (documented_from i days) /\
      l_targets st' = l_targets st ++ rows /\
      Forall2 (fun p row =>
                 append_day_target str_to_float adjust c tt width (snd p) []
                 = Ok [row])
              (documented_from i days) rows.
Proof.
  intros Hc Hw. induction days as [|day rest IH]; intros i st st' days'.
  - simpl. intros H; inversion H; subst. exists []. rewrite !app_nil_r.
    repeat split. constructor.
  - cbn [for_days documented_from]. destruct (no_ctxs day) eqn:Hno.
    + destruct (for_days str_to_float adjust c tt width example (S i) rest st)
        as [r rest'] eqn:Hrec.
      intros H; inversion H; subst. now apply (IH _ _ _ _ Hrec).
    + destruct (append_day_target str_to_float adjust c tt width day (l_targets st))
        as [tgts|] eqn:Happ; [|discriminate].
      destruct (append_day_target_shape _ _ _ _ _ _ _ _ Hc Hw Happ)
        as (row & -> & Hrow).
      match goal with
      | |- context [for_days _ _ _ _ _ _ (S i) rest ?s] =>
          destruct (for_days str_to_float adjust c tt width example (S i) rest s)
            as [r rest'] eqn:Hrec
      end.
      intros H; inversion H; subst.
      destruct (IH _ _ _ _ Hrec) as (rows & H1 & H2 & H3). simpl in H1, H2.
      exists (row :: rows). rewrite H1, H2, <- !app_assoc. simpl.
      repeat split. constructor; [|exact H3]. simpl.
      rewrite append_day_target_acc in Happ.
      replace ((c =? 0) || (c =? 2) || (c =? 1))%Z with true in Happ
        by (destruct Hc as [->|[->| ->]]; reflexivity).
      destruct (append_day_target str_to_float adjust c tt width day [])
        as [rows0|]; [|discriminate].
      simpl in Happ. inversion Happ as [Heq].
      apply app_inv_head in Heq. now subst rows0.
Qed.

Lemma documented_from_spec (i : nat) (days : list DaySnapshot) :
  map snd (documented_from i days) = documented days /\
  Forall (fun p => i <= fst p < i + length days /\
                   nth_error days (fst p - i) = Some (snd p) /\
                   no_ctxs (snd p) = false)
         (documented_from i days) /\
  StronglySorted lt (map fst (documented_from i days)).
Proof.
  unfold documented. revert i.
  induction days as [|day rest IH]; intros i; simpl.
  - repeat split; constructor.
  - destruct (IH (S i)) as (H1 & H2 & H3).
    assert (H2' : Forall (fun p => i <= fst p < i + S (length rest) /\
                     nth_error (day :: rest) (fst p - i) = Some (snd p) /\
                     no_ctxs (snd p) = false) (documented_from (S i) rest)).
    { eapply Forall_impl; [|exact H2]. intros [j d] (Hj & Hn & Hd). simpl in *.
      split; [lia|]. split; [|exact Hd].
      replace (j - i) with (S (j - S i)) by lia. exact Hn. }
    destruct (no_ctxs day) eqn:Hno; simpl.
    + repeat split; assumption.
    + split; [now rewrite H1|]. split.
      * constructor; [|exact H2']. simpl. rewrite Nat.sub_diag. simpl.
        repeat split; try lia. exact Hno.
      * constructor; [exact H3|].
        apply Forall_map. eapply Forall_impl; [|exact H2].
        intros [j d] (Hj & _). simpl in *. lia.
Qed.

(** X5. The two sequences are paired day by day.  When a record has days
    with documents and its sequences are built, the sub-examples are the
    copies of exactly those days, each carrying as [id] the position of
    its day in the record and that day's documents, in increasing order of
    position; and the k-th target row is the target computed from the day
    of the k-th sub-example. *)
Theorem sequences_pair_up (adjust : bool) (example : QuestionRecord)
    (c : Z) (tt : label) (st : locals) :
  documented (targets example) <> [] ->
  fst (build_sequences str_to_float adjust example) = Ok (c, tt, st) ->
  l_fid_examples st
  = map (fun p => day_copy (fst p) example (snd p))
        (documented_from 0 (targets example)) /\
  Forall2 (fun p row =>
             append_day_target str_to_float adjust c tt
               (Nat.min (length_choices (choices example)) max_choice_len)
               (snd p) [] = Ok [row])
          (documented_from 0 (targets example)) (l_targets st) /\
  map snd (documented_from 0 (targets example)) = documented (targets example) /\
  Forall (fun p => nth_error (targets example) (fst p) = Some (snd p) /\
                   no_ctxs (snd p) = false)
         (documented_from 0 (targets example)) /\
  StronglySorted lt (map sub_id (l_fid_examples st)).
Proof.
  intros Hdoc Hb.
  destruct (build_sequences_spec str_to_float adjust example) as [_ Hok].
  destruct (Hok c tt st Hb) as (Hcat & Htt & _).
  rewrite (build_sequences_unfold str_to_float adjust example c tt Hcat Htt) in Hb.
  cbv zeta in Hb.
  set (width := Nat.min (length_choices (choices example)) max_choice_len) in *.
  assert (Hw : width <= max_choice_len) by (unfold width; lia).
  pose proof (get_category_range example c Hcat) as Hrange.
  pose proof (for_days_pairs adjust c tt width example (targets example)
                Hrange Hw 0 empty_locals) as Hpairs.
  pose proof (for_days_lengths str_to_float adjust c tt width example
                (targets example) Hrange Hw 0 empty_locals) as Hlen.
  destruct (for_days str_to_float adjust c tt width example 0 (targets example)
              empty_locals) as [[st1|e] days'] eqn:Hloop; [|discriminate].
  destruct (Hpairs st1 days' eq_refl) as (rows & H1 & H2 & H3).
  destruct (Hlen st1 days' eq_refl) as (_ & _ & Hhas & _).
  simpl in H1, H2, Hhas, Hb.
  assert (Hh : l_has_ctxs st1 = true).
  { rewrite Hhas. destruct (documented (targets example)); [congruence|reflexivity]. }
  unfold fallback in Hb. rewrite Hh in Hb. simpl in Hb.
  unfold assert_same_length in Hb.
  destruct (length (l_targets st1) =? length (l_fid_examples st1));
    [|discriminate].
  simpl in Hb. inversion Hb; subst st.
  destruct (documented_from_spec 0 (targets example)) as (Hs1 & Hs2 & Hs3).
  rewrite H1, H2. split; [reflexivity|]. split; [exact H3|].
  split; [exact Hs1|]. split.
  - eapply Forall_impl; [|exact Hs2]. intros [j d] (_ & Hn & Hd). simpl in *.
    rewrite Nat.sub_0_r in Hn. now split.
  - rewrite map_map. simpl. exact Hs3.
Qed.

End GetItemAgain.

Lemma sequences_pair_up_witness :
  exists st,
    fst (build_sequences numbers_only false binary_record) = Ok (0%Z, IntLabel 1, st) /\
    map sub_id (l_fid_examples st) = [0; 1; 2].
Proof.
  assert (Hb : exists st, fst (build_sequences numbers_only false binary_record)
                          = Ok (0%Z, IntLabel 1, st)) by (eexists; reflexivity).
  destruct Hb as [st Hb]. exists st. split; [exact Hb|].
  destruct (sequences_pair_up numbers_only false binary_record 0%Z (IntLabel 1) st)
    as (H & _); [discriminate|exact Hb|].
  rewrite H. reflexivity.
Defined.

(* ================================================================== *)
(** * When the example transformer raises *)

(** Both directions of "raises [IndexError] exactly when", once the choices
    and the days are laid out. *)
Ltac raise_iff :=
  split;
  [ intros H; first
      [ discriminate H
      | split; [reflexivity|];
        first
          [ right; left; split; reflexivity
          | right; right; repeat split;
            first [discriminate | reflexivity | (simpl; lia)] ] ]
  | intros (_ & [H|[[H H']|(Hn & Hl & Hf & Ht)]]);
    first [ reflexivity | discriminate | (simpl in *; lia)
          | (simpl in *; discriminate) | (simpl in *; congruence) ] ].

(** X6. [get_category] raises nothing but [IndexError], and raises it
    exactly on a listed choice set that is empty, or holds a single option
    that is not a yes/no word, or holds at most two options, one of the
    first two a yes/no word, in a record without days. *)
Theorem get_category_raises (r : QuestionRecord) :
  (forall e, get_category r = Raise e -> e = IndexError) /\
  (get_category r = Raise IndexError <->
   is_mapping r = false /\
   (option_values r = [] \/
    (length (option_values r) = 1 /\ no_yes_no_option r = true) \/
    (option_values r <> [] /\ length (option_values r) <= 2 /\
     no_yes_no_option r = false /\ targets r = []))).
Proof.
  split.
  - intros e He. destruct (get_category_sound r) as [H|H]; congruence.
  - unfold get_category, is_mapping, no_yes_no_option, option_values.
    destruct (choices r) as [d|l].
    { split; [discriminate|intros [H _]; discriminate]. }
    destruct l as [|c0 [|c1 rest]].
    + simpl. split; [intros _; split; [reflexivity|now left]|reflexivity].
    + cbn [Py.getitem nth_error Py.bind forallb length].
      rewrite str_in_tf_choices.
      destruct (yes_no c0); cbn [negb Py.bind andb];
        destruct (targets r) as [|d0 days]; cbn [Py.getitem nth_error Py.bind];
        try destruct (is_list (target d0)); raise_iff.
    + cbn [Py.getitem nth_error Py.bind forallb length].
      rewrite !str_in_tf_choices.
      destruct (yes_no c0), (yes_no c1); cbn [negb andb Py.bind];
        destruct rest as [|c2 rest]; cbn [length Nat.ltb Nat.leb];
        destruct (targets r) as [|d0 days]; cbn [Py.getitem nth_error Py.bind];
        try destruct (is_list (target d0)); raise_iff.
Qed.

Section RaisingFacts.

Variable str_to_float : string -> option Q.

Lemma dict_get_STR2BOOL_missing (s : string) :
  yes_no s = false -> Py.dict_get STR2BOOL s = Raise KeyError.
Proof.
  unfold yes_no, STR2BOOL. simpl.
  destruct (String.eqb s "yes"), (String.eqb s "Yes"), (String.eqb s "no"),
           (String.eqb s "No"); simpl; intros H; try discriminate; reflexivity.
Qed.

(** X7. A record whose category or answer cannot be read is refused before
    anything is touched: [__getitem__] raises what [get_category] or the
    decoding of the answer raises and leaves the record as it was.  The
    decoding raises [IndexError] on an empty answer list; [KeyError] for a
    BinaryTF answer other than yes/Yes/no/No; [TypeError] for a
    MultiChoice answer that is not a one-character string; [ValueError]
    for a Regression answer [float()] cannot parse. *)
Theorem unreadable_record_is_refused (self : ForecastingDataset)
    (example : QuestionRecord) :
  (forall e, get_category example = Raise e ->
             getitem_example str_to_float self example = (Raise e, example)) /\
  (forall c e, get_category example = Ok c ->
               get_true_target str_to_float c example = Raise e ->
               getitem_example str_to_float self example = (Raise e, example)) /\
  (forall c, get_category example = Ok c -> answers example = [] ->
             get_true_target str_to_float c example = Raise IndexError) /\
  (forall s rest, answers example = Str s :: rest -> yes_no s = false ->
                  get_true_target str_to_float 0 example = Raise KeyError) /\
  (forall q rest, answers example = Num q :: rest ->
                  get_true_target str_to_float 0 example = Raise KeyError /\
                  get_true_target str_to_float 1 example = Raise TypeError) /\
  (forall s rest, answers example = Str s :: rest -> String.length s <> 1 ->
                  get_true_target str_to_float 1 example = Raise TypeError) /\
  (forall s rest, answers example = Str s :: rest -> str_to_float s = None ->
                  get_true_target str_to_float 2 example = Raise ValueError).
Proof.
  split; [|split; [|split; [|split; [|split; [|split]]]]].
  - intros e He. unfold getitem_example, build_sequences. now rewrite He.
  - intros c e Hc He. unfold getitem_example, build_sequences. now rewrite Hc, He.
  - intros c Hc Ha. pose proof (get_category_range example c Hc) as Hr.
    unfold get_true_target. rewrite Ha.
    destruct Hr as [->|[->| ->]]; reflexivity.
  - intros s rest Ha Hs. unfold get_true_target. rewrite Ha.
    cbn [Z.eqb Py.getitem nth_error Py.bind].
    now rewrite (dict_get_STR2BOOL_missing s Hs).
  - intros q rest Ha. unfold get_true_target. rewrite Ha. split; reflexivity.
  - intros s rest Ha Hs. unfold get_true_target. rewrite Ha.
    cbn [Z.eqb Py.getitem nth_error Py.bind]. unfold ord.
    destruct s as [|ch [|ch' s']]; simpl in *; try reflexivity; congruence.
  - intros s rest Ha Hs. unfold get_true_target. rewrite Ha.
    cbn [Z.eqb Py.getitem nth_error Py.bind]. unfold float. now rewrite Hs.
Qed.

(** X8. Scores that sum to zero stop [__getitem__] in the middle of its
    loop.  When the first day with documents of a MultiChoice record has
    kept scores that are numbers summing to 0, [__getitem__] raises
    [ZeroDivisionError]; the days before it, which have no documents, have
    had their [ctxs] replaced by [[]], and the days from it on are as they
    were. *)
Theorem zero_scores_stop_the_loop (self : ForecastingDataset)
    (example : QuestionRecord) (tt : label)
    (quiet rest : list DaySnapshot) (day : DaySnapshot)
    (l : list scalar) (scores : list Q) :
  get_category example = Ok 1%Z ->
  get_true_target str_to_float 1 example = Ok tt ->
  targets example = quiet ++ day :: rest ->
  Forall (fun d => no_ctxs d = true) quiet ->
  no_ctxs day = false ->
  target day = Vector l ->
  Py.traverse (float str_to_float)
    (firstn (Nat.min (length_choices (choices example)) max_choice_len) l)
    = Ok scores ->
  scores <> [] ->
  Py.sum scores == 0 ->
  getitem_example str_to_float self example
  = (Raise ZeroDivisionError,
     with_targets example (map clear_ctxs quiet ++ day :: rest)).
Proof.
  intros Hc Htt Hdays Hquiet Hday Hv Hs Hne Hsum.
  unfold getitem_example.
  rewrite (build_sequences_unfold str_to_float (adjust_targets self) example 1 tt
             Hc Htt).
  cbv zeta. rewrite Hdays.
  set (width := Nat.min (length_choices (choices example)) max_choice_len) in *.
  assert (Hloop : forall i st,
            for_days str_to_float (adjust_targets self) 1 tt width example i
              (quiet ++ day :: rest) st
            = (Raise ZeroDivisionError, map clear_ctxs quiet ++ day :: rest)).
  { clear Hdays. induction Hquiet as [|d quiet Hd Hq IH]; intros i st.
    - cbn [app map for_days]. rewrite Hday.
      unfold append_day_target. cbn [Z.eqb orb].
      rewrite Hv. unfold target_prefix, Py.slice_to. cbn [Py.bind]. rewrite Hs.
      cbn [Py.bind].
      destruct scores as [|x xs]; [congruence|]. cbn [Py.traverse]. unfold div.
      assert (E : Qeq_bool (Py.sum (x :: xs)) 0 = true)
        by now apply Qeq_bool_iff.
      rewrite E. reflexivity.
    - cbn [app map for_days]. rewrite Hd, IH. reflexivity. }
  rewrite Hloop. reflexivity.
Qed.

End RaisingFacts.

Lemma unreadable_record_is_refused_witness :
  getitem_example numbers_only (dataset_with [dayless_record] false 128)
    (record_with [Str "maybe"] (Options ["yes"; "no"])
       [day_with (Scalar (Num 0.5)) None])
  = (Raise KeyError,
     record_with [Str "maybe"] (Options ["yes"; "no"])
       [day_with (Scalar (Num 0.5)) None]).
Proof.
  apply (proj1 (proj2 (unreadable_record_is_refused numbers_only
                         (dataset_with [dayless_record] false 128)
                         (record_with [Str "maybe"] (Options ["yes"; "no"])
                            [day_with (Scalar (Num 0.5)) None])))
               0%Z KeyError eq_refl).
  apply (unreadable_record_is_refused numbers_only
           (dataset_with [dayless_record] false 128)
           (record_with [Str "maybe"] (Options ["yes"; "no"])
              [day_with (Scalar (Num 0.5)) None]))
    with (s := "maybe") (rest := @nil scalar); reflexivity.
Defined.

Lemma zero_scores_stop_the_loop_witness :
  getitem_example numbers_only (dataset_with [zero_scores_record] false 128)
    zero_scores_record
  = (Raise ZeroDivisionError,
     with_targets zero_scores_record
       [day_with (Vector [Num 1; Num 2; Num 1]) (Some []);
        day_with (Vector [Num 0; Num 0; Num 0]) (Some [a_document]);
        day_with (Vector [Num 1; Num 1; Num 1]) None]).
Proof.
  apply (zero_scores_stop_the_loop numbers_only
           (dataset_with [zero_scores_record] false 128) zero_scores_record
           (IntLabel 0)
           [day_with (Vector [Num 1; Num 2; Num 1]) None]
           [day_with (Vector [Num 1; Num 1; Num 1]) None]
           (day_with (Vector [Num 0; Num 0; Num 0]) (Some [a_document]))
           [Num 0; Num 0; Num 0] [0; 0; 0]%Q); try reflexivity.
  - repeat constructor.
  - discriminate.
Defined.

(* ================================================================== *)
(** * Micro-batches of the encoder adapter *)

Lemma batches_fuel_concat {A} (fuel n : nat) (l : list A) :
  concat (batches_fuel fuel n l) = l.
Proof.
  revert l. induction fuel as [|fuel IH]; intros [|a l]; simpl; try reflexivity.
  - now rewrite app_nil_r.
  - change (a :: l) with ([a] ++ l) at 3.
    destruct n as [|n]; simpl.
    + apply IH.
    + rewrite IH. f_equal. apply firstn_skipn.
Qed.

Lemma batches_fuel_sizes {A} (fuel n : nat) (l : list A) :
  1 <= n -> length l <= fuel ->
  Forall (fun b => 1 <= length b <= n) (batches_fuel fuel n l) /\
  (forall k, S k < length (batches_fuel fuel n l) ->
             length (nth k (batches_fuel fuel n l) []) = n) /\
  length (batches_fuel fuel n l) * n < length l + n /\
  length l <= length (batches_fuel fuel n l) * n.
Proof.
  intros Hn. revert l. induction fuel as [|fuel IH]; intros l Hl.
  - destruct l; simpl in *; [|lia]. repeat split; try constructor; simpl; lia.
  - destruct l as [|a l]; [simpl; repeat split; try constructor; simpl; lia|].
    cbn [batches_fuel].
    assert (Hsk : length (skipn n (a :: l)) <= fuel).
    { rewrite length_skipn. cbn [length] in *. lia. }
    destruct (IH (skipn n (a :: l)) Hsk) as (H1 & H2 & H3 & H4).
    assert (Hf : length (firstn n (a :: l)) = Nat.min n (length (a :: l)))
      by apply length_firstn.
    rewrite length_skipn in H3, H4.
    split; [|split; [|split]].
    + constructor; [|exact H1]. rewrite Hf. cbn [length]. lia.
    + intros [|k] Hk; cbn [nth length] in *.
      * rewrite Hf.
        destruct (batches_fuel fuel n (skipn n (a :: l))) as [|b bs] eqn:Hb;
          [simpl in Hk; lia|].
        assert (Hnz : skipn n (a :: l) <> []).
        { intros E. rewrite E in Hb. destruct fuel; discriminate. }
        assert (Hpos : 0 < length (skipn n (a :: l))).
        { destruct (skipn n (a :: l)); [congruence|simpl; lia]. }
        rewrite length_skipn in Hpos. cbn [length] in Hpos |- *. lia.
      * apply H2. lia.
    + cbn [length] in *.
      destruct (batches_fuel fuel n (skipn n (a :: l))) as [|b bs] eqn:Hb;
        cbn [length] in *; [lia|].
      assert (Hnz : skipn n (a :: l) <> []).
      { intros E. rewrite E in Hb. destruct fuel; discriminate. }
      assert (Hpos : 0 < length (skipn n (a :: l))).
      { destruct (skipn n (a :: l)); [congruence|simpl; lia]. }
      rewrite length_skipn in Hpos. cbn [length] in Hpos. lia.
    + cbn [length] in *. lia.
Qed.

Lemma concat_map_length {A B} (f : list A -> list B) (bs : list (list A)) :
  (forall b, length (f b) = length b) ->
  length (concat (map f bs)) = length (concat bs).
Proof.
  intros Hf. induction bs as [|b bs IH]; simpl; [reflexivity|].
  now rewrite !length_app, Hf, IH.
Qed.

Section AdapterOrder.

Variable encoder_forward : bool -> list DaySubExample -> list (list Q).
Variable encoder_trainable : bool.
Variable ambient_grad : bool.
Variable cat_empty_error : exn.

(** X9. The adapter feeds the sub-examples to the encoder in micro-batches
    that, put end to end, are the dataset in its order: every micro-batch
    holds between 1 and 16 sub-examples and all but the last hold 16.  So,
    for an encoder that returns one vector per sub-example, the adapter
    returns one vector per sub-example; for an encoder that treats each
    sub-example on its own, the outputs are the per-example vectors in the
    order of the dataset, whatever the batching.  A dataset without
    sub-examples makes [torch.cat] raise its exception for an empty list
    (whose class depends on the version of torch). *)
Theorem encoder_outputs_in_order (dataset : FiDDataset)
    (finetune_encoder : bool) (mode : string) :
  concat (batches 16 (fid_examples dataset)) = fid_examples dataset /\
  Forall (fun b => 1 <= length b <= 16) (batches 16 (fid_examples dataset)) /\
  (forall k, S k < length (batches 16 (fid_examples dataset)) ->
             length (nth k (batches 16 (fid_examples dataset)) []) = 16) /\
  (fid_examples dataset = [] ->
   fst (get_fid_outputs encoder_forward encoder_trainable ambient_grad
          cat_empty_error dataset finetune_encoder mode)
   = Raise cat_empty_error) /\
  (forall out,
      fst (get_fid_outputs encoder_forward encoder_trainable ambient_grad
             cat_empty_error dataset finetune_encoder mode) = Ok out ->
      (forall training batch,
          length (encoder_forward training batch) = length batch) ->
      length (t_data out) = length (fid_examples dataset)) /\
  (forall out encode,
      fst (get_fid_outputs encoder_forward encoder_trainable ambient_grad
             cat_empty_error dataset finetune_encoder mode) = Ok out ->
      (forall training batch,
          encoder_forward training batch = map (encode training) batch) ->
      t_data out
      = map (encode (String.eqb (effective_mode finetune_encoder mode) "train"))
            (fid_examples dataset)).
Proof.
  pose proof (batches_fuel_concat (length (fid_examples dataset)) 16
                (fid_examples dataset)) as Hcat.
  destruct (batches_fuel_sizes (length (fid_examples dataset)) 16
              (fid_examples dataset)) as (Hs1 & Hs2 & _); [lia|lia|].
  fold (batches 16 (fid_examples dataset)) in Hcat, Hs1, Hs2.
  split; [exact Hcat|]. split; [exact Hs1|]. split; [exact Hs2|].
  assert (Hdata : forall out,
            fst (get_fid_outputs encoder_forward encoder_trainable ambient_grad
                   cat_empty_error dataset finetune_encoder mode) = Ok out ->
            t_data out
            = concat (map (encoder_forward
                             (String.eqb (effective_mode finetune_encoder mode) "train"))
                          (batches 16 (fid_examples dataset)))).
  { intros out Hout. unfold get_fid_outputs in Hout. cbv zeta in Hout.
    cbn [fst] in Hout.
    destruct (cat ambient_grad cat_empty_error _) as [raw|] eqn:Hraw; [|discriminate].
    destruct (cat_inv _ _ _ _ Hraw) as [_ ->]. cbn [Py.bind] in Hout.
    assert (E : t_data out
                = concat (map t_data
                   (map (forward_batch encoder_forward encoder_trainable
                           (String.eqb (effective_mode finetune_encoder mode) "train")
                           (String.eqb (effective_mode finetune_encoder mode) "train"))
                        (batches 16 (fid_examples dataset))))).
    { destruct (String.eqb (effective_mode finetune_encoder mode) "eval");
        inversion Hout; reflexivity. }
    rewrite E, map_map. reflexivity. }
  split; [|split].
  - intros Hnil. unfold get_fid_outputs. rewrite Hnil. reflexivity.
  - intros out Hout Hlen. rewrite (Hdata out Hout).
    rewrite <- Hcat at 2. apply concat_map_length. intros b. apply Hlen.
  - intros out encode Hout Henc. rewrite (Hdata out Hout).
    rewrite <- Hcat at 2. rewrite concat_map.
    f_equal. apply map_ext. intros b. apply Henc.
Qed.

End AdapterOrder.

Lemma encoder_outputs_in_order_witness :
  exists out,
    fst (get_fid_outputs id_encoder true true ValueError seventeen_days
           true "train") = Ok out /\
    map (@length DaySubExample) (batches 16 (fid_examples seventeen_days))
    = [16; 1] /\
    length (t_data out) = 17 /\
    t_data out = map (fun i => [inject_Z (Z.of_nat i)]) (seq 0 17).
Proof.
  destruct (encoder_outputs_in_order id_encoder true true ValueError
              seventeen_days true "train")
    as (_ & _ & _ & _ & Hlen & Hord).
  eexists. split; [reflexivity|]. split; [reflexivity|]. split.
  - refine (eq_trans (Hlen _ eq_refl _) _); [|reflexivity].
    intros training batch. apply length_map.
  - refine (eq_trans
              (Hord _ (fun _ sub => [inject_Z (Z.of_nat (sub_id sub))])
                    eq_refl _) _); [|reflexivity].
    intros training batch. reflexivity.
Defined.

(* ================================================================== *)
(** * [argmax] and the padding of target rows *)

(** Comparisons of rational numerals. *)
Ltac q_numerals := unfold Qle, Qlt, Qeq in *; simpl in *; lia.

Section ArgmaxFacts.

Local Open Scope Q_scope.

Lemma argmax_from_spec (row : list Q) :
  forall (best_i : nat) (best : Q) (i : nat),
    (argmax_from best_i best i row = best_i /\ Forall (fun x => x <= best) row) \/
    (exists j,
        argmax_from best_i best i row = (i + j)%nat /\
        (j < length row)%nat /\
        best < nth j row 0 /\
        Forall (fun x => x <= nth j row 0) row /\
        forall j', (j' < j)%nat -> nth j' row 0 < nth j row 0).
Proof.
  induction row as [|x row IH]; intros best_i best i.
  - left. split; [reflexivity|constructor].
  - cbn [argmax_from]. destruct (Qle_bool x best) eqn:Hx.
    + apply Qle_bool_iff in Hx.
      destruct (IH best_i best (S i)) as [[Hk Hall]|(j & Hk & Hj & Hb & Hall & Hfirst)].
      * left. split; [exact Hk|now constructor].
      * right. exists (S j). cbn [nth length].
        split; [rewrite Hk; lia|]. split; [lia|]. split; [exact Hb|]. split.
        -- constructor; [|exact Hall].
           apply Qlt_le_weak. eapply Qle_lt_trans; eauto.
        -- intros [|j'] Hj'; cbn [nth].
           ++ eapply Qle_lt_trans; eauto.
           ++ apply Hfirst. lia.
    + assert (Hlt : best < x).
      { apply Qnot_le_lt. intros H. apply Qle_bool_iff in H. congruence. }
      right.
      destruct (IH i x (S i)) as [[Hk Hall]|(j & Hk & Hj & Hb & Hall & Hfirst)].
      * exists 0%nat. cbn [nth length].
        split; [rewrite Hk; lia|]. split; [lia|]. split; [exact Hlt|]. split.
        -- constructor; [apply Qle_refl|exact Hall].
        -- intros j' Hj'. lia.
      * exists (S j). cbn [nth length].
        split; [rewrite Hk; lia|]. split; [lia|].
        split; [eapply Qlt_trans; eauto|]. split.
        -- constructor; [now apply Qlt_le_weak|exact Hall].
        -- intros [|j'] Hj'; cbn [nth]; [exact Hb|apply Hfirst; lia].
Qed.

(** [argmax] returns the first position that holds the greatest entry. *)
Lemma argmax_spec (row : list Q) (k : nat) :
  argmax row = Ok k ->
  (k < length row)%nat /\
  Forall (fun x => x <= nth k row 0) row /\
  forall j, (j < k)%nat -> nth j row 0 < nth k row 0.
Proof.
  destruct row as [|x row]; [discriminate|]. cbn [argmax]. intros H. inversion H.
  destruct (argmax_from_spec row 0%nat x 1%nat)
    as [[Hk Hall]|(j & Hk & Hj & Hb & Hall & Hfirst)].
  - rewrite Hk. cbn [nth length]. split; [lia|]. split.
    + constructor; [apply Qle_refl|exact Hall].
    + intros j Hj. lia.
  - rewrite Hk. cbn [Nat.add nth length]. split; [lia|]. split.
    + constructor; [now apply Qlt_le_weak|exact Hall].
    + intros [|j'] Hj'; cbn [nth]; [exact Hb|apply Hfirst; lia].
Qed.

Lemma argmax_total (row : list Q) : row <> [] -> exists k, argmax row = Ok k.
Proof.
  destruct row; [congruence|]. intros _. cbn [argmax]. eauto.
Qed.

(** On the padded indicator row of a choice within the row, [argmax]
    returns that choice. *)
Lemma argmax_padded_one_hot (width : nat) (z : Z) (pad : nat) :
  (0 <= z < Z.of_nat width)%Z ->
  argmax (one_hot width z ++ repeat (-1) pad) = Ok (Z.to_nat z).
Proof.
  intros Hz.
  destruct (argmax_total (one_hot width z ++ repeat (-1) pad)) as [k Hk].
  { intros E. apply (f_equal (@length Q)) in E.
    rewrite length_app, one_hot_length in E. simpl in E. lia. }
  rewrite Hk. f_equal.
  destruct (argmax_spec _ _ Hk) as (Hlt & Hall & Hfirst).
  assert (Hzn : (Z.to_nat z < width)%nat) by lia.
  assert (Hone : nth (Z.to_nat z) (one_hot width z ++ repeat (-1) pad) 0 = 1).
  { rewrite app_nth1 by (now rewrite one_hot_length).
    rewrite one_hot_nth by assumption.
    replace (Z.of_nat (Z.to_nat z)) with z by lia. now rewrite Z.eqb_refl. }
  assert (Hle : forall j, nth j (one_hot width z ++ repeat (-1) pad) 0 <= 1).
  { intros j. destruct (Nat.lt_ge_cases j width) as [Hj|Hj].
    - rewrite app_nth1 by (now rewrite one_hot_length).
      rewrite one_hot_nth by assumption.
      destruct (Z.of_nat j =? z)%Z; q_numerals.
    - rewrite app_nth2 by (now rewrite one_hot_length).
      rewrite one_hot_length.
      destruct (Nat.lt_ge_cases (j - width) pad).
      + rewrite nth_repeat_lt by assumption. q_numerals.
      + rewrite nth_overflow by (now rewrite repeat_length). q_numerals. }
  assert (Hk1 : nth k (one_hot width z ++ repeat (-1) pad) 0 == 1).
  { apply Qle_antisym; [apply Hle|].
    rewrite <- Hone. rewrite Forall_forall in Hall. apply Hall.
    apply nth_In. rewrite length_app, one_hot_length. lia. }
  destruct (Nat.lt_trichotomy k (Z.to_nat z)) as [H|[H|H]]; [|exact H|].
  + exfalso. assert (Hkw : (k < width)%nat) by lia.
    rewrite app_nth1 in Hk1 by (now rewrite one_hot_length).
    rewrite one_hot_nth in Hk1 by assumption.
    destruct (Z.eqb_spec (Z.of_nat k) z); [lia|q_numerals].
  + exfalso. specialize (Hfirst _ H). rewrite Hone, Hk1 in Hfirst.
    q_numerals.
Qed.

(** X10. [argmax] is refused on an empty row only, and otherwise returns
    the first position holding the greatest entry.  On a target row padded
    with [-1.] it never returns a padding position, as long as the row
    has an entry that is not negative; on the padded indicator row of a
    true choice within the row it returns that choice. *)
Theorem argmax_skips_padding (row : list Q) (pad : nat) :
  (argmax (row ++ repeat (-1) pad) = Raise IndexError <->
   row = [] /\ pad = 0%nat) /\
  (forall k,
      argmax (row ++ repeat (-1) pad) = Ok k ->
      Exists (fun x => 0 <= x) row ->
      (k < length row)%nat /\
      Forall (fun x => x <= nth k row 0) row /\
      forall j, (j < k)%nat -> nth j row 0 < nth k row 0) /\
  (forall width z,
      row = one_hot width z ->
      (0 <= z < Z.of_nat width)%Z ->
      argmax (row ++ repeat (-1) pad) = Ok (Z.to_nat z)).
Proof.
  split; [|split].
  - split.
    + destruct row as [|x row]; [|discriminate].
      destruct pad; [auto|discriminate].
    + intros [-> ->]. reflexivity.
  - intros k Hk Hex.
    destruct (argmax_spec _ _ Hk) as (Hlt & Hall & Hfirst).
    assert (Hin : (k < length row)%nat).
    { destruct (Nat.lt_ge_cases k (length row)) as [H|H]; [exact H|exfalso].
      rewrite app_nth2 in Hall by assumption.
      rewrite length_app, repeat_length in Hlt.
      rewrite nth_repeat_lt in Hall by lia.
      apply Forall_app in Hall. destruct Hall as [Hall _].
      apply Exists_exists in Hex. destruct Hex as (x & Hx & Hpos).
      rewrite Forall_forall in Hall. specialize (Hall x Hx).
      assert (Hbad : 0 <= -1) by (eapply Qle_trans; eauto).
      q_numerals. }
    split; [exact Hin|].
    rewrite app_nth1 in Hall, Hfirst by assumption.
    apply Forall_app in Hall. split; [apply Hall|].
    intros j Hj. specialize (Hfirst j Hj).
    rewrite app_nth1 in Hfirst by lia. exact Hfirst.
  - intros width z -> Hz. now apply argmax_padded_one_hot.
Qed.

End ArgmaxFacts.

Lemma argmax_skips_padding_witness :
  exists k,
    argmax ([0.25; 0.5; 0.25] ++ repeat (-1) 9)%Q = Ok k /\ k < 3.
Proof.
  destruct (argmax_total ([0.25; 0.5; 0.25] ++ repeat (-1) 9)%Q) as [k Hk];
    [discriminate|].
  exists k. split; [exact Hk|].
  apply (proj1 (proj2 (argmax_skips_padding [0.25; 0.5; 0.25]%Q 9)) k Hk).
  apply Exists_cons_hd. unfold Qle. simpl. lia.
Defined.

(* ================================================================== *)
(** * Outcomes and shapes of the collator *)

Lemma count_true_mask_row (n M : nat) :
  n <= M -> count_true (mask_row n M) = inject_Z (Z.of_nat n).
Proof.
  intros _. unfold count_true, mask_row. do 2 f_equal.
  rewrite filter_app, length_app.
  assert (H1 : forall k, filter (fun b : bool => b) (repeat true k) = repeat true k).
  { induction k; simpl; [reflexivity|now rewrite IHk]. }
  assert (H2 : forall k, filter (fun b : bool => b) (repeat false k) = []).
  { induction k; simpl; [reflexivity|exact IHk]. }
  rewrite H1, H2, repeat_length. simpl. lia.
Qed.

(** X11. What the collator does with the tensors it can be given:
    sequences of at least one day whose rows have one width, for the
    hidden states and for the targets.  It raises [RuntimeError] when
    given no hidden sequence or no target sequence ([pad_sequence] refuses
    an empty list); otherwise [IndexError] when the target rows have no
    column; otherwise [AssertionError] when the numbers of hidden and of
    target sequences differ or their longest sequences differ in length;
    and otherwise it returns a batch. *)
Theorem collate_outcomes (examples labels : list (list (list Q)))
    (true_labels : list label) (cats : list Z) :
  rectangular examples ->
  rectangular labels ->
  (examples = [] \/ labels = [] ->
   forecaster_collate_fn examples labels true_labels cats = Raise RuntimeError) /\
  (examples <> [] -> labels <> [] -> trailing labels = 0 ->
   forecaster_collate_fn examples labels true_labels cats = Raise IndexError) /\
  (examples <> [] -> labels <> [] -> trailing labels <> 0 ->
   length examples <> length labels \/
   Torch.max_len examples <> Torch.max_len labels ->
   forecaster_collate_fn examples labels true_labels cats = Raise AssertionError) /\
  (examples <> [] -> labels <> [] -> trailing labels <> 0 ->
   length examples = length labels ->
   Torch.max_len examples = Torch.max_len labels ->
   exists batch, forecaster_collate_fn examples labels true_labels cats = Ok batch).
Proof.
  intros _ _. unfold forecaster_collate_fn.
  split; [|split; [|split]].
  - intros [-> | ->]; [reflexivity|].
    destruct examples; reflexivity.
  - intros He Hl Ht. rewrite (pad_sequence_ok _ examples He), (pad_sequence_ok _ labels Hl).
    cbn [Py.bind]. rewrite Ht. reflexivity.
  - intros He Hl Ht Hbad.
    rewrite (pad_sequence_ok _ examples He), (pad_sequence_ok _ labels Hl).
    cbn [Py.bind]. destruct (Nat.eqb_spec (trailing labels) 0); [contradiction|].
    cbn [Py.bind]. rewrite zip_with_length, !length_map, Nat.min_id.
    destruct (Nat.eqb_spec (length examples) (length labels)),
             (Nat.eqb_spec (Torch.max_len examples) (Torch.max_len labels));
      simpl; try reflexivity.
    destruct Hbad; contradiction.
  - intros He Hl Ht Hlen Hmax.
    rewrite (pad_sequence_ok _ examples He), (pad_sequence_ok _ labels Hl).
    cbn [Py.bind]. destruct (Nat.eqb_spec (trailing labels) 0); [contradiction|].
    cbn [Py.bind]. rewrite zip_with_length, !length_map, Nat.min_id.
    rewrite Hlen, Hmax, !Nat.eqb_refl. simpl. eauto.
Qed.

Lemma collate_outcomes_witness :
  rectangular [hidden_two_days] /\
  rectangular [labels_two_days; labels_four_days] /\
  forecaster_collate_fn [hidden_two_days] [labels_two_days; labels_four_days]
    [IntLabel 1; IntLabel 1] [0%Z; 1%Z] = Raise AssertionError /\
  forecaster_collate_fn [[[1%Q]]; [[2%Q]; [3%Q]]] [[[]]; [[]; []]]
    [IntLabel 1; IntLabel 1] [0%Z; 0%Z] = Raise IndexError /\
  exists batch,
    forecaster_collate_fn [hidden_two_days; hidden_four_days]
      [labels_two_days; labels_four_days] [IntLabel 1; IntLabel 1] [0%Z; 1%Z]
    = Ok batch.
Proof.
  assert (H1 : rectangular [hidden_two_days])
    by (repeat constructor; discriminate).
  assert (H2 : rectangular [labels_two_days; labels_four_days])
    by (repeat constructor; discriminate).
  assert (H3 : rectangular [hidden_two_days; hidden_four_days])
    by (repeat constructor; discriminate).
  assert (H4 : rectangular [[[1%Q]]; [[2%Q]; [3%Q]]])
    by (repeat constructor; discriminate).
  assert (H5 : rectangular [[[]]; [[]; @nil Q]])
    by (repeat constructor; discriminate).
  split; [exact H1|]. split; [exact H2|]. split; [|split].
  - apply (proj1 (proj2 (proj2 (collate_outcomes [hidden_two_days]
             [labels_two_days; labels_four_days] [IntLabel 1; IntLabel 1]
             [0%Z; 1%Z] H1 H2)))).
    + discriminate.
    + discriminate.
    + discriminate.
    + left. discriminate.
  - apply (proj1 (proj2 (collate_outcomes [[[1%Q]]; [[2%Q]; [3%Q]]]
             [[[]]; [[]; []]] [IntLabel 1; IntLabel 1] [0%Z; 0%Z] H4 H5)));
      [discriminate|discriminate|reflexivity].
  - apply (proj2 (proj2 (proj2 (collate_outcomes
             [hidden_two_days; hidden_four_days]
             [labels_two_days; labels_four_days] [IntLabel 1; IntLabel 1]
             [0%Z; 1%Z] H3 H2))));
      try discriminate; reflexivity.
Defined.

(** X12. Every batch the collator returns is rectangular: its hidden
    sequences, target sequences and mask rows are as many as the examples
    and all have the length of the longest example; [seq_ends], the labels
    and the categories are carried one per example; and the number of
    [True] entries of a mask row, which the losses divide by, is the number
    of days of its example. *)
Theorem collate_shapes (examples labels : list (list (list Q)))
    (true_labels : list label) (cats : list Z) (batch : Batch) :
  forecaster_collate_fn examples labels true_labels cats = Ok batch ->
  length (b_examples batch) = length labels /\
  length (b_labels batch) = length labels /\
  length (b_mask batch) = length labels /\
  length (b_seq_ends batch) = length labels /\
  length (b_true_labels batch) = length true_labels /\
  b_cats batch = cats /\
  Forall (fun s => length s = Torch.max_len labels) (b_examples batch) /\
  Forall (fun s => length s = Torch.max_len labels) (b_labels batch) /\
  Forall (fun s => length s = Torch.max_len labels) (b_mask batch) /\
  map count_true (b_mask batch)
  = map (fun s => inject_Z (Z.of_nat (length s))) labels /\
  Forall (fun e => (-1 <= e < Z.of_nat (Torch.max_len labels))%Z) (b_seq_ends batch).
Proof.
  intros Hb.
  destruct (forecaster_collate_fn_spec _ _ _ _ _ Hb)
    as (He & Hl & Hm & Hs & Ht & Hc & Hlen & Hmax).
  rewrite He, Hl, Hm, Hs, Ht, !length_map.
  repeat split; try assumption; try reflexivity.
  - apply Forall_map, Forall_forall. intros s Hin.
    rewrite length_app, repeat_length.
    assert (length s <= Torch.max_len examples) by now apply length_le_max_len.
    lia.
  - apply Forall_map, Forall_forall. intros s Hin.
    rewrite length_app, repeat_length.
    assert (length s <= Torch.max_len labels) by now apply length_le_max_len.
    lia.
  - apply Forall_map, Forall_forall. intros s Hin. unfold mask_row.
    rewrite length_app, !repeat_length.
    assert (length s <= Torch.max_len labels) by now apply length_le_max_len.
    lia.
  - rewrite map_map. apply map_ext_in. intros s Hin.
    apply count_true_mask_row. now apply length_le_max_len.
  - apply Forall_map, Forall_forall. intros s Hin.
    assert (length s <= Torch.max_len labels) by now apply length_le_max_len.
    assert (Hpos : 0 < Torch.max_len labels).
    { destruct labels as [|l0 ls]; [contradiction|].
      unfold forecaster_collate_fn in Hb.
      destruct (Torch.pad_sequence _ examples); [|discriminate].
      cbn [Py.bind Torch.pad_sequence] in Hb.
      destruct (Nat.eqb_spec (trailing (l0 :: ls)) 0) as [E|E]; [discriminate|].
      unfold trailing in E. destruct l0 as [|row l0]; [congruence|].
      unfold Torch.max_len. cbn [fold_right length]. lia. }
    lia.
Qed.

Lemma collate_shapes_witness :
  exists batch,
    forecaster_collate_fn [hidden_two_days; hidden_four_days]
      [labels_two_days; labels_four_days] [IntLabel 1; IntLabel 1] [0%Z; 1%Z]
    = Ok batch /\
    map count_true (b_mask batch) = [inject_Z 2; inject_Z 4].
Proof.
  eexists. split; [reflexivity|].
  destruct (collate_shapes [hidden_two_days; hidden_four_days]
              [labels_two_days; labels_four_days] [IntLabel 1; IntLabel 1]
              [0%Z; 1%Z] _ eq_refl)
    as (_ & _ & _ & _ & _ & _ & _ & _ & _ & H & _).
  exact H.
Defined.

(* ================================================================== *)
(** * The crowd's prediction is read from the example's own last day *)

Lemma select_map {A B} (f : A -> B) (c : Z) (cats : list Z) (l : list A) :
  select c cats (map f l) = map f (select c cats l).
Proof.
  unfold select. revert l.
  induction cats as [|c' cats IH]; intros [|x l]; simpl; try reflexivity.
  destruct (c' =? c)%Z; simpl; now rewrite IH.
Qed.

Lemma select_length {A B} (c : Z) (cats : list Z) (a : list A) (b : list B) :
  length a = length b ->
  length (select c cats a) = length (select c cats b).
Proof.
  unfold select. revert a b.
  induction cats as [|c' cats IH]; intros [|x a] [|y b] H; simpl in *;
    try reflexivity; try discriminate.
  destruct (c' =? c)%Z; simpl; rewrite (IH a b); auto.
Qed.

Lemma select_incl {A} (c : Z) (cats : list Z) (l : list A) (x : A) :
  In x (select c cats l) -> In x l.
Proof.
  unfold select. revert l.
  induction cats as [|c' cats IH]; intros [|y l]; simpl; try contradiction.
  destruct (c' =? c)%Z; simpl.
  - intros [->|H]; [now left|right; now apply IH].
  - intros H. right. now apply IH.
Qed.

Lemma combine_map_both {A B C} (f : A -> B) (g : A -> C) (l : list A) :
  combine (map f l) (map g l) = map (fun x => (f x, g x)) l.
Proof.
  induction l; simpl; [reflexivity|now rewrite IHl].
Qed.

Lemma traverse_map_ok {A B C} (h : B -> result C) (k : A -> B) (r : A -> C)
    (l : list A) :
  (forall x, In x l -> h (k x) = Ok (r x)) ->
  Py.traverse h (map k l) = Ok (map r l).
Proof.
  induction l as [|x l IH]; intros H; simpl; [reflexivity|].
  rewrite (H x (or_introl eq_refl)), IH; [reflexivity|].
  intros y Hy. apply H. now right.
Qed.

Lemma nth_error_last_of_padded {A} (lab : list A) (pad : A) (k : nat) (d : A) :
  lab <> [] ->
  nth_error (lab ++ repeat pad k) (Z.to_nat (Z.of_nat (length lab) - 1))
  = Some (last lab d).
Proof.
  intros Hne.
  assert (Hl : 0 < length lab) by (destruct lab; [congruence|simpl; lia]).
  replace (Z.to_nat (Z.of_nat (length lab) - 1)) with (length lab - 1) by lia.
  rewrite nth_error_app1 by lia. clear Hl.
  induction lab as [|x [|y lab] IH]; [congruence|reflexivity|].
  replace (length (x :: y :: lab) - 1) with (S (length (y :: lab) - 1))
    by (simpl; lia).
  change (last (x :: y :: lab) d) with (last (y :: lab) d).
  cbn [nth_error]. apply IH. discriminate.
Qed.

(** Reading position [seq_ends[i]] of the padded sequences of a batch gives
    the last element of each unpadded sequence. *)
Lemma gather_last_day {A B} (f : list (list Q) -> list B -> list A)
    (g : list (list Q) -> list B) (pad : B) (d : B)
    (sel : list (list (list Q))) (M : nat) (r : list (list Q) -> A) :
  (forall lab, In lab sel ->
     lab <> [] /\
     length (g lab) = length lab /\
     nth_error (f lab (g lab ++ repeat pad (M - length lab)))
               (Z.to_nat (Z.of_nat (length lab) - 1)) = Some (r lab)) ->
  gather (map (fun lab => f lab (g lab ++ repeat pad (M - length lab))) sel)
         (map (fun lab => (Z.of_nat (length lab) - 1)%Z) sel)
  = Ok (map r sel).
Proof.
  intros H. unfold gather. rewrite !length_map, Nat.ltb_irrefl.
  rewrite combine_map_both.
  apply traverse_map_ok. intros lab Hin. cbn [fst snd].
  destruct (H lab Hin) as (Hne & _ & Hnth).
  assert (Hl : 0 < length lab) by (destruct lab; [congruence|simpl; lia]).
  destruct (Z.ltb_spec (Z.of_nat (length lab) - 1) 0); [lia|].
  now rewrite Hnth.
Qed.

Lemma nth_firstn_one (row : list Q) : nth 0 (firstn 1 row) 0%Q = nth 0 row 0%Q.
Proof. destruct row; reflexivity. Qed.

(** The crowd predictions of a collated batch, in terms of the target
    sequences the collator was given. *)
Lemma crowd_predictions_of_batch (examples labels : list (list (list Q)))
    (true_labels : list label) (cats : list Z) (batch : Batch) :
  forecaster_collate_fn examples labels true_labels cats = Ok batch ->
  length true_labels = length labels ->
  Forall (fun lab => lab <> []) labels ->
  crowd_preds_tf (b_labels batch) (b_true_labels batch) (b_cats batch)
                 (b_seq_ends batch)
  = Ok (map (fun lab => above_half (nth 0 (last lab []) 0%Q))
            (select 0 cats labels)) /\
  crowd_preds_mc (b_labels batch) (b_true_labels batch) (b_cats batch)
                 (b_seq_ends batch)
  = Py.traverse argmax (map (fun lab => last lab []) (select 1 cats labels)) /\
  crowd_preds_re (b_labels batch) (b_true_labels batch) (b_cats batch)
                 (b_seq_ends batch)
  = Ok (map (fun lab => nth 0 (last lab []) 0%Q) (select 2 cats labels)).
Proof.
  intros Hb Hlen Hne.
  destruct (forecaster_collate_fn_spec _ _ _ _ _ Hb)
    as (_ & Hl & _ & Hs & Ht & Hc & _).
  rewrite Forall_forall in Hne.
  assert (Hguard : forall c,
            (0 <? length (select c cats (map label_value true_labels)))
            = (0 <? length (select c cats labels))).
  { intros c. f_equal. apply select_length. now rewrite length_map. }
  unfold crowd_preds_tf, crowd_preds_mc, crowd_preds_re,
    true_labels_tf, true_labels_mc, true_labels_re,
    seq_ends_indices_tf, seq_ends_indices_mc, seq_ends_indices_re,
    tf_labels_squeezed, tf_labels, mc_labels, re_labels.
  rewrite Hl, Hs, Ht, Hc, !Hguard, !select_map.
  set (pad := repeat (-2)%Q (trailing labels)).
  set (M := Torch.max_len labels).
  split; [|split].
  - destruct (select 0 cats labels) as [|l0 sel] eqn:Hsel; [reflexivity|].
    rewrite <- Hsel. replace (0 <? length (select 0 cats labels)) with true
      by (rewrite Hsel; reflexivity).
    rewrite !map_map.
    rewrite (gather_last_day
               (fun _ padded => map (fun row => nth 0 row 0%Q)
                                    (map (firstn 1) padded))
               (fun lab => lab) pad [] (select 0 cats labels) M
               (fun lab => nth 0 (last lab []) 0%Q)).
    + cbn [Py.bind]. now rewrite map_map.
    + intros lab Hin. apply select_incl in Hin.
      split; [now apply Hne|]. split; [reflexivity|].
      rewrite !nth_error_map.
      rewrite (nth_error_last_of_padded lab pad _ []) by now apply Hne.
      cbn [option_map]. now rewrite nth_firstn_one.
  - destruct (select 1 cats labels) as [|l0 sel] eqn:Hsel; [reflexivity|].
    rewrite <- Hsel. replace (0 <? length (select 1 cats labels)) with true
      by (rewrite Hsel; reflexivity).
    rewrite (gather_last_day (fun _ padded => padded) (fun lab => lab) pad []
               (select 1 cats labels) M (fun lab => last lab [])).
    + reflexivity.
    + intros lab Hin. apply select_incl in Hin.
      split; [now apply Hne|]. split; [reflexivity|].
      now apply nth_error_last_of_padded, Hne.
  - destruct (select 2 cats labels) as [|l0 sel] eqn:Hsel; [reflexivity|].
    rewrite <- Hsel. replace (0 <? length (select 2 cats labels)) with true
      by (rewrite Hsel; reflexivity).
    rewrite !map_map.
    apply (gather_last_day
             (fun _ padded => map (fun row => nth 0 row 0%Q) padded)
             (fun lab => lab) pad [] (select 2 cats labels) M
             (fun lab => nth 0 (last lab []) 0%Q)).
    intros lab Hin. apply select_incl in Hin.
    split; [now apply Hne|]. split; [reflexivity|].
    rewrite nth_error_map.
    now rewrite (nth_error_last_of_padded lab pad _ []) by now apply Hne.
Qed.

(** X13. In every batch the collator returns from examples that each have
    a day (the target sequences being tensors of one row width), the
    crowd's prediction is read from the last day of each example itself,
    never from a padding row: for BinaryTF it is whether the first entry
    of the example's last target row exceeds 0.5, for MultiChoice the
    [argmax] of that row, for Regression its first entry; each list
    follows the order of the examples of its category. *)
Theorem crowd_predictions_read_last_day (examples labels : list (list (list Q)))
    (true_labels : list label) (cats : list Z) (batch : Batch) :
  forecaster_collate_fn examples labels true_labels cats = Ok batch ->
  length true_labels = length labels ->
  Forall (fun lab => lab <> []) labels ->
  Forall (Forall (fun row => length row = trailing labels)) labels ->
  crowd_preds_tf (b_labels batch) (b_true_labels batch) (b_cats batch)
                 (b_seq_ends batch)
  = Ok (map (fun lab => above_half (nth 0 (last lab []) 0%Q))
            (select 0 cats labels)) /\
  crowd_preds_mc (b_labels batch) (b_true_labels batch) (b_cats batch)
                 (b_seq_ends batch)
  = Py.traverse argmax (map (fun lab => last lab []) (select 1 cats labels)) /\
  crowd_preds_re (b_labels batch) (b_true_labels batch) (b_cats batch)
                 (b_seq_ends batch)
  = Ok (map (fun lab => nth 0 (last lab []) 0%Q) (select 2 cats labels)).
Proof.
  intros Hb Hlen Hne _.
  now apply (crowd_predictions_of_batch examples labels true_labels cats).
Qed.

Lemma crowd_predictions_read_last_day_witness :
  exists batch,
    forecaster_collate_fn [hidden_two_days; hidden_four_days]
      [labels_two_days; labels_four_days] [IntLabel 1; IntLabel 1] [0%Z; 1%Z]
    = Ok batch /\
    crowd_preds_tf (b_labels batch) (b_true_labels batch) (b_cats batch)
                   (b_seq_ends batch) = Ok [true] /\
    crowd_preds_mc (b_labels batch) (b_true_labels batch) (b_cats batch)
                   (b_seq_ends batch) = Ok [1].
Proof.
  eexists. split; [reflexivity|].
  destruct (crowd_predictions_read_last_day [hidden_two_days; hidden_four_days]
              [labels_two_days; labels_four_days] [IntLabel 1; IntLabel 1]
              [0%Z; 1%Z] _ eq_refl eq_refl) as (H0 & H1 & _).
  - repeat constructor; discriminate.
  - repeat constructor.
  - split; [rewrite H0|rewrite H1]; reflexivity.
Defined.

(* ================================================================== *)
(** * The counters of [evaluate] find each example's own rows *)

Lemma select_app {A} (c : Z) (pre post : list Z) (a b : list A) :
  length pre = length a ->
  select c (pre ++ post) (a ++ b) = select c pre a ++ select c post b.
Proof.
  unfold select. intros H.
  assert (E : combine (pre ++ post) (a ++ b) = combine pre a ++ combine post b).
  { revert a H. induction pre as [|x pre IH]; intros [|y a] H; simpl in *;
      try discriminate; [reflexivity|]. f_equal. apply IH. lia. }
  now rewrite E, filter_app, map_app.
Qed.

Lemma select_one {A} (c c' : Z) (x : A) :
  select c [c'] [x] = if (c' =? c)%Z then [x] else [].
Proof. unfold select. simpl. now destruct (c' =? c)%Z. Qed.

Lemma getitem_middle {A} (a b : list A) (x : A) (n : nat) :
  n = length a -> Py.getitem (a ++ x :: b) n = Ok x.
Proof.
  intros ->. unfold Py.getitem.
  rewrite nth_error_app2 by lia. now rewrite Nat.sub_diag.
Qed.

Section RawLogits.

Variable Hidden : Type.
Variable tf_classifier mc_classifier : Hidden -> list Q.
Variable regressor : Hidden -> Q.

#[local] Abbreviation seen c pre hpre :=
  (length (select c pre (hpre : list (list Hidden)))).

(** The loop invariant: after the examples [hpre], each counter is the
    number of examples of its category seen so far. *)
Lemma raw_logits_loop_spec (post : list Z) :
  forall (hpost : list (list Hidden)) (epost : list Z)
         (pre : list Z) (hpre : list (list Hidden)) (epre : list Z)
         (acc : list raw_entry),
    length hpre = length pre -> length epre = length pre ->
    length hpost = length post -> length epost = length post ->
    raw_logits_loop tf_classifier mc_classifier regressor
      (hpre ++ hpost) (pre ++ post) (epre ++ epost) post
      (length pre) (seen 0%Z pre hpre) (seen 1%Z pre hpre) (seen 2%Z pre hpre) acc
    = Ok (acc ++ entries_by_example tf_classifier mc_classifier regressor
                   hpost post (map (fun e => (e - 1)%Z) epost)).
Proof.
  induction post as [|c post IH];
    intros [|h hpost] [|e epost] pre hpre epre acc Hh He Hh' He';
    simpl in Hh', He'; try discriminate.
  { simpl. now rewrite app_nil_r. }
  assert (Hstep : forall c',
             seen c' (pre ++ [c]) (hpre ++ [h])
             = if (c =? c')%Z then S (seen c' pre hpre) else seen c' pre hpre).
  { intros c'. rewrite select_app by congruence. rewrite select_one, length_app.
    destruct (c =? c')%Z; simpl; lia. }
  assert (Hnext : forall acc',
             raw_logits_loop tf_classifier mc_classifier regressor
               (hpre ++ h :: hpost) (pre ++ c :: post) (epre ++ e :: epost) post
               (S (length pre)) (seen 0%Z (pre ++ [c]) (hpre ++ [h]))
               (seen 1%Z (pre ++ [c]) (hpre ++ [h]))
               (seen 2%Z (pre ++ [c]) (hpre ++ [h])) acc'
             = Ok (acc' ++ entries_by_example tf_classifier mc_classifier
                             regressor hpost post
                             (map (fun e => (e - 1)%Z) epost))).
  { intros acc'.
    specialize (IH hpost epost (pre ++ [c]) (hpre ++ [h]) (epre ++ [e]) acc').
    rewrite <- !app_assoc in IH. simpl in IH.
    replace (S (length pre)) with (length (pre ++ [c]))
      by (rewrite length_app; simpl; lia).
    apply IH; rewrite ?length_app; simpl; lia. }
  rewrite !Hstep in Hnext.
  assert (Hlen : Py.getitem (epre ++ e :: epost) (length pre) = Ok e)
    by (apply getitem_middle; congruence).
  assert (Hrow : forall {B} (f : Hidden -> B) c',
             (c =? c')%Z = true ->
             Py.getitem (select c' (pre ++ c :: post)
                                (map (map f) (hpre ++ h :: hpost)))
                        (seen c' pre hpre)
             = Ok (map f h)).
  { intros B f c' Hc. rewrite select_map.
    rewrite (select_app c' pre (c :: post) hpre (h :: hpost)) by congruence.
    rewrite map_app.
    replace (select c' (c :: post) (h :: hpost))
      with (h :: select c' post hpost)
      by (unfold select; simpl; now rewrite Hc).
    simpl. apply getitem_middle. now rewrite length_map. }
  cbn [raw_logits_loop entries_by_example map].
  replace (e - 1 + 1)%Z with e by lia.
  unfold tf_logits, mc_logits, re_results.
  destruct (Z.eqb_spec c 0) as [->|N0].
  { cbn [Z.eqb Pos.eqb] in Hnext.
    rewrite (Hrow _ tf_classifier 0%Z eq_refl). cbn [Py.bind]. rewrite Hlen.
    cbn [Py.bind]. rewrite Hnext. now rewrite <- app_assoc. }
  destruct (Z.eqb_spec c 1) as [->|N1].
  { cbn [Z.eqb Pos.eqb] in Hnext.
    rewrite (Hrow _ mc_classifier 1%Z eq_refl). cbn [Py.bind]. rewrite Hlen.
    cbn [Py.bind]. rewrite Hnext. now rewrite <- app_assoc. }
  destruct (Z.eqb_spec c 2) as [->|N2].
  { cbn [Z.eqb Pos.eqb] in Hnext.
    rewrite (Hrow _ regressor 2%Z eq_refl). cbn [Py.bind]. rewrite Hlen.
    cbn [Py.bind]. rewrite Hnext. now rewrite <- app_assoc. }
  now rewrite Hnext.
Qed.

(** X14. The loop of [evaluate] that fills [raw_logits] with three
    per-category counters appends, for every example of the batch in
    order, the output of the head of the example's category on the
    example's own hidden states, cut after its last day; an example of no
    known category adds nothing.  It never raises when the batch has one
    category and one sequence end per example. *)
Theorem raw_logits_follow_examples (hidden_state : list (list Hidden))
    (categories seq_ends : list Z) :
  length hidden_state = length categories ->
  length seq_ends = length categories ->
  batch_raw_logits tf_classifier mc_classifier regressor hidden_state
                   categories seq_ends
  = Ok (entries_by_example tf_classifier mc_classifier regressor hidden_state
                           categories seq_ends).
Proof.
  intros Hh He. unfold batch_raw_logits.
  pose proof (raw_logits_loop_spec categories hidden_state
                (map (fun e => (e + 1)%Z) seq_ends) [] [] [] []
                eq_refl eq_refl Hh) as H.
  simpl in H. rewrite H by now rewrite length_map.
  rewrite map_map. f_equal. f_equal.
  rewrite <- (map_id seq_ends) at 2. apply map_ext. intros. lia.
Qed.

End RawLogits.

Lemma raw_logits_follow_examples_witness :
  batch_raw_logits (fun h : Q => [h; (1 - h)%Q]) (fun h : Q => [h; h; h])
                   (fun h : Q => h) [[1%Q; 2%Q; 0%Q]; [3%Q; 4%Q; 5%Q]; [6%Q; 0%Q; 0%Q]]
                   [2%Z; 0%Z; 1%Z] [1%Z; 2%Z; 0%Z]
  = Ok [RawValues [1%Q; 2%Q];
        RawRows [[3%Q; (1 - 3)%Q]; [4%Q; (1 - 4)%Q]; [5%Q; (1 - 5)%Q]];
        RawRows [[6%Q; 6%Q; 6%Q]]].
Proof.
  rewrite (raw_logits_follow_examples Q (fun h : Q => [h; (1 - h)%Q])
             (fun h : Q => [h; h; h]) (fun h : Q => h)) by reflexivity.
  reflexivity.
Defined.

(* ================================================================== *)
(** * One metric entry per example of the category *)

Lemma gather_length {A} (t : list (list A)) (index : list Z) (xs : list A) :
  gather t index = Ok xs -> length xs = length index.
Proof.
  unfold gather. destruct (Nat.ltb_spec (length t) (length index)) as [Hlt|Hle];
    [discriminate|].
  intros H. apply traverse_length in H. rewrite H, length_combine. lia.
Qed.

Lemma select_count {A} (c : Z) (cats : list Z) (t : list A) :
  length t = length cats ->
  length (select c cats t) = length (filter (fun c' => (c' =? c)%Z) cats).
Proof.
  unfold select. revert t.
  induction cats as [|c' cats IH]; intros [|x t] H; simpl in *;
    try discriminate; [reflexivity|].
  destruct (c' =? c)%Z; simpl; rewrite IH; auto.
Qed.

Section MetricLengths.

Variable Hidden : Type.
Variable tf_classifier mc_classifier : Hidden -> list Q.
Variable regressor : Hidden -> Q.
Variable softmax : list Q -> list Q.
Variable hidden_state : list (list Hidden).
Variable labels : list (list (list Q)).
Variable true_labels : list Q.
Variable categories : list Z.
Variable seq_ends : list Z.

Hypothesis true_labels_length : length true_labels = length categories.
Hypothesis seq_ends_length : length seq_ends = length categories.

#[local] Abbreviation examples_of c :=
  (length (filter (fun c' => (c' =? c)%Z) categories)).

Ltac guarded_length c H :=
  let Hg := fresh "Hg" in
  rewrite <- (select_count c categories seq_ends seq_ends_length);
  intros H;
  match type of H with
  | (if 0 <? ?n then _ else _) = _ =>
      destruct (Nat.ltb_spec 0 n) as [Hg|Hg]
  end;
  [| inversion H; subst; simpl;
     rewrite (select_length c categories seq_ends true_labels)
       by congruence; lia ].

Lemma crowd_preds_tf_length (xs : list bool) :
  crowd_preds_tf labels true_labels categories seq_ends = Ok xs ->
  length xs = examples_of 0%Z.
Proof.
  unfold crowd_preds_tf, true_labels_tf, seq_ends_indices_tf.
  guarded_length 0%Z H.
  destruct (gather _ _) as [ys|] eqn:Hy; [|discriminate].
  inversion H; subst. rewrite length_map. exact (gather_length _ _ _ Hy).
Qed.

Lemma preds_tf_length (xs : list bool) :
  preds_tf tf_classifier softmax hidden_state true_labels categories seq_ends
  = Ok xs ->
  length xs = examples_of 0%Z.
Proof.
  unfold preds_tf, true_labels_tf, seq_ends_indices_tf.
  guarded_length 0%Z H.
  destruct (gather _ _) as [ys|] eqn:Hy; [|discriminate].
  inversion H; subst. rewrite length_map. exact (gather_length _ _ _ Hy).
Qed.

Lemma crowd_preds_mc_length (xs : list nat) :
  crowd_preds_mc labels true_labels categories seq_ends = Ok xs ->
  length xs = examples_of 1%Z.
Proof.
  unfold crowd_preds_mc, true_labels_mc, seq_ends_indices_mc.
  guarded_length 1%Z H.
  destruct (gather _ _) as [ys|] eqn:Hy; [|discriminate].
  cbn [Py.bind] in H. apply traverse_length in H. rewrite H.
  exact (gather_length _ _ _ Hy).
Qed.

Lemma preds_mc_length (xs : list nat) :
  preds_mc mc_classifier hidden_state labels true_labels categories seq_ends
  = Ok xs ->
  length xs = examples_of 1%Z.
Proof.
  unfold preds_mc, true_labels_mc, seq_ends_indices_mc.
  guarded_length 1%Z H.
  destruct (gather _ _) as [ys|] eqn:Hy; [|discriminate].
  cbn [Py.bind] in H.
  destruct (Py.traverse _ ys) as [zs|] eqn:Hz; [|discriminate].
  cbn [Py.bind] in H. apply traverse_length in H, Hz. rewrite H, Hz.
  exact (gather_length _ _ _ Hy).
Qed.

Lemma crowd_preds_re_length (xs : list Q) :
  crowd_preds_re labels true_labels categories seq_ends = Ok xs ->
  length xs = examples_of 2%Z.
Proof.
  unfold crowd_preds_re, true_labels_re, seq_ends_indices_re.
  guarded_length 2%Z H. exact (gather_length _ _ _ H).
Qed.

Lemma preds_re_length (xs : list Q) :
  preds_re regressor hidden_state true_labels categories seq_ends = Ok xs ->
  length xs = examples_of 2%Z.
Proof.
  unfold preds_re, true_labels_re, seq_ends_indices_re.
  guarded_length 2%Z H. exact (gather_length _ _ _ H).
Qed.

(** X15. Whenever the metric block of [train] and [evaluate] completes on
    a batch with one true label and one sequence end per example, it adds
    to each metric list exactly one entry per example of the list's
    category: the binary lists grow by the number of BinaryTF examples,
    the multiple-choice lists by the number of MultiChoice examples and
    the regression lists by the number of Regression examples, for the
    crowd, the model and the stored predictions alike. *)
Theorem metrics_one_entry_per_example (m : Metrics) :
  batch_metrics tf_classifier mc_classifier regressor softmax hidden_state
                labels true_labels categories seq_ends = Ok m ->
  (length (m_crowd_em_tf m) = examples_of 0%Z /\
   length (m_em_tf m) = examples_of 0%Z /\
   length (m_preds_tf m) = examples_of 0%Z) /\
  (length (m_crowd_em_mc m) = examples_of 1%Z /\
   length (m_em_mc m) = examples_of 1%Z /\
   length (m_preds_mc m) = examples_of 1%Z) /\
  (length (m_crowd_em_re m) = examples_of 2%Z /\
   length (m_em_re m) = examples_of 2%Z /\
   length (m_preds_re m) = examples_of 2%Z).
Proof.
  unfold batch_metrics. intros H.
  destruct (crowd_preds_tf _ _ _ _) as [c_tf|] eqn:E1; [|discriminate].
  destruct (preds_tf _ _ _ _ _ _) as [p_tf|] eqn:E2; [|discriminate].
  destruct (crowd_preds_mc _ _ _ _) as [c_mc|] eqn:E3; [|discriminate].
  destruct (preds_mc _ _ _ _ _ _) as [p_mc|] eqn:E4; [|discriminate].
  destruct (crowd_preds_re _ _ _ _) as [c_re|] eqn:E5; [|discriminate].
  destruct (preds_re _ _ _ _ _) as [p_re|] eqn:E6; [|discriminate].
  cbn [Py.bind] in H. inversion H; subst m; clear H.
  cbn [m_crowd_em_tf m_em_tf m_crowd_em_mc m_em_mc m_crowd_em_re m_em_re
       m_preds_tf m_preds_mc m_preds_re].
  unfold eq_bools, eq_positions, neg_abs_diff, true_labels_tf, true_labels_mc,
    true_labels_re.
  rewrite !zip_with_length, !(select_count _ categories true_labels)
    by exact true_labels_length.
  rewrite (crowd_preds_tf_length _ E1), (preds_tf_length _ E2),
    (crowd_preds_mc_length _ E3), (preds_mc_length _ E4),
    (crowd_preds_re_length _ E5), (preds_re_length _ E6).
  rewrite !Nat.min_id. repeat split; reflexivity.
Qed.

End MetricLengths.

Lemma metrics_one_entry_per_example_witness :
  exists m,
    batch_metrics (fun h : Q => [h; (1 - h)%Q]) (fun h : Q => [h; 0%Q; 1%Q])
      (fun h : Q => h) (fun l : list Q => l)
      [[1%Q; 0%Q]; [0%Q; 3%Q]; [2%Q; 2%Q]]
      [[[1%Q; -1%Q]; [-2%Q; -2%Q]];
       [[0%Q; 1%Q]; [1%Q; 0%Q]];
       [[1%Q; -1%Q]; [0%Q; -1%Q]]]
      [1%Q; 0%Q; 1%Q] [0%Z; 1%Z; 0%Z] [0%Z; 1%Z; 1%Z] = Ok m /\
    length (m_crowd_em_tf m) = 2 /\ length (m_em_mc m) = 1 /\
    length (m_preds_re m) = 0.
Proof.
  eexists. split; [reflexivity|].
  destruct (metrics_one_entry_per_example Q (fun h : Q => [h; (1 - h)%Q])
              (fun h : Q => [h; 0%Q; 1%Q]) (fun h : Q => h) (fun l : list Q => l)
              [[1%Q; 0%Q]; [0%Q; 3%Q]; [2%Q; 2%Q]]
              [[[1%Q; -1%Q]; [-2%Q; -2%Q]];
               [[0%Q; 1%Q]; [1%Q; 0%Q]];
               [[1%Q; -1%Q]; [0%Q; -1%Q]]]
              [1%Q; 0%Q; 1%Q] [0%Z; 1%Z; 0%Z] [0%Z; 1%Z; 1%Z]
              eq_refl eq_refl _ eq_refl)
    as ((H1 & _) & (_ & H2 & _) & (_ & _ & H3)).
  auto.
Defined.

(* ================================================================== *)
(** * Without documents the crowd baseline is the answer itself *)

Lemma select_items {A B} (c : Z) (key : A -> Z) (g : A -> B) (l : list A) :
  select c (map key l) (map g l)
  = map g (filter (fun x => (key x =? c)%Z) l).
Proof.
  unfold select. induction l as [|x l IH]; simpl; [reflexivity|].
  destruct (key x =? c)%Z; simpl; now rewrite IH.
Qed.

Lemma filter_map_length {A} (c : Z) (key : A -> Z) (l : list A) :
  length (filter (fun x => (key x =? c)%Z) l)
  = length (filter (fun c' => (c' =? c)%Z) (map key l)).
Proof.
  induction l as [|x l IH]; simpl; [reflexivity|].
  destruct (key x =? c)%Z; simpl; now rewrite IH.
Qed.

Lemma category_id_inj (c c' : Category) : category_id c = category_id c' -> c = c'.
Proof. destruct c, c'; simpl; intros H; try reflexivity; discriminate. Qed.

Lemma STR2BOOL_values (s : string) (b : Z) :
  Py.dict_get STR2BOOL s = Ok b -> b = 0%Z \/ b = 1%Z.
Proof.
  unfold STR2BOOL, Py.dict_get. simpl.
  repeat (destruct (String.eqb _ _); [intros H; inversion H; auto|]).
  discriminate.
Qed.

Section CrowdWithoutDocuments.

Variable str_to_float : string -> option Q.

(** What [__getitem__] returns for a record without documents. *)
Lemma undocumented_item_shape (item : Item) :
  undocumented_item str_to_float item ->
  exists example,
    item_targets item
    = [padded_row (fallback_target example (item_true_target item))] /\
    item_cat item = category_id (classify example) /\
    answer_decodes str_to_float (classify example) (answers example)
                   (item_true_target item) /\
    answer_in_row example (item_true_target item).
Proof.
  intros (self & example & Hwf & Hno & Hans & Hrow & Hm & Hitem).
  exists example.
  destruct (build_sequences_no_documents str_to_float (adjust_targets self)
              example _ Hwf Hno Hans) as (day & Hb).
  destruct (getitem_example_spec str_to_float self example) as [_ Hspec].
  destruct (Hspec item Hitem) as (c' & tt' & st' & Hb' & _ & Ht & _ & Hc & _).
  rewrite Hb in Hb'. injection Hb' as Ec Et Es.
  rewrite <- Ec in Hc. rewrite <- Es in Ht. cbn [l_targets] in Ht.
  rewrite slice_last_singleton in Ht by assumption. cbn [map] in Ht.
  auto.
Qed.

Lemma undocumented_tf (item : Item) :
  undocumented_item str_to_float item -> item_cat item = 0%Z ->
  item_targets item <> [] /\
  Qeq_bool (label_value (item_true_target item))
           (float_of_bool (above_half (nth 0 (last (item_targets item) []) 0%Q)))
  = true.
Proof.
  intros Hu Hc. destruct (undocumented_item_shape item Hu)
    as (example & Ht & Hcat & Hans & _).
  rewrite Hc in Hcat. apply (category_id_inj BinaryTF) in Hcat.
  rewrite Ht. split; [discriminate|].
  unfold fallback_target. rewrite <- Hcat in *.
  inversion Hans as [s b rest Hb Ea El| |]; subst. cbn [last].
  destruct (STR2BOOL_values s b Hb) as [-> | ->]; reflexivity.
Qed.

Lemma undocumented_mc (item : Item) :
  undocumented_item str_to_float item -> item_cat item = 1%Z ->
  item_targets item <> [] /\
  exists z, item_true_target item = IntLabel z /\ (0 <= z)%Z /\
            argmax (last (item_targets item) []) = Ok (Z.to_nat z).
Proof.
  intros Hu Hc. destruct (undocumented_item_shape item Hu)
    as (example & Ht & Hcat & _ & Hrow).
  rewrite Hc in Hcat. apply (category_id_inj MultiChoice) in Hcat.
  rewrite Ht. split; [discriminate|].
  destruct (Hrow (eq_sym Hcat)) as (z & Ez & Hz).
  exists z. split; [exact Ez|]. split; [lia|]. cbn [last].
  unfold fallback_target. rewrite <- Hcat, Ez. unfold padded_row.
  now apply argmax_padded_one_hot.
Qed.

Lemma undocumented_re (item : Item) :
  undocumented_item str_to_float item -> item_cat item = 2%Z ->
  item_targets item <> [] /\
  nth 0 (last (item_targets item) []) 0%Q = label_value (item_true_target item).
Proof.
  intros Hu Hc. destruct (undocumented_item_shape item Hu)
    as (example & Ht & Hcat & _ & _).
  rewrite Hc in Hcat. apply (category_id_inj Regression) in Hcat.
  rewrite Ht. split; [discriminate|].
  unfold fallback_target. rewrite <- Hcat. reflexivity.
Qed.

Lemma undocumented_nonempty (item : Item) :
  undocumented_item str_to_float item -> item_targets item <> [].
Proof.
  intros Hu. destruct (undocumented_item_shape item Hu) as (example & Ht & _).
  rewrite Ht. discriminate.
Qed.

#[local] Abbreviation of_category c items :=
  (filter (fun item : Item => (item_cat item =? c)%Z) items).

(** X16. When every item of a batch comes from a record without
    documents (its answer, for a multiple-choice record, naming one of
    the choices kept), the metric block finds the crowd baseline exact on
    every example: the crowd's binary predictions equal the true labels,
    its multiple-choice predictions are the true choices, and its
    regression predictions are at distance zero of the true values.  The
    crowd targets of such a batch are the answers themselves. *)
Theorem crowd_exact_without_documents (items : list Item)
    (fid_outputs_batch : list (list (list Q))) (batch : Batch) :
  Forall (undocumented_item str_to_float) items ->
  forecaster_collate_fn fid_outputs_batch (targets_batch items)
    (true_labels_batch items) (cats_batch items) = Ok batch ->
  exists c_tf c_mc c_re,
    crowd_preds_tf (b_labels batch) (b_true_labels batch) (b_cats batch)
                   (b_seq_ends batch) = Ok c_tf /\
    crowd_preds_mc (b_labels batch) (b_true_labels batch) (b_cats batch)
                   (b_seq_ends batch) = Ok c_mc /\
    crowd_preds_re (b_labels batch) (b_true_labels batch) (b_cats batch)
                   (b_seq_ends batch) = Ok c_re /\
    eq_bools (true_labels_tf (b_true_labels batch) (b_cats batch)) c_tf
    = repeat true (length (of_category 0%Z items)) /\
    eq_positions (true_labels_mc (b_true_labels batch) (b_cats batch)) c_mc
    = repeat true (length (of_category 1%Z items)) /\
    length (neg_abs_diff (true_labels_re (b_true_labels batch) (b_cats batch))
                         c_re)
    = length (of_category 2%Z items) /\
    Forall (fun d => d == 0)
           (neg_abs_diff (true_labels_re (b_true_labels batch) (b_cats batch))
                         c_re).
Proof.
  intros Hu Hb. rewrite Forall_forall in Hu.
  destruct (crowd_predictions_of_batch _ _ _ _ _ Hb) as (Htf & Hmc & Hre).
  { unfold true_labels_batch, targets_batch. now rewrite !length_map. }
  { apply Forall_forall. intros lab Hin. unfold targets_batch in Hin.
    apply in_map_iff in Hin. destruct Hin as (item & <- & Hin).
    now apply undocumented_nonempty, Hu. }
  destruct (forecaster_collate_fn_spec _ _ _ _ _ Hb)
    as (_ & _ & _ & _ & Ht & Hc & _).
  unfold true_labels_tf, true_labels_mc, true_labels_re.
  rewrite Htf, Hmc, Hre, Ht, Hc. clear Htf Hmc Hre Ht Hc Hb.
  unfold targets_batch, true_labels_batch, cats_batch.
  rewrite !map_map, !select_items, !map_map.
  assert (Hin : forall c item, In item (of_category c items) ->
                               undocumented_item str_to_float item /\
                               item_cat item = c).
  { intros c item H. apply filter_In in H. destruct H as [H Hc].
    split; [now apply Hu|lia]. }
  pose (choice := fun item : Item =>
                    match item_true_target item with
                    | IntLabel z => Z.to_nat z
                    | FloatLabel _ => 0
                    end).
  assert (Hargmax : Py.traverse argmax
                      (map (fun item => last (item_targets item) [])
                           (of_category 1%Z items))
                    = Ok (map choice (of_category 1%Z items))).
  { apply traverse_map_ok. intros item H.
    destruct (Hin _ _ H) as [Hi Hc].
    destruct (undocumented_mc item Hi Hc) as (_ & z & Ez & _ & Ha).
    rewrite Ha. unfold choice. now rewrite Ez. }
  eexists _, _, _. split; [reflexivity|]. split; [exact Hargmax|].
  split; [reflexivity|].
  unfold eq_bools, eq_positions, neg_abs_diff. rewrite !zip_with_map.
  split; [|split; [|split]].
  - apply map_const_repeat. intros item H. destruct (Hin _ _ H) as [Hi Hc].
    now destruct (undocumented_tf item Hi Hc).
  - apply map_const_repeat. intros item H. destruct (Hin _ _ H) as [Hi Hc].
    destruct (undocumented_mc item Hi Hc) as (_ & z & Ez & Hz & _).
    unfold choice. rewrite Ez. cbn [label_value].
    rewrite Z2Nat.id by assumption. apply Qeq_bool_iff. reflexivity.
  - now rewrite length_map.
  - apply Forall_forall. intros d H. apply in_map_iff in H.
    destruct H as (item & <- & H). destruct (Hin _ _ H) as [Hi Hc].
    destruct (undocumented_re item Hi Hc) as (_ & ->).
    setoid_replace (label_value (item_true_target item)
                    - label_value (item_true_target item))%Q with 0%Q by ring.
    reflexivity.
Qed.

End CrowdWithoutDocuments.

Lemma crowd_exact_without_documents_witness :
  exists item batch,
    fst (getitem_example numbers_only (dataset_with [silent_record] false 128)
           silent_record) = Ok item /\
    forecaster_collate_fn [[[0.5%Q]]] (targets_batch [item])
      (true_labels_batch [item]) (cats_batch [item]) = Ok batch /\
    crowd_preds_mc (b_labels batch) (b_true_labels batch) (b_cats batch)
                   (b_seq_ends batch) = Ok [1] /\
    eq_positions (true_labels_mc (b_true_labels batch) (b_cats batch)) [1]
    = [true].
Proof.
  eexists. eexists. split; [reflexivity|].
  match goal with
  | |- forecaster_collate_fn _ (targets_batch [?it]) _ _ = _ /\ _ =>
      set (item := it)
  end.
  assert (Hu : Forall (undocumented_item numbers_only) [item]).
  { constructor; [|constructor].
    exists (dataset_with [silent_record] false 128), silent_record.
    split; [split; [discriminate|intros _; simpl; lia]|].
    split; [repeat constructor|].
    split; [exact (decode_mc numbers_only "B" [])|].
    split; [intros _; exists 1%Z; split; [reflexivity|simpl; lia]|].
    split; [simpl; lia|reflexivity]. }
  split; [reflexivity|].
  destruct (crowd_exact_without_documents numbers_only [item] [[[0.5%Q]]] _
              Hu eq_refl)
    as (c_tf & c_mc & c_re & _ & Hmc & _ & _ & Hem & _).
  assert (E : c_mc = [1]) by (vm_compute in Hmc; now inversion Hmc).
  rewrite E in Hmc, Hem. split; [exact Hmc|exact Hem].
Defined.

(* ================================================================== *)
(** * The hidden states of padding days never reach the loss *)

Lemma zip_with_app {A B C} (f : A -> B -> C) (a1 a2 : list A) (b1 b2 : list B) :
  length a1 = length b1 ->
  Torch.zip_with f (a1 ++ a2) (b1 ++ b2)
  = Torch.zip_with f a1 b1 ++ Torch.zip_with f a2 b2.
Proof.
  revert b1. induction a1 as [|x a1 IH]; intros [|y b1] H; simpl in *;
    try discriminate; [reflexivity|].
  f_equal. apply IH. lia.
Qed.

Lemma firstn_zip_with {A B C} (f : A -> B -> C) (n : nat) (a : list A) (b : list B) :
  firstn n (Torch.zip_with f a b) = Torch.zip_with f (firstn n a) (firstn n b).
Proof.
  revert a b. induction n as [|n IH]; intros [|x a] [|y b]; simpl;
    try reflexivity. now rewrite IH.
Qed.

Lemma skipn_zip_with {A B C} (f : A -> B -> C) (n : nat) (a : list A) (b : list B) :
  skipn n (Torch.zip_with f a b) = Torch.zip_with f (skipn n a) (skipn n b).
Proof.
  revert a b. induction n as [|n IH]; intros [|x a] [|y b]; simpl;
    try reflexivity; try apply IH.
  now destruct (skipn n a).
Qed.

Lemma sum_Forall2 (l l' : list Q) : Forall2 Qeq l l' -> Py.sum l == Py.sum l'.
Proof.
  induction 1 as [|x y l l' Hxy _ IH]; [reflexivity|].
  now rewrite !sum_cons, Hxy, IH.
Qed.

Lemma sum_all_zero (l : list Q) : Forall (fun x => x == 0) l -> Py.sum l == 0.
Proof.
  induction 1 as [|x l Hx _ IH]; [reflexivity|].
  rewrite sum_cons, Hx, IH. reflexivity.
Qed.

Lemma masked_false_zero (row : list Q) (k : nat) :
  Forall (fun x => x == 0) (Torch.zip_with masked row (repeat false k)).
Proof.
  revert k. induction row as [|x row IH]; intros [|k]; simpl; constructor.
  - unfold masked. simpl. ring.
  - apply IH.
Qed.

Lemma masked_true_id (row : list Q) (n : nat) :
  Forall2 Qeq (Torch.zip_with masked row (repeat true n)) (firstn n row).
Proof.
  revert n. induction row as [|x row IH]; intros [|n]; simpl; constructor.
  - unfold masked. simpl. ring.
  - apply IH.
Qed.

(** A sum under the mask of an example of [n] days reads the first [n]
    entries only. *)
Lemma masked_sum_firstn (ys : list Q) (n k : nat) :
  Py.sum (Torch.zip_with masked ys (repeat true n ++ repeat false k))
  == Py.sum (firstn n ys).
Proof.
  revert ys. induction n as [|n IH]; intros ys.
  - simpl. rewrite (sum_all_zero _ (masked_false_zero ys k)). reflexivity.
  - destruct ys as [|y ys]; [reflexivity|]. simpl.
    rewrite !sum_cons, IH. unfold masked. simpl. ring.
Qed.

Lemma masked_sum_prefix (xs xs' : list Q) (n M : nat) :
  firstn n xs = firstn n xs' ->
  Py.sum (Torch.zip_with masked xs (mask_row n M))
  == Py.sum (Torch.zip_with masked xs' (mask_row n M)).
Proof.
  intros H. unfold mask_row. now rewrite !masked_sum_firstn, H.
Qed.

Lemma mean_Forall2 (l l' : list Q) : Forall2 Qeq l l' -> mean l == mean l'.
Proof.
  intros H. unfold mean.
  rewrite (sum_Forall2 _ _ H), (Forall2_length H). reflexivity.
Qed.

Lemma Forall2_map_same {A} (f g : A -> Q) (l : list A) :
  (forall x, In x l -> f x == g x) -> Forall2 Qeq (map f l) (map g l).
Proof.
  induction l as [|x l IH]; intros H; simpl; constructor.
  - apply H. now left.
  - apply IH. intros y Hy. apply H. now right.
Qed.

Lemma map_fst_combine3 {A B C} (a : list A) (b : list B) (c : list C) :
  length b = length a -> length c = length a ->
  map (fun r => fst r) (combine a (combine b c)) = a /\
  map (fun r => fst (snd r)) (combine a (combine b c)) = b /\
  map (fun r => snd (snd r)) (combine a (combine b c)) = c.
Proof.
  revert b c. induction a as [|x a IH]; intros [|y b] [|z c] Hb Hc;
    simpl in *; try discriminate; [auto|].
  destruct (IH b c) as (H1 & H2 & H3); try lia.
  now rewrite H1, H2, H3.
Qed.

Lemma Forall_combine3 {A B C} (P : A -> B -> C -> Prop)
    (a : list A) (b : list B) (c : list C) :
  (forall i x y z, nth_error a i = Some x -> nth_error b i = Some y ->
                   nth_error c i = Some z -> P x y z) ->
  Forall (fun r => P (fst r) (fst (snd r)) (snd (snd r)))
         (combine a (combine b c)).
Proof.
  revert b c. induction a as [|x a IH]; intros [|y b] [|z c] H; simpl;
    try constructor.
  - exact (H 0 x y z eq_refl eq_refl eq_refl).
  - apply IH. intros i. exact (H (S i)).
Qed.

(** Under the indicator of non-negative labels, the days padded with
    [-2.] add nothing, whatever the logits are there. *)
Lemma indicator_padding_zero (G : list Q -> list Q -> list Q)
    (X : list (list Q)) (w k : nat) :
  Forall (fun x => x == 0)
    (Torch.zip_with (fun (row : list Q) (ind : list bool) =>
                       Py.sum (Torch.zip_with masked row ind))
       (Torch.zip_with G X (repeat (repeat (-2)%Q w) k))
       (map (map (fun x : Q => Qle_bool 0 x)) (repeat (repeat (-2)%Q w) k))).
Proof.
  revert X. induction k as [|k IH]; intros [|x X]; simpl; constructor.
  - rewrite map_repeat. apply sum_all_zero, masked_false_zero.
  - apply IH.
Qed.

Lemma indicator_sum_prefix (G : list Q -> list Q -> list Q)
    (a a' : list (list Q)) (lab : list (list Q)) (w k : nat) :
  firstn (length lab) a = firstn (length lab) a' ->
  Py.sum (Torch.zip_with (fun (row : list Q) (ind : list bool) =>
                            Py.sum (Torch.zip_with masked row ind))
            (Torch.zip_with G a (lab ++ repeat (repeat (-2)%Q w) k))
            (map (map (fun x : Q => Qle_bool 0 x))
                 (lab ++ repeat (repeat (-2)%Q w) k)))
  == Py.sum (Torch.zip_with (fun (row : list Q) (ind : list bool) =>
                               Py.sum (Torch.zip_with masked row ind))
               (Torch.zip_with G a' (lab ++ repeat (repeat (-2)%Q w) k))
               (map (map (fun x : Q => Qle_bool 0 x))
                    (lab ++ repeat (repeat (-2)%Q w) k))).
Proof.
  intros H.
  assert (E : forall b,
             Py.sum (Torch.zip_with (fun (row : list Q) (ind : list bool) =>
                                       Py.sum (Torch.zip_with masked row ind))
                       (Torch.zip_with G b (lab ++ repeat (repeat (-2)%Q w) k))
                       (map (map (fun x : Q => Qle_bool 0 x))
                            (lab ++ repeat (repeat (-2)%Q w) k)))
             == Py.sum (Torch.zip_with (fun (row : list Q) (ind : list bool) =>
                                          Py.sum (Torch.zip_with masked row ind))
                          (Torch.zip_with G (firstn (length lab) b) lab)
                          (map (map (fun x : Q => Qle_bool 0 x)) lab))).
  { intros b.
    match goal with
    | |- Py.sum ?D == _ => rewrite <- (firstn_skipn (length lab) D)
    end.
    rewrite sum_app, !firstn_zip_with, !skipn_zip_with.
    rewrite firstn_map, skipn_map.
    rewrite firstn_app, skipn_app, firstn_all, skipn_all, Nat.sub_diag.
    simpl firstn. simpl skipn. rewrite app_nil_r. cbn [app].
    rewrite (sum_all_zero _ (indicator_padding_zero G _ w k)). ring. }
  now rewrite !E, H.
Qed.

Section LossPadding.

Variable Hidden : Type.
Variable tf_classifier mc_classifier : Hidden -> list Q.
Variable regressor : Hidden -> Q.
Variable log_softmax : list Q -> list Q.

(** X17. For every batch the collator returns from examples that each
    have at least one day, the training loss (the
    evaluation loss is computed alike) is the same for any two outputs of
    the forecaster that agree on the days each example really has: what
    the forecaster computes on padding days never reaches the loss, in
    any of the three categories. *)
Theorem padding_never_reaches_the_loss
    (examples labels : list (list (list Q))) (true_labels : list label)
    (cats : list Z) (batch : Batch)
    (hidden_state hidden_state' : list (list Hidden)) :
  forecaster_collate_fn examples labels true_labels cats = Ok batch ->
  Forall (fun lab => lab <> []) labels ->
  same_on_real_days labels hidden_state hidden_state' ->
  train_loss tf_classifier mc_classifier regressor log_softmax hidden_state
             (b_mask batch) (b_labels batch) (b_cats batch)
  == train_loss tf_classifier mc_classifier regressor log_softmax hidden_state'
                (b_mask batch) (b_labels batch) (b_cats batch).
Proof.
  intros Hb _ (Hh & Hh' & Hsame).
  assert (Hagree : forall i lab h h',
             nth_error labels i = Some lab ->
             nth_error hidden_state i = Some h ->
             nth_error hidden_state' i = Some h' ->
             firstn (length lab) h = firstn (length lab) h').
  { intros i lab h h' H1 H2 H3. now destruct (Hsame i lab h h' H1 H2 H3) as (_ & _ & H). }
  clear Hsame.
  destruct (forecaster_collate_fn_spec _ _ _ _ _ Hb)
    as (_ & Hl & Hmask & _ & _ & Hc & _).
  rewrite Hl, Hmask, Hc. clear Hl Hmask Hc Hb.
  set (M := Torch.max_len labels). set (w := trailing labels).
  clearbody M w.
  pose proof (Forall_combine3
                (fun (lab : list (list Q)) (h h' : list Hidden) =>
                   firstn (length lab) h = firstn (length lab) h')
                labels hidden_state hidden_state' Hagree) as Hrows.
  destruct (map_fst_combine3 labels hidden_state hidden_state' Hh Hh')
    as (E1 & E2 & E3).
  set (rows := combine labels (combine hidden_state hidden_state')) in *.
  clearbody rows. rewrite <- E1, <- E2, <- E3. clear E1 E2 E3 Hagree Hh Hh'.
  rewrite Forall_forall in Hrows.
  unfold train_loss, loss_tf, loss_mc, loss_re.
  unfold tf_example_losses, mc_example_losses, re_example_losses,
    size_tf_seq, size_mc_seq, size_re_seq, tf_mask, mc_mask, re_mask,
    mc_mask_indi, tf_logits, mc_logits, re_results, tf_labels, mc_labels, re_labels.
  rewrite !map_map, !select_map, !map_map.
  rewrite !zip_with_map.
  assert (Hin : forall c r, In r (select c cats rows) ->
                        firstn (length (fst r)) (fst (snd r))
                        = firstn (length (fst r)) (snd (snd r))).
  { intros c r Hr. apply Hrows. eapply select_incl. exact Hr. }
  apply Qplus_comp; [apply Qplus_comp|].
  - destruct (0 <? _); [|reflexivity].
    apply mean_Forall2, Forall2_map_same. intros r Hr.
    apply Qdiv_comp; [|reflexivity]. apply masked_sum_prefix.
    rewrite !firstn_map, !firstn_zip_with, !firstn_map.
    now rewrite (Hin _ _ Hr).
  - destruct (0 <? _); [|reflexivity].
    apply Qdiv_comp; [|reflexivity].
    apply mean_Forall2, Forall2_map_same. intros r Hr.
    apply Qdiv_comp; [|reflexivity]. apply indicator_sum_prefix.
    rewrite !firstn_map. now rewrite (Hin _ _ Hr).
  - destruct (0 <? _); [|reflexivity].
    apply Qdiv_comp; [|reflexivity].
    apply mean_Forall2, Forall2_map_same. intros r Hr.
    apply Qdiv_comp; [|reflexivity]. apply masked_sum_prefix.
    rewrite !firstn_zip_with, !firstn_map.
    now rewrite (Hin _ _ Hr).
Qed.
End LossPadding.

Lemma padding_never_reaches_the_loss_witness :
  exists batch,
    forecaster_collate_fn [hidden_two_days; hidden_four_days]
      [labels_two_days; labels_four_days] [IntLabel 1; IntLabel 1] [0%Z; 1%Z]
    = Ok batch /\
    train_loss (fun h : Q => [h; (1 - h)%Q]) (fun h : Q => repeat h 12)
      (fun h : Q => h) (fun l : list Q => l)
      [[1; 2; 3; 4]; [5; 6; 7; 8]]%Q
      (b_mask batch) (b_labels batch) (b_cats batch)
    == train_loss (fun h : Q => [h; (1 - h)%Q]) (fun h : Q => repeat h 12)
         (fun h : Q => h) (fun l : list Q => l)
         [[1; 2; 9; 9]; [5; 6; 7; 8]]%Q
         (b_mask batch) (b_labels batch) (b_cats batch).
Proof.
  eexists. split; [reflexivity|].
  apply (padding_never_reaches_the_loss Q (fun h : Q => [h; (1 - h)%Q])
           (fun h : Q => repeat h 12) (fun h : Q => h) (fun l : list Q => l)
           [hidden_two_days; hidden_four_days]
           [labels_two_days; labels_four_days] [IntLabel 1; IntLabel 1]
           [0%Z; 1%Z]).
  - reflexivity.
  - repeat constructor; discriminate.
  - split; [reflexivity|]. split; [reflexivity|].
    intros [|[|i]] lab h h' H1 H2 H3; simpl in H1, H2, H3;
      try (destruct i; discriminate);
      inversion H1; inversion H2; inversion H3; subst;
      repeat split; reflexivity.
Defined.
